(** * metta_python_patcher: observer hub, patch engine and member classifier

    A shallow embedding of [src/canary/metta_python_patcher.py].

    Python code is embedded as functions in a state/exception monad.  The
    parts of the Python runtime that the module relies on but does not
    define (calling a callable, [getattr], [inspect.signature], [str] on
    arbitrary objects ...) are collected in the [HostModel] class; every
    general theorem is proved for an arbitrary host.  Console output
    ([print], [mesg]) is not modelled; the text of a message is taken to be
    built without failure, except in the handlers of [signature], where an
    object that cannot be formatted makes the function raise. *)

From stdpp Require Import gmap strings list.
From Stdlib Require Import ZArith Ascii String Lia.

Set Warnings "-register-all,-clear-no-such-hyp".

Local Open Scope string_scope.
Local Open Scope list_scope.

(** ** Python values *)

(** The values that flow through the module.  Objects that Python compares
    by identity carry an identifier. *)
Inductive value : Type :=
| VNone
| VBool (b : bool)
| VInt (n : Z)
| VStr (s : string)
| VTuple (items : list value)
| VList (items : list value)
| VDict (entries : list (string * value))  (* entries under [str] keys, the only ones the module reads *)
| VModule (name : string)                  (* instance of [types.ModuleType] *)
| VClass (name : string)
| VProperty (id : nat) (fget fset : value) (* [property] object; absent accessor is [VNone] *)
| VStaticMethod (id : nat) (func : value)  (* raw [staticmethod] descriptor *)
| VClassMethod (id : nat) (func : value)   (* raw [classmethod] descriptor *)
| VFunction (id : nat)                     (* [types.FunctionType] *)
| VBoundMethod (self func : value)         (* [types.MethodType] *)
| VBuiltin (id : nat)                      (* [types.BuiltinFunctionType] *)
| VCallable (id : nat)                     (* any other callable object *)
| VInstance (id : nat).                    (* any other object *)

(** Python exceptions, as far as the module distinguishes them.  The last
    three derive from [BaseException] only. *)
Inductive exn : Type :=
| IndexError
| TypeError
| ValueError
| AttributeError
| RecursionError
| OtherError (what : string)
| KeyboardInterrupt
| SystemExit
| GeneratorExit.

(** [isinstance(e, Exception)]: what a clause [except Exception] catches. *)
Definition is_exception (e : exn) : bool :=
  match e with
  | KeyboardInterrupt | SystemExit | GeneratorExit => false
  | _ => true
  end.

Inductive res (A : Type) : Type :=
| Ok (a : A)
| Raise (e : exn).
Arguments Ok {A} a.
Arguments Raise {A} e.

(** [bool(v)]. Objects without [__bool__]/[__len__] are true. *)
Definition truthy (v : value) : bool :=
  match v with
  | VNone => false
  | VBool b => b
  | VInt n => negb (Z.eqb n 0)
  | VStr s => negb (String.eqb s "")
  | VTuple l | VList l => negb (Nat.eqb (List.length l) 0)
  | VDict d => negb (Nat.eqb (List.length d) 0)
  | _ => true
  end.

(** [d.get(k, default)] on the entries of a dict or of [**kwargs]. *)
Fixpoint dict_get (d : list (string * value)) (k : string) (default : value) : value :=
  match d with
  | [] => default
  | (k', v) :: d' => if String.eqb k' k then v else dict_get d' k default
  end.

(** [x is None] *)
Definition is_none (v : value) : bool :=
  match v with VNone => true | _ => false end.

(** [isinstance(x, types.ModuleType)] *)
Definition is_module (v : value) : bool :=
  match v with VModule _ => true | _ => false end.

(** [isinstance(x, property)] *)
Definition is_property (v : value) : bool :=
  match v with VProperty _ _ _ => true | _ => false end.

(** [callable(x)] (Python 3.10 and later: [staticmethod] objects are
    callable, [classmethod] objects are not). *)
Definition callable (v : value) : bool :=
  match v with
  | VClass _ | VStaticMethod _ _ | VFunction _ | VBoundMethod _ _
  | VBuiltin _ | VCallable _ => true
  | _ => false
  end.

(** ** Strings *)

Definition startswith (s p : string) : bool := String.prefix p s.

Definition str_rev (s : string) : string :=
  string_of_list_ascii (List.rev (list_ascii_of_string s)).

Definition endswith (s p : string) : bool := String.prefix (str_rev p) (str_rev s).

(** [needle in hay] *)
Fixpoint str_contains (needle hay : string) : bool :=
  String.prefix needle hay ||
  match hay with
  | EmptyString => false
  | String _ hay' => str_contains needle hay'
  end.

(** ** The host object model *)

(** Process state visible to Python code: the module global
    [suspend_trace] and whatever the host keeps on its heap. *)
Record hstate (H : Type) : Type := HState {
  suspend_trace : bool;
  host_heap : H
}.
Arguments HState {H} _ _.
Arguments suspend_trace {H} _.
Arguments host_heap {H} _.

Definition set_suspend {H} (b : bool) (st : hstate H) : hstate H :=
  HState b (host_heap st).

(** Outcome of [inspect.signature(obj)]: the declared parameter names, or
    the exception raised. *)
Inductive sig_result : Type :=
| SigOk (params : list string)
| SigValueError
| SigTypeError
| SigOtherError.

Class HostModel : Type := {
  heap : Type;
  (** A call [f(pos..., kw...)] of a callable that is not part of this module:
      subscribers, original methods, property accessors. *)
  py_call : value -> list value -> list (string * value) ->
            hstate heap -> res value * hstate heap;
  (** [getattr(obj, name, default)] *)
  py_getattr : value -> string -> value -> hstate heap -> res value * hstate heap;
  (** [obj.__dict__[name] = v] *)
  py_dict_set : value -> string -> value -> hstate heap -> res unit * hstate heap;
  (** [str(obj)] for objects other than [str] instances *)
  py_str_other : value -> string;
  (** The exception [format(obj)] raises inside an f-string, if it raises
      one: a [__str__] or [__repr__] that fails. *)
  py_format_error : value -> option exn;
  (** [inspect.signature(obj)] *)
  inspect_signature : value -> sig_result;
  (** [obj.__doc__] *)
  py_doc : value -> option string;
  (** A store into an instance dictionary under a [str] key runs no code of
      the program: what it raises derives from [Exception]. *)
  py_dict_set_ordinary :
    forall obj name v st e st',
      py_dict_set obj name v st = (Raise e, st') -> is_exception e = true
}.

(** ** The monad of the embedding *)

(** What the module itself does to foreign callables; the list a
    computation returns is the sequence of calls it made directly. *)
Inductive event : Type :=
| EvCallback (key : string) (callback : value) (args : list value) (result : res value)
| EvOriginal (f : value) (pos : list value) (kw : list (string * value)).

Abbreviation state := (hstate heap).

(** The three parts of what a computation yields. *)
Definition result_of {A S E} (out : res A * S * E) : res A := fst (fst out).
Definition state_of {A S E} (out : res A * S * E) : S := snd (fst out).
Definition events_of {A S E} (out : res A * S * E) : E := snd out.

Section Embedding.
Context `{HM : HostModel}.

Definition M (A : Type) : Type := state -> res A * state * list event.

Definition ret {A} (a : A) : M A := fun st => (Ok a, st, []).
Definition raise {A} (e : exn) : M A := fun st => (Raise e, st, []).
Definition bind {A B} (m : M A) (k : A -> M B) : M B :=
  fun st =>
    match m st with
    | (Ok a, st1, ev1) =>
        match k a st1 with
        | (r, st2, ev2) => (r, st2, ev1 ++ ev2)
        end
    | (Raise e, st1, ev1) => (Raise e, st1, ev1)
    end.

Definition get_suspend_trace : M bool := fun st => (Ok (suspend_trace st), st, []).
Definition set_suspend_trace (b : bool) : M unit := fun st => (Ok tt, set_suspend b st, []).

Definition lift_host {A} (h : state -> res A * state) : M A :=
  fun st => match h st with (r, st') => (r, st', []) end.

(** [try: body  except Exception: handler; raise]: an exception that does
    not derive from [Exception] passes the clause by. *)
Definition except_reraise {A} (body : M A) (handler : M unit) : M A :=
  fun st =>
    match body st with
    | (Ok a, st1, ev1) => (Ok a, st1, ev1)
    | (Raise e, st1, ev1) =>
        if is_exception e then
          match handler st1 with
          | (Ok _, st2, ev2) => (Raise e, st2, ev1 ++ ev2)
          | (Raise e', st2, ev2) => (Raise e', st2, ev1 ++ ev2)
          end
        else (Raise e, st1, ev1)
    end.

End Embedding.

Declare Scope py_scope.
Delimit Scope py_scope with py.
Notation "x <- m ;; k" := (bind m (fun x => k))
  (at level 100, m at next level, right associativity) : py_scope.
Notation "m ;;; k" := (bind m (fun _ => k))
  (at level 100, right associativity) : py_scope.
Local Open Scope py_scope.

Section Observer.
Context `{HM : HostModel}.

(** [str(v)] *)
Definition py_str (v : value) : string :=
  match v with
  | VStr s => s
  | _ => py_str_other v
  end.

(** A call expression [f(pos..., kw...)]: calling a non-callable raises
    [TypeError], otherwise the host runs the callable. *)
Definition call_value (f : value) (pos : list value) (kw : list (string * value))
    (st : state) : res value * state :=
  if callable f then py_call f pos kw st else (Raise TypeError, st).

(** *** class Observer *)

Record Observer : Type := { observers : gmap string (list value) }.

(** [Observer.__init__] *)
Definition Observer_init : Observer := {| observers := ∅ |}.

(** [Observer.subscribe(event_type, callback, level="instance")] *)
Definition subscribe (self : Observer) (event_type : string) (callback : value)
    (level : string) : Observer :=
  let key := level +:+ "_" +:+ event_type in
  let obs := match observers self !! key with
             | None => <[key := []]> (observers self)
             | Some _ => observers self
             end in
  {| observers := alter (fun l => l ++ [callback]) key obs |}.

(** The loop [for callback in self.observers[event_key]] of [notify]:
    [Some r] is the early [return result].  The list is the one found under
    the key when the loop starts; subscribers act on the host state and do
    not subscribe while a dispatch is under way. *)
Fixpoint dispatch (event_key : string) (callbacks : list value) (args : list value)
    : M (option value) :=
  match callbacks with
  | [] => ret None
  | callback :: rest =>
      fun st =>
        match call_value callback args [] st with
        | (Ok result, st1) =>
            if is_none result then
              match dispatch event_key rest args st1 with
              | (r, st2, evs) =>
                  (r, st2, EvCallback event_key callback args (Ok result) :: evs)
              end
            else (Ok (Some result), st1,
                  [EvCallback event_key callback args (Ok result)])
        | (Raise e, st1) =>
            (Raise e, st1, [EvCallback event_key callback args (Raise e)])
        end
  end.

Definition denylist : list string := ["tokenizer"; "metta_err_str"; "_free"].

(** The test [len(args_list) > 1] and the loop over the substrings that
    makes [notify] return at once. *)
Definition denylisted (args_list : list value) : bool :=
  (Nat.ltb 1 (List.length args_list) &&
   existsb (fun substring => str_contains substring (py_str (nth 1 args_list VNone)))
           denylist)%bool.

(** [Observer.notify(func, event_type, *args, **kwargs)] *)
Definition notify (self : Observer) (func : value) (event_type : string)
    (args : list value) (kwargs : list (string * value)) : M value :=
  suspended <- get_suspend_trace ;;
  if suspended then ret VNone else
  let level := dict_get kwargs "level" (VStr "instance") in
  let args_list := args in
  if denylisted args_list then ret VNone else
  match args_list with
  | [] => raise IndexError
  | a0 :: rest =>
      let args := (if is_module a0 then VNone else a0) :: rest in
      let event_key := py_str level +:+ "_" +:+ event_type in
      match observers self !! event_key with
      | Some callbacks =>
          r <- dispatch event_key callbacks args ;;
          match r with
          | Some result => ret result
          | None => ret (dict_get kwargs "default_value" VNone)
          end
      | None => ret (dict_get kwargs "default_value" VNone)
      end
  end.

(** The key [notify] looks up, and the payload it hands to subscribers. *)
Definition event_key_of (kwargs : list (string * value)) (event_type : string) : string :=
  py_str (dict_get kwargs "level" (VStr "instance")) +:+ "_" +:+ event_type.

Definition normalized (args : list value) : list value :=
  match args with
  | [] => []
  | a0 :: rest => (if is_module a0 then VNone else a0) :: rest
  end.

(** A run of [subscribe] calls [(event_type, callback, level)], in order. *)
Definition subscribe_all (self : Observer) (subs : list (string * value * string))
    : Observer :=
  fold_left (fun o sub => subscribe o (fst (fst sub)) (snd (fst sub)) (snd sub)) subs self.

(** The callbacks of [subs] that were subscribed under [key], in the order
    of their subscription. *)
Definition subscribed_under (key : string) (subs : list (string * value * string))
    : list value :=
  flat_map (fun sub =>
              if String.eqb (snd sub +:+ "_" +:+ fst (fst sub)) key
              then [snd (fst sub)] else []) subs.

End Observer.

(** ** Helper functions for instance getters and setters, and the patched callables *)

Section Wrappers.
Context `{HM : HostModel}.

(** [*v] at a call site *)
Definition unpack_star (v : value) : res (list value) :=
  match v with
  | VTuple l | VList l => Ok l
  | VStr s => Ok (map (fun c => VStr (String c EmptyString)) (list_ascii_of_string s))
  | VDict d => Ok (map (fun kv => VStr (fst kv)) d)
  | _ => Raise TypeError
  end.

(** [**v] at a call site *)
Definition unpack_dstar (v : value) : res (list (string * value)) :=
  match v with
  | VDict d => Ok d
  | _ => Raise TypeError
  end.

(** [original(first..., *star, **dstar)] *)
Definition call_original (original : value) (first : list value) (star dstar : value)
    : M value :=
  match unpack_star star, unpack_dstar dstar with
  | Ok pos, Ok kw =>
      fun st =>
        match call_value original (first ++ pos) kw st with
        | (r, st') => (r, st', [EvOriginal original (first ++ pos) kw])
        end
  | _, _ => raise TypeError
  end.

(** The four closures [patched_method], [patched_class_method],
    [patched_static_method] and [patched_function] have one body, word for
    word; they differ in the [level] they notify under and in the implicit
    first argument [first] handed to the original.

    Second half of that body, once the arguments are settled: the call of
    the original and the ['after_call'] notification. *)
Definition call_then_notify (observer : Observer) (original target : value)
    (name level : string) (first : list value) (modified_args modified_kwargs : value)
    : M value :=
  result <- call_original original first modified_args modified_kwargs ;;
  modified_result <- notify observer original "after_call"
                       [target; VStr name; result] [("level", VStr level)] ;;
  ret (if is_none modified_result then result else modified_result).

(** The whole body. *)
Definition observed_call (observer : Observer) (original target : value)
    (name level : string) (first args : list value) (kwargs : list (string * value))
    : M value :=
  result <- notify observer original "before_call"
              [target; VStr name; VTuple args; VDict kwargs] [("level", VStr level)] ;;
  match result with
  | VDict d =>
      if truthy (dict_get d "do_not_really_call" (VBool false))
      then ret (dict_get d "return_value" VNone)
      else call_then_notify observer original target name level first
             (VTuple args) (VDict kwargs)
  | VTuple [modified_args; modified_kwargs] =>
      call_then_notify observer original target name level first
        modified_args modified_kwargs
  | VTuple _ => raise ValueError
  | _ => call_then_notify observer original target name level first
           (VTuple args) (VDict kwargs)
  end.

(** closure of [MonkeyPatcher.patch_instance_method] *)
Definition patched_method (observer : Observer) (original_method target_class : value)
    (method_name : string) (instance_self : value) (args : list value)
    (kwargs : list (string * value)) : M value :=
  observed_call observer original_method target_class method_name "instance"
    [instance_self] args kwargs.

(** closure of [MonkeyPatcher.patch_class_method]; [original_method] is
    [method.__func__] *)
Definition patched_class_method (observer : Observer) (original_method target_class : value)
    (method_name : string) (cls : value) (args : list value)
    (kwargs : list (string * value)) : M value :=
  observed_call observer original_method target_class method_name "class"
    [cls] args kwargs.

(** closure of [MonkeyPatcher.patch_static_method] *)
Definition patched_static_method (observer : Observer) (original_method target_class : value)
    (method_name : string) (args : list value) (kwargs : list (string * value)) : M value :=
  observed_call observer original_method target_class method_name "class"
    [] args kwargs.

(** closure of [MonkeyPatcher.patch_module_function] *)
Definition patched_function (observer : Observer) (original_function module : value)
    (function_name : string) (args : list value) (kwargs : list (string * value)) : M value :=
  observed_call observer original_function module function_name "module"
    [] args kwargs.

Definition property_fget (p : value) : value :=
  match p with VProperty _ fget _ => fget | _ => VNone end.
Definition property_fset (p : value) : value :=
  match p with VProperty _ _ fset => fset | _ => VNone end.

(** closure of [create_instance_getter] *)
Definition instance_getter (original_property : value) (property_name : string)
    (target : value) (observer : Observer) (level : string) (self : value) : M value :=
  suspended <- get_suspend_trace ;;
  if suspended then
    lift_host (py_getattr self ("__original_" +:+ property_name) VNone)
  else
    except_reraise
      (set_suspend_trace true ;;;
       current_value <-
         (if is_property original_property
          then call_original (property_fget original_property) [self] (VTuple []) (VDict [])
          else lift_host (py_getattr self ("__original_" +:+ property_name) VNone)) ;;
       set_suspend_trace false ;;;
       result <- notify observer original_property "get"
                   [target; VStr property_name; current_value] [("level", VStr level)] ;;
       match result with
       | VDict d =>
           if truthy (dict_get d "do_not_really_get" (VBool false))
           then ret (dict_get d "return_value" VNone)
           else ret current_value
       | _ => ret current_value
       end)
      (set_suspend_trace false).

(** [try: body  except AttributeError: handler] *)
Definition except_attribute_error {A} (body : M A) (handler : M A) : M A :=
  fun st =>
    match body st with
    | (Raise AttributeError, st1, ev1) =>
        match handler st1 with
        | (r, st2, ev2) => (r, st2, ev1 ++ ev2)
        end
    | other => other
    end.

(** closure of [create_instance_setter] *)
Definition instance_setter (original_property : value) (property_name : string)
    (target : value) (observer : Observer) (level : string) (self new_value : value)
    : M unit :=
  suspended <- get_suspend_trace ;;
  if suspended then
    lift_host (py_dict_set self property_name new_value)
  else
    except_reraise
      (set_suspend_trace true ;;;
       result <- notify observer original_property "set"
                   [target; VStr property_name; new_value] [("level", VStr level)] ;;
       let store : M unit :=
         (if is_property original_property then
            if negb (is_none (property_fset original_property)) then
              except_attribute_error
                (call_original (property_fset original_property) [self; new_value]
                   (VTuple []) (VDict []) ;;; ret tt)
                (lift_host (py_dict_set self "instance_var" new_value))
            else lift_host (py_dict_set self "instance_var" new_value)
          else lift_host (py_dict_set self "instance_var" new_value)) ;;;
         set_suspend_trace false in
       match result with
       | VDict d =>
           if truthy (dict_get d "do_not_really_set" (VBool false))
           then set_suspend_trace false
           else store
       | _ => store
       end)
      (set_suspend_trace false).

End Wrappers.

(** ** Signatures *)

Section Signature.
Context `{HM : HostModel}.












(** [uses_self]; an exception other than [ValueError] and [TypeError]
    escapes. *)
Definition uses_self (member : value) : res bool :=
  if negb (callable member) then Ok false else
  match inspect_signature member with
  | SigOk params => Ok (existsb (String.eqb "self") params)
  | SigValueError | SigTypeError => Ok false
  | SigOtherError => Raise (OtherError "inspect.signature")
  end.

End Signature.

(** ** Classification *)

Module MemberType.
Inductive t : Type :=
| VARIABLE | PROPERTY | METHOD | STATIC_METHOD | CLASS_METHOD
| FUNCTION | MODULE | CLASS | SPECIAL_METHOD | SPECIAL_VARIABLE.
End MemberType.

Module MemberLevel.
Inductive t : Type := INSTANCE | CLASS | MODULE.
End MemberLevel.

Module Implemented.
Inductive t : Type := LOCAL | INHERITED | DEFAULT.
Definition value (i : t) : string :=
  match i with
  | LOCAL => "Local"
  | INHERITED => "Inherited"
  | DEFAULT => "Default"
  end.
End Implemented.

Inductive container_kind : Type := IsClass | IsModule | IsOther.

(** What the module reads of a class or module it inspects. *)
Record container : Type := {
  c_kind : container_kind;                              (* [inspect.isclass] / [inspect.ismodule] *)
  c_name : string;                                      (* [obj.__name__] *)
  c_dict : list (string * value);                       (* [obj.__dict__] *)
  c_mro_tail : list (string * list (string * value));   (* [inspect.getmro(obj)[1:]]: name and [__dict__] of each base *)
  c_members : list (string * value);                    (* [inspect.getmembers(obj)] *)
  c_frozen : bool                                       (* [setattr(obj, ...)] raises [TypeError] *)
}.

(** The object itself, as it is handed to subscribers. *)
Definition container_ref (obj : container) : value :=
  match c_kind obj with
  | IsClass => VClass (c_name obj)
  | IsModule => VModule (c_name obj)
  | IsOther => VInstance 0
  end.

Fixpoint dict_find (d : list (string * value)) (k : string) : option value :=
  match d with
  | [] => None
  | (k', v) :: d' => if String.eqb k' k then Some v else dict_find d' k
  end.

(** [implemented_in] *)
Definition implemented_in (member_name : string) (obj : container) : option string :=
  match c_kind obj with
  | IsClass =>
      if bool_decide (is_Some (dict_find (c_dict obj) member_name)) then Some (c_name obj)
      else
        match List.find (fun base => bool_decide (is_Some (dict_find (snd base) member_name)))
                        (c_mro_tail obj) with
        | Some base => Some (fst base)
        | None => None
        end
  | IsModule =>
      if bool_decide (is_Some (dict_find (c_dict obj) member_name)) then Some (c_name obj)
      else Some "imported"
  | IsOther => None
  end.

(** [get_member_descriptor]; Python's [None] is [VNone]. *)
Definition get_member_descriptor (obj : container) (name : string) : value :=
  match c_kind obj with
  | IsClass =>
      match dict_find (c_dict obj) name with
      | Some d => d
      | None =>
          match List.find (fun base => bool_decide (is_Some (dict_find (snd base) name)))
                          (c_mro_tail obj) with
          | Some base => default VNone (dict_find (snd base) name)
          | None => VNone
          end
      end
  | IsModule => default VNone (dict_find (c_dict obj) name)
  | IsOther => VNone
  end.

Definition is_dunder (name : string) : bool :=
  (startswith name "__" && endswith name "__")%bool.

(** [name.startswith('_') and not (name.startswith('__') and name.endswith('__'))] *)
Definition is_private (name : string) : bool :=
  (startswith name "_" && negb (is_dunder name))%bool.

(** Neither a [property], a [staticmethod] nor a [classmethod]. *)
Definition plain_descriptor (descriptor : value) : bool :=
  match descriptor with
  | VProperty _ _ _ | VStaticMethod _ _ | VClassMethod _ _ => false
  | _ => true
  end.

(** [classify_member_type] *)
Definition classify_member_type (obj : container) (name : string) (member : value)
    : MemberType.t :=
  let descriptor := get_member_descriptor obj name in
  match member with
  | VClass _ => MemberType.CLASS
  | VModule _ => MemberType.MODULE
  | _ =>
    match descriptor with
    | VProperty _ _ _ => MemberType.PROPERTY
    | VStaticMethod _ _ => MemberType.STATIC_METHOD
    | VClassMethod _ _ => MemberType.CLASS_METHOD
    | _ =>
      match member with
      | VFunction _ =>
          if is_dunder name then MemberType.SPECIAL_METHOD else MemberType.FUNCTION
      | VBoundMethod _ _ => MemberType.METHOD
      | _ =>
          if negb (callable member) then
            if is_dunder name then MemberType.SPECIAL_VARIABLE else MemberType.VARIABLE
          else
            if is_dunder name then MemberType.SPECIAL_METHOD else MemberType.METHOD
      end
    end
  end.

(** [classify_member_level] *)
Definition classify_member_level (obj : container) (name : string) (member : value)
    (implemented_from : option string) (uses_self_flag : bool) : MemberLevel.t :=
  let descriptor := get_member_descriptor obj name in
  match c_kind obj with
  | IsClass =>
      match descriptor with
      | VProperty _ _ _ => MemberLevel.INSTANCE
      | VStaticMethod _ _ => MemberLevel.CLASS
      | VClassMethod _ _ => MemberLevel.CLASS
      | _ =>
          if negb (callable member) then MemberLevel.CLASS
          else if uses_self_flag then MemberLevel.INSTANCE
          else if bool_decide (implemented_from = Some "object") then MemberLevel.MODULE
          else MemberLevel.CLASS
      end
  | IsModule => MemberLevel.MODULE
  | IsOther => MemberLevel.CLASS
  end.

(** [classify_implementation] *)
Definition classify_implementation (obj : container) (implemented_from : option string)
    : string :=
  if bool_decide (implemented_from = Some (c_name obj)) then Implemented.value Implemented.LOCAL
  else if bool_decide (implemented_from = Some "object") then Implemented.value Implemented.DEFAULT
  else if bool_decide (implemented_from <> None) then Implemented.value Implemented.INHERITED
  else Implemented.value Implemented.LOCAL.

(** ** Dictionary keys *)

(** Structural equality of values. *)
Fixpoint value_eqb (a b : value) {struct a} : bool :=
  let fix items_eqb (l1 l2 : list value) {struct l1} : bool :=
    match l1, l2 with
    | [], [] => true
    | x :: l1', y :: l2' => value_eqb x y && items_eqb l1' l2'
    | _, _ => false
    end in
  let fix entries_eqb (d1 d2 : list (string * value)) {struct d1} : bool :=
    match d1, d2 with
    | [], [] => true
    | e1 :: d1', e2 :: d2' =>
        String.eqb (fst e1) (fst e2) && value_eqb (snd e1) (snd e2) && entries_eqb d1' d2'
    | _, _ => false
    end in
  match a, b with
  | VNone, VNone => true
  | VBool x, VBool y => Bool.eqb x y
  | VInt x, VInt y => Z.eqb x y
  | VStr x, VStr y => String.eqb x y
  | VTuple x, VTuple y => items_eqb x y
  | VList x, VList y => items_eqb x y
  | VDict x, VDict y => entries_eqb x y
  | VModule x, VModule y => String.eqb x y
  | VClass x, VClass y => String.eqb x y
  | VProperty i g s, VProperty j g' s' => Nat.eqb i j && value_eqb g g' && value_eqb s s'
  | VStaticMethod i f, VStaticMethod j f' => Nat.eqb i j && value_eqb f f'
  | VClassMethod i f, VClassMethod j f' => Nat.eqb i j && value_eqb f f'
  | VFunction i, VFunction j => Nat.eqb i j
  | VBoundMethod s f, VBoundMethod s' f' => value_eqb s s' && value_eqb f f'
  | VBuiltin i, VBuiltin j => Nat.eqb i j
  | VCallable i, VCallable j => Nat.eqb i j
  | VInstance i, VInstance j => Nat.eqb i j
  | _, _ => false
  end.

(** The key a value stands for in a [dict]: [None] when the value is
    unhashable ([hash] raises [TypeError]); two hashable values are the same
    key exactly when their canonical forms coincide ([True == 1], objects by
    identity, tuples item by item). *)
Fixpoint member_key (v : value) : option value :=
  let fix items_key (l : list value) : option (list value) :=
    match l with
    | [] => Some []
    | x :: l' =>
        match member_key x, items_key l' with
        | Some k, Some ks => Some (k :: ks)
        | _, _ => None
        end
    end in
  match v with
  | VBool b => Some (VInt (if b then 1 else 0)%Z)
  | VTuple l =>
      match items_key l with
      | Some ks => Some (VTuple ks)
      | None => None
      end
  | VList _ | VDict _ => None
  | _ => Some v
  end.

(** ** class Inspector and class MonkeyPatcher *)

(** The [member_info] dictionaries. *)
Record member_info : Type := {
  mi_name : string;
  mi_member : value;
  mi_member_type : MemberType.t;
  mi_level : MemberLevel.t;
  mi_implemented : option string;               (* absent in records made for instance variables *)
  mi_implemented_from : option (option string);
  mi_class_name : string;
  mi_class_object : container
}.

(** What [setattr] puts on a class: a plain value or one of the
    replacement members.  The closures refer to the shared observer, which
    is supplied when they run. *)
Inductive installed : Type :=
| InstValue (v : value)
| InstPatchedMethod (original_method target_class : value) (method_name : string)
| InstPatchedClassMethod (original_method target_class : value) (method_name : string)
| InstPatchedStaticMethod (original_method target_class : value) (method_name : string)
| InstPatchedFunction (original_function module : value) (function_name : string)
| InstInstanceProperty (original_property : value) (property_name : string)
    (target_class : value) (level : string) (has_setter : bool)
| InstStaticProperty (cls : value) (property_name : string) (initial : value).

(** Every [setattr(cls, name, obj)] performed so far, latest first. *)
Definition namespace : Type := list (string * string * installed).



(** [setattr(cls, name, obj)] *)
Definition setattr (cls : container) (name : string) (obj : installed) (ns : namespace)
    : res unit * namespace :=
  if c_frozen cls then (Raise TypeError, ns)
  else (Ok tt, (c_name cls, name, obj) :: ns).

(** [MonkeyPatcher.patch_instance_method] *)
Definition patch_instance_method (target_class : container) (method_name : string)
    (method : value) (ns : namespace) : res unit * namespace :=
  setattr target_class method_name
    (InstPatchedMethod method (container_ref target_class) method_name) ns.

(** [method.__func__] *)
Definition func_of (method : value) : res value :=
  match method with
  | VBoundMethod _ f | VStaticMethod _ f | VClassMethod _ f => Ok f
  | _ => Raise AttributeError
  end.

(** [MonkeyPatcher.patch_class_method] *)
Definition patch_class_method (target_class : container) (method_name : string)
    (method : value) (ns : namespace) : res unit * namespace :=
  match func_of method with
  | Ok original_method =>
      setattr target_class method_name
        (InstPatchedClassMethod original_method (container_ref target_class) method_name) ns
  | Raise e => (Raise e, ns)
  end.

(** [MonkeyPatcher.patch_static_method] *)
Definition patch_static_method (target_class : container) (method_name : string)
    (method : value) (ns : namespace) : res unit * namespace :=
  setattr target_class method_name
    (InstPatchedStaticMethod method (container_ref target_class) method_name) ns.

(** [MonkeyPatcher.patch_module_function] *)
Definition patch_module_function (module : container) (function_name : string)
    (function : value) (ns : namespace) : res unit * namespace :=
  setattr module function_name
    (InstPatchedFunction function (container_ref module) function_name) ns.

(** [hasattr(p, 'fset') and p.fset is not None]; only [property] objects
    carry an [fset] here. *)
Definition has_setter (original_property : value) : bool :=
  match original_property with
  | VProperty _ _ fset => negb (is_none fset)
  | _ => false
  end.

(** [MonkeyPatcher.patch_instance_property] *)
Definition patch_instance_property (target_class : container) (property_name : string)
    (original_property : value) (level : string) (ns : namespace) : res unit * namespace :=
  setattr target_class property_name
    (InstInstanceProperty original_property property_name (container_ref target_class)
       level (has_setter original_property)) ns.

(** [MonkeyPatcher.patch_static_property] *)
Definition patch_static_property (cls : container) (property_name : string)
    (v : value) (ns : namespace) : res unit * namespace :=
  match setattr cls ("_" +:+ property_name) (InstValue v) ns with
  | (Ok _, ns1) =>
      setattr cls property_name (InstStaticProperty (container_ref cls) property_name v) ns1
  | (Raise e, ns1) => (Raise e, ns1)
  end.

Record Inspector : Type := {
  printed_classes : gset string;
  printed_members : gset (string * string);
  class_hierarchy : gmap string (list string);
  captured_members : gmap string (list member_info);
  patched_members : list (value * member_info);   (* a [dict], in insertion order *)
  observer : Observer
}.

(** [Inspector.__init__] *)
Definition Inspector_init : Inspector :=
  {| printed_classes := ∅; printed_members := ∅; class_hierarchy := ∅;
     captured_members := ∅; patched_members := []; observer := Observer_init |}.

(** [member in self.patched_members], for a hashable [member] with key [k] *)
Definition patched_has (k : value) (patched : list (value * member_info)) : bool :=
  existsb (fun e => match member_key (fst e) with
                    | Some k' => value_eqb k' k
                    | None => false
                    end) patched.

(** The [try] block of [patch_member_info]: which patch is applied. *)
Definition apply_patch (cls : container) (mi : member_info) (ns : namespace)
    : res unit * namespace :=
  let name := mi_name mi in
  let member := mi_member mi in
  let level := mi_level mi in
  match mi_member_type mi with
  | MemberType.METHOD =>
      match level with
      | MemberLevel.INSTANCE => patch_instance_method cls name member ns
      | MemberLevel.CLASS => patch_class_method cls name member ns
      | MemberLevel.MODULE => (Ok tt, ns)
      end
  | MemberType.CLASS_METHOD => patch_class_method cls name member ns
  | MemberType.STATIC_METHOD => patch_static_method cls name member ns
  | MemberType.PROPERTY =>
      let original_property := get_member_descriptor cls name in
      patch_instance_property cls name original_property "instance" ns
  | MemberType.VARIABLE =>
      match level with
      | MemberLevel.CLASS => patch_static_property cls name member ns
      | MemberLevel.INSTANCE => patch_instance_property cls name member "instance" ns
      | MemberLevel.MODULE => (Ok tt, ns)
      end
  | MemberType.FUNCTION =>
      match level with
      | MemberLevel.INSTANCE => patch_instance_method cls name member ns
      | _ => patch_static_method cls name member ns
      end
  | MemberType.SPECIAL_METHOD =>
      match level with
      | MemberLevel.INSTANCE => patch_instance_method cls name member ns
      | MemberLevel.CLASS => patch_class_method cls name member ns
      | MemberLevel.MODULE => (Ok tt, ns)
      end
  | _ => (Ok tt, ns)
  end.

(** [Inspector.patch_member_info]; an exception of the [try] block is
    logged and swallowed, an unhashable member makes the membership test
    raise. *)
Definition patch_member_info (self : Inspector) (cls : container) (mi : member_info)
    (ns : namespace) : res unit * Inspector * namespace :=
  match member_key (mi_member mi) with
  | None => (Raise TypeError, self, ns)
  | Some k =>
      if patched_has k (patched_members self) then (Ok tt, self, ns)
      else
        let self' :=
          {| printed_classes := printed_classes self;
             printed_members := printed_members self;
             class_hierarchy := class_hierarchy self;
             captured_members := captured_members self;
             patched_members := patched_members self ++ [(mi_member mi, mi)];
             observer := observer self |} in
        (Ok tt, self', snd (apply_patch cls mi ns))
  end.




#[global] Instance MemberType_eq_dec : EqDecision MemberType.t.
Proof. solve_decision. Defined.

#[global] Instance MemberLevel_eq_dec : EqDecision MemberLevel.t.
Proof. solve_decision. Defined.

Section Scan.
Context `{HM : HostModel}.

Definition with_printed_members (self : Inspector) (printed : gset (string * string))
    : Inspector :=
  {| printed_classes := printed_classes self;
     printed_members := printed;
     class_hierarchy := class_hierarchy self;
     captured_members := captured_members self;
     patched_members := patched_members self;
     observer := observer self |}.

(** The [for name, member in members] loop of [get_members], threading
    [self.printed_members] and the local [member_list]. *)
Fixpoint get_members_loop (obj : container) (no_filter : bool)
    (members : list (string * value)) (printed : gset (string * string))
    (member_list : list member_info)
    : res unit * gset (string * string) * list member_info :=
  match members with
  | [] => (Ok tt, printed, member_list)
  | (name, member) :: rest =>
      if is_private name
      then get_members_loop obj no_filter rest printed member_list
      else
        let implemented_from := implemented_in name obj in
        let is_callable := callable member in
        match (if is_callable then uses_self member else Ok false) with
        | Raise e => (Raise e, printed, member_list)
        | Ok self_usage =>
            let member_type := classify_member_type obj name member in
            let member_level :=
              classify_member_level obj name member implemented_from self_usage in
            let implementation := classify_implementation obj implemented_from in
            if (negb no_filter &&
                (negb (String.eqb implementation (Implemented.value Implemented.LOCAL)) ||
                 (bool_decide (member_level = MemberLevel.CLASS) &&
                  bool_decide (member_type = MemberType.SPECIAL_VARIABLE))))%bool
            then get_members_loop obj no_filter rest printed member_list
            else if bool_decide ((c_name obj, name) ∈ printed)
            then get_members_loop obj no_filter rest printed member_list
            else
              let member_info :=
                {| mi_name := name; mi_member := member;
                   mi_member_type := member_type; mi_level := member_level;
                   mi_implemented := Some implementation;
                   mi_implemented_from := Some implemented_from;
                   mi_class_name := c_name obj; mi_class_object := obj |} in
              get_members_loop obj no_filter rest
                ({[ (c_name obj, name) ]} ∪ printed) (member_list ++ [member_info])
        end
  end.

(** [Inspector.get_members]; the sorted report it prints afterwards is
    console output. *)
Definition get_members (self : Inspector) (obj : container) (no_filter : bool)
    : res unit * Inspector :=
  let obj_name := c_name obj in
  match get_members_loop obj no_filter (c_members obj) (printed_members self) [] with
  | (Raise e, printed, _) => (Raise e, with_printed_members self printed)
  | (Ok _, printed, member_list) =>
      let captured :=
        match captured_members self !! obj_name with
        | None => <[obj_name := []]> (captured_members self)
        | Some _ => captured_members self
        end in
      (Ok tt,
       {| printed_classes := printed_classes self;
          printed_members := printed;
          class_hierarchy := class_hierarchy self;
          captured_members := alter (fun l => l ++ member_list) obj_name captured;
          patched_members := patched_members self;
          observer := observer self |})
  end.

(** The members recorded for a container, by name. *)
Definition captured_names (self : Inspector) (obj_name : string) : list string :=
  map mi_name (default [] (captured_members self !! obj_name)).

End Scan.

(** ** Using what was installed *)

Section Installed.
Context `{HM : HostModel}.

(** The level a replacement callable notifies under. *)
Definition patched_level (w : installed) : string :=
  match w with
  | InstPatchedMethod _ _ _ => "instance"
  | InstPatchedClassMethod _ _ _ | InstPatchedStaticMethod _ _ _ => "class"
  | InstPatchedFunction _ _ _ => "module"
  | InstInstanceProperty _ _ _ level _ => level
  | InstStaticProperty _ _ _ => "class"
  | InstValue _ => ""
  end.

(** How Python binds the arguments of a call to a function declared
    [def f(param, *args, **kwargs)]: [param] takes the first positional
    argument, and then a keyword of that name is an error ([f() got
    multiple values for argument]); when there is no positional argument
    [param] takes the keyword of that name, and its absence is an error. *)
Definition bind_first (param : string) (pos : list value) (kwargs : list (string * value))
    : res (value * list value * list (string * value)) :=
  match pos with
  | first :: args =>
      match dict_find kwargs param with
      | Some _ => Raise TypeError
      | None => Ok (first, args, kwargs)
      end
  | [] =>
      match dict_find kwargs param with
      | Some first =>
          Ok (first, [],
              List.filter (fun kv => negb (String.eqb (fst kv) param)) kwargs)
      | None => Raise TypeError
      end
  end.

(** A call of an installed replacement callable with positional arguments
    [pos], the implicit first argument ([self] or [cls]) included, and
    keyword arguments [kwargs].  [patched_method] declares
    [(instance_self, *args, **kwargs)] and [patched_class_method]
    [(cls, *args, **kwargs)]; the other two declare no parameter before
    [*args]. *)
Definition call_patched (observer : Observer) (w : installed) (pos : list value)
    (kwargs : list (string * value)) : M value :=
  match w with
  | InstPatchedMethod original target name =>
      match bind_first "instance_self" pos kwargs with
      | Ok (instance_self, args, kwargs') =>
          patched_method observer original target name instance_self args kwargs'
      | Raise e => raise e
      end
  | InstPatchedClassMethod original target name =>
      match bind_first "cls" pos kwargs with
      | Ok (cls, args, kwargs') =>
          patched_class_method observer original target name cls args kwargs'
      | Raise e => raise e
      end
  | InstPatchedStaticMethod original target name =>
      patched_static_method observer original target name pos kwargs
  | InstPatchedFunction original module name =>
      patched_function observer original module name pos kwargs
  | _ => raise TypeError
  end.

End Installed.

(** [a] and [b] are one and the same dictionary key. *)
Definition same_key (a b : value) : bool :=
  match member_key a, member_key b with
  | Some x, Some y => value_eqb x y
  | _, _ => false
  end.


(** ** A small host for running the embedding

    One instance ([VInstance 1]) of a class [MyClass] with a read/write
    property [my_instance_property] over the attribute [instance_var], as in
    the example classes of the module, and a few subscribers.  The depth
    bound plays the part of Python's recursion limit. *)

Module Demo.

Definition demo_heap : Type := list (string * value).

Definition heap_set (k : string) (v : value) (st : hstate demo_heap) : hstate demo_heap :=
  HState (suspend_trace st) ((k, v) :: host_heap st).

Definition heap_get (k : string) (st : hstate demo_heap) : option value :=
  dict_find (host_heap st) k.

(** A counter kept by a subscriber. *)
Definition counter (k : string) (st : hstate demo_heap) : Z :=
  match heap_get k st with
  | Some (VInt n) => n
  | _ => 0%Z
  end.

Definition bump (k : string) (st : hstate demo_heap) : hstate demo_heap :=
  heap_set k (VInt (counter k st + 1)) st.

Definition demo_getattr (obj : value) (name : string) (dflt : value)
    (st : hstate demo_heap) : res value * hstate demo_heap :=
  match obj with
  | VInstance 1 => (Ok (default dflt (heap_get name st)), st)
  | _ => (Ok dflt, st)
  end.

Definition demo_dict_set (obj : value) (name : string) (v : value)
    (st : hstate demo_heap) : res unit * hstate demo_heap :=
  match obj with
  | VInstance 1 => (Ok tt, heap_set name v st)
  | _ => (Raise AttributeError, st)
  end.

Definition demo_signature (obj : value) : sig_result :=
  match obj with
  | VFunction 1 => SigOk ["self"]                         (* def getter(self) *)
  | VFunction 2 => SigOk ["self"; "value"]
  | VFunction 20 => SigOk ["x"; "self"]                   (* def f(x, self) *)
  | VFunction 22 => SigOk ["self"; "value"]               (* def base_method(self, value) *)
  | VBoundMethod _ (VFunction 21) => SigOk ["self"]       (* classmethod(cls, self), bound *)
  | VFunction _ => SigOk []
  | VBuiltin 40 => SigOtherError
  | VBuiltin _ | VCallable _ => SigValueError
  | _ => SigTypeError
  end.

Definition demo_doc (obj : value) : option string :=
  match obj with
  | VBuiltin 30 => Some "  atom_free(atom: CAtom) -> None  "
  | VBuiltin 31 => Some "Frees an atom.
atom_free(atom: CAtom) -> None"
  | VCallable 32 => Some "check(x) -> bool"
  | _ => None
  end.

(** [VCallable 33] is an object whose [__repr__] raises. *)
Definition demo_format_error (obj : value) : option exn :=
  match obj with
  | VCallable 33 => Some (OtherError "RuntimeError")
  | _ => None
  end.

Lemma demo_dict_set_ordinary (obj : value) (name : string) (v : value)
    (st : hstate demo_heap) (e : exn) (st' : hstate demo_heap) :
  demo_dict_set obj name v st = (Raise e, st') -> is_exception e = true.
Proof.
  unfold demo_dict_set. destruct obj as [| | | | | | | | | | | | | | | |[|[|id]]];
    intros [= <- _]; reflexivity.
Qed.

Definition demo_host_with
    (call : value -> list value -> list (string * value) ->
            hstate demo_heap -> res value * hstate demo_heap) : HostModel :=
  {| heap := demo_heap;
     py_call := call;
     py_getattr := demo_getattr;
     py_dict_set := demo_dict_set;
     py_str_other := fun _ => "<object>";
     py_format_error := demo_format_error;
     inspect_signature := demo_signature;
     py_doc := demo_doc;
     py_dict_set_ordinary := demo_dict_set_ordinary |}.

Definition my_instance_property : value := VProperty 10 (VFunction 1) (VFunction 2).

(** The observer the reading subscriber closes over. *)
Definition reader_observer : Observer :=
  subscribe Observer_init "get" (VFunction 4) "instance".

(** The callables of the host:
    - 1, 2: getter and setter of [my_instance_property];
    - 3: a ['set'] subscriber that vetoes every write;
    - 4: a ['get'] subscriber that, the first time it runs, reads
         [my_instance_property] of the instance itself;
    - 5: a ['before_call'] subscriber that suppresses the call;
    - 6: an original method; it counts its runs;
    - 7, 8: subscribers that return 1 and 2;
    - 9: a subscriber that only counts, like the module's own examples. *)
Fixpoint demo_call (depth : nat) (f : value) (pos : list value)
    (kw : list (string * value)) (st : hstate demo_heap) {struct depth}
    : res value * hstate demo_heap :=
  match depth with
  | O => (Raise RecursionError, st)
  | S depth' =>
      match f with
      | VFunction 1 =>
          match heap_get "instance_var" st with
          | Some v => (Ok v, st)
          | None => (Raise AttributeError, st)
          end
      | VFunction 2 =>
          match pos with
          | [_; v] => (Ok VNone, heap_set "instance_var" v st)
          | _ => (Raise TypeError, st)
          end
      | VFunction 3 =>
          (Ok (VDict [("do_not_really_set", VBool true)]), bump "veto_runs" st)
      | VFunction 4 =>
          let first_time := Z.eqb (counter "reader_runs" st) 0 in
          let st1 := bump "reader_runs" st in
          if first_time then
            match @instance_getter (demo_host_with (demo_call depth'))
                    my_instance_property "my_instance_property" (VClass "MyClass")
                    reader_observer "instance" (VInstance 1) st1 with
            | (Ok _, st2, _) => (Ok VNone, st2)
            | (Raise e, st2, _) => (Raise e, st2)
            end
          else (Ok VNone, st1)
      | VFunction 5 =>
          (Ok (VDict [("do_not_really_call", VBool true); ("return_value", VInt 42)]), st)
      | VFunction 6 => (Ok (VInt 7), bump "body_runs" st)
      | VFunction 7 => (Ok (VInt 1), bump "a_runs" st)
      | VFunction 8 => (Ok (VInt 2), bump "b_runs" st)
      | VFunction 9 => (Ok VNone, bump "silent_runs" st)
      | _ => (Ok VNone, st)
      end
  end.

Definition demo_host (depth : nat) : HostModel := demo_host_with (demo_call depth).

(** A class in the manner of the module's [MyClass(BaseClass)]. *)
Definition MyClass : container :=
  {| c_kind := IsClass;
     c_name := "MyClass";
     c_dict := [("_hidden", VInt 5);
                ("class_method_with_self", VClassMethod 11 (VFunction 21));
                ("class_var", VInt 100);
                ("f", VFunction 20);
                ("my_instance_property", my_instance_property)];
     c_mro_tail := [("BaseClass", [("base_method", VFunction 22)]);
                    ("object", [("__doc__", VNone); ("__hash__", VCallable 50)])];
     c_members := [("__doc__", VNone);
                   ("__hash__", VCallable 50);
                   ("_hidden", VInt 5);
                   ("base_method", VFunction 22);
                   ("class_method_with_self", VBoundMethod (VClass "MyClass") (VFunction 21));
                   ("class_var", VInt 100);
                   ("f", VFunction 20);
                   ("my_instance_property", my_instance_property)];
     c_frozen := false |}.

Definition veto_observer : Observer :=
  subscribe Observer_init "set" (VFunction 3) "instance".

(** Start of a run: tracing active, [instance_var = 10]. *)
Definition initial : hstate demo_heap := HState false [("instance_var", VInt 10)].

End Demo.

(** ** Class and module variables *)

Section VariableWrappers.
Context `{HM : HostModel}.

(** *** class ClassVariableDescriptor

    The descriptor keeps the value itself; [__set__] hands back the
    descriptor as the assignment to [self.value] leaves it.  The observer
    is the shared one and is supplied at each use. *)
Record ClassVariableDescriptor : Type := {
  cvd_name : string;
  cvd_value : value
}.

(** [ClassVariableDescriptor.__init__(name, initial_value, observer)] *)
Definition ClassVariableDescriptor_init (name : string) (initial_value : value)
    : ClassVariableDescriptor :=
  {| cvd_name := name; cvd_value := initial_value |}.

(** [ClassVariableDescriptor.__get__(instance, owner)] *)
Definition ClassVariableDescriptor_get (observer : Observer)
    (self : ClassVariableDescriptor) (instance owner : value) : M value :=
  let current_value := cvd_value self in
  result <- notify observer VNone "get"
              [owner; VStr (cvd_name self); current_value] [("level", VStr "class")] ;;
  match result with
  | VDict d =>
      if truthy (dict_get d "do_not_really_get" (VBool false))
      then ret (dict_get d "return_value" VNone)
      else ret current_value
  | _ => ret current_value
  end.

(** [ClassVariableDescriptor.__set__(instance, new_value)] *)
Definition ClassVariableDescriptor_set (observer : Observer)
    (self : ClassVariableDescriptor) (instance new_value : value)
    : M ClassVariableDescriptor :=
  result <- notify observer VNone "set"
              [instance; VStr (cvd_name self); new_value] [("level", VStr "class")] ;;
  match result with
  | VDict d =>
      if truthy (dict_get d "do_not_really_set" (VBool false)) then ret self
      else if truthy (dict_get d "really_set" (VBool false))
      then ret {| cvd_name := cvd_name self; cvd_value := dict_get d "new_value" VNone |}
      else ret {| cvd_name := cvd_name self; cvd_value := new_value |}
  | _ => ret {| cvd_name := cvd_name self; cvd_value := new_value |}
  end.

(** *** The closures of [patch_module_property] and [patch_static_property]

    Both keep the value in the attribute [_<name>] of the module or class.
    That attribute is the cell [shadow] here: [None] when it is missing, in
    which case reading it raises [AttributeError]; a setter hands back the
    cell as it leaves it.  [rust_mode] is the module global of that name;
    [original] is the value captured when the member was patched. *)

(** [getattr(module, private_name)] *)
Definition read_shadow (shadow : option value) : M value :=
  match shadow with
  | Some v => ret v
  | None => raise AttributeError
  end.

(** closure [module_getter] of [patch_module_property] *)
Definition module_getter (observer : Observer) (rust_mode : bool)
    (original module : value) (property_name : string) (shadow : option value)
    : M value :=
  current_value <- read_shadow shadow ;;
  if rust_mode then ret current_value else
  result <- notify observer original "get"
              [module; VStr property_name; current_value] [("level", VStr "module")] ;;
  match result with
  | VDict d =>
      if truthy (dict_get d "do_not_really_get" (VBool false))
      then ret (dict_get d "return_value" VNone)
      else ret current_value
  | _ => ret current_value
  end.

(** closure [module_setter] of [patch_module_property] *)
Definition module_setter (observer : Observer) (rust_mode : bool)
    (original module : value) (property_name : string) (shadow : option value)
    (new_value : value) : M (option value) :=
  if rust_mode then ret (Some new_value) else
  result <- notify observer original "set"
              [module; VStr property_name; new_value] [("level", VStr "module")] ;;
  let store := ret (Some (if is_none result then new_value else result)) in
  match result with
  | VDict d =>
      if truthy (dict_get d "do_not_really_set" (VBool false)) then ret shadow
      else store
  | _ => store
  end.

(** closure [class_getter] of [patch_static_property] *)
Definition class_getter (observer : Observer) (rust_mode : bool)
    (original cls : value) (property_name : string) (shadow : option value)
    : M value :=
  current_value <- read_shadow shadow ;;
  if rust_mode then ret current_value else
  result <- notify observer original "get"
              [cls; VStr property_name; current_value] [("level", VStr "class")] ;;
  match result with
  | VDict d =>
      if truthy (dict_get d "do_not_really_get" (VBool false))
      then ret (dict_get d "return_value" VNone)
      else ret current_value
  | _ => ret current_value
  end.

(** closure [class_setter] of [patch_static_property] *)
Definition class_setter (observer : Observer) (rust_mode : bool)
    (original cls : value) (property_name : string) (shadow : option value)
    (new_value : value) : M (option value) :=
  if rust_mode then ret (Some new_value) else
  result <- notify observer original "set"
              [cls; VStr property_name; new_value] [("level", VStr "class")] ;;
  match result with
  | VDict d =>
      if truthy (dict_get d "do_not_really_set" (VBool false)) then ret shadow
      else if truthy (dict_get d "really_set" (VBool false))
      then ret (Some (dict_get d "new_value" new_value))
      else ret (Some new_value)
  | _ => ret (Some new_value)
  end.

End VariableWrappers.

(** ** Runs of scans *)

Section Runs.
Context `{HM : HostModel}.

(** A run of [get_members] calls [(obj, no_filter)] on one inspector; a
    call that raises leaves the inspector as the exception found it and
    the run goes on (the caller caught it). *)
Definition scan_all (self : Inspector) (scans : list (container * bool)) : Inspector :=
  fold_left (fun insp scan => snd (get_members insp (fst scan) (snd scan))) scans self.

End Runs.

(** ** Patching outside a scan *)

Section PatchRuns.
Context `{HM : HostModel}.

(** [Inspector.create_member_info_and_patch_member]; the record it builds
    has no [implemented] and [implemented_from] entries. *)
Definition create_member_info_and_patch_member (self : Inspector) (cls : container)
    (member_name : string) (member : value) (ns : namespace)
    : res unit * Inspector * namespace :=
  let is_callable := callable member in
  match (if is_callable then uses_self member else Ok false) with
  | Raise e => (Raise e, self, ns)
  | Ok uses_self_flag =>
      let member_type := classify_member_type cls member_name member in
      let member_level :=
        classify_member_level cls member_name member (implemented_in member_name cls)
          uses_self_flag in
      let member_info :=
        {| mi_name := member_name; mi_member := member;
           mi_member_type := member_type; mi_level := member_level;
           mi_implemented := None; mi_implemented_from := None;
           mi_class_name := c_name cls; mi_class_object := cls |} in
      patch_member_info self cls member_info ns
  end.

(** [MonkeyPatcher.patch_one_instance_variable]; [self] is the inspector
    the global [inspector] names. *)
Definition patch_one_instance_variable (self : Inspector) (cls : container)
    (var_name : string) (v : value) (ns : namespace)
    : res unit * Inspector * namespace :=
  let member_info :=
    {| mi_name := var_name; mi_member := v;
       mi_member_type := MemberType.VARIABLE; mi_level := MemberLevel.INSTANCE;
       mi_implemented := None; mi_implemented_from := None;
       mi_class_name := c_name cls; mi_class_object := cls |} in
  patch_member_info self cls member_info ns.

(** [MonkeyPatcher.patch_instance_variables]: the loop over the items of
    [instance.__dict__], in the order of the dictionary; [cls] is
    [instance.__class__]. *)
Fixpoint patch_instance_variables (self : Inspector) (cls : container)
    (instance_dict : list (string * value)) (ns : namespace)
    : res unit * Inspector * namespace :=
  match instance_dict with
  | [] => (Ok tt, self, ns)
  | (var_name, v) :: rest =>
      match patch_one_instance_variable self cls var_name v ns with
      | (Ok _, self1, ns1) => patch_instance_variables self1 cls rest ns1
      | (Raise e, self1, ns1) => (Raise e, self1, ns1)
      end
  end.

End PatchRuns.

(** ** Notions for reasoning about a scan *)

Section ScanNotions.
Context `{HM : HostModel}.

(** [uses_self(member) if is_callable else False], as [get_members]
    computes it. *)
Definition self_usage_of (member : value) : res bool :=
  if callable member then uses_self member else Ok false.

(** The record [get_members] appends for a member it keeps. *)
Definition member_record (obj : container) (name : string) (member : value)
    (self_usage : bool) : member_info :=
  let implemented_from := implemented_in name obj in
  {| mi_name := name; mi_member := member;
     mi_member_type := classify_member_type obj name member;
     mi_level := classify_member_level obj name member implemented_from self_usage;
     mi_implemented := Some (classify_implementation obj implemented_from);
     mi_implemented_from := Some implemented_from;
     mi_class_name := c_name obj; mi_class_object := obj |}.

(** The two tests under [if not no_filter]: the member is not implemented
    locally, or it is a special variable at class level. *)
Definition filtered_out (obj : container) (name : string) (member : value)
    (self_usage : bool) : bool :=
  let implemented_from := implemented_in name obj in
  (negb (String.eqb (classify_implementation obj implemented_from)
           (Implemented.value Implemented.LOCAL)) ||
   (bool_decide (classify_member_level obj name member implemented_from self_usage
                 = MemberLevel.CLASS) &&
    bool_decide (classify_member_type obj name member = MemberType.SPECIAL_VARIABLE)))%bool.

End ScanNotions.

(** What was set on the class named [class_name] under [name], latest
    first. *)
Definition installed_at (class_name name : string) (ns : namespace) : list installed :=
  map snd (List.filter (fun e => (String.eqb (fst (fst e)) class_name &&
                                  String.eqb (snd (fst e)) name)%bool) ns).

(** The original behind a replacement callable, and the name it was
    installed under. *)
Definition wrapped_original (w : installed) : option value :=
  match w with
  | InstPatchedMethod o _ _ | InstPatchedClassMethod o _ _
  | InstPatchedStaticMethod o _ _ | InstPatchedFunction o _ _ => Some o
  | _ => None
  end.

Definition wrapped_name (w : installed) : string :=
  match w with
  | InstPatchedMethod _ _ n | InstPatchedClassMethod _ _ n
  | InstPatchedStaticMethod _ _ n | InstPatchedFunction _ _ n => n
  | InstInstanceProperty _ n _ _ _ | InstStaticProperty _ n _ => n
  | InstValue _ => ""
  end.

(** Does the replacement callable receive [self] or [cls] as its first
    positional argument? *)
Definition takes_receiver (w : installed) : bool :=
  match w with
  | InstPatchedMethod _ _ _ | InstPatchedClassMethod _ _ _ => true
  | _ => false
  end.

(** The parameter of the replacement callable that receives it. *)
Definition receiver_parameter (w : installed) : option string :=
  match w with
  | InstPatchedMethod _ _ _ => Some "instance_self"
  | InstPatchedClassMethod _ _ _ => Some "cls"
  | _ => None
  end.

(** The class or module the replacement was made for, which it names to
    its subscribers. *)
Definition wrapped_target (w : installed) : value :=
  match w with
  | InstPatchedMethod _ t _ | InstPatchedClassMethod _ t _
  | InstPatchedStaticMethod _ t _ | InstPatchedFunction _ t _ => t
  | InstInstanceProperty _ _ t _ _ | InstStaticProperty t _ _ => t
  | InstValue _ => VNone
  end.

(** Is the event a call of a subscriber? *)
Definition is_callback_event (ev : event) : bool :=
  match ev with
  | EvCallback _ _ _ _ => true
  | EvOriginal _ _ _ => false
  end.

(** The calls of originals among the events. *)
Definition original_calls (evs : list event) : list event :=
  List.filter (fun ev => negb (is_callback_event ev)) evs.

(** ** A second small host

    It adds to the first one a few callables whose answers do not depend on
    the state. *)

Module Demo2.

Definition demo2_call (f : value) (pos : list value) (kw : list (string * value))
    (st : hstate Demo.demo_heap) : res value * hstate Demo.demo_heap :=
  match f with
  | VFunction 101 =>      (* 'before_call' subscriber: replaces the arguments *)
      (Ok (VTuple [VTuple [VInt 9]; VDict []]), st)
  | VFunction 102 => (Ok (VTuple pos), st)            (* original: echoes its arguments *)
  | VFunction 103 => (Raise AttributeError, st)       (* a setter that fails *)
  | VFunction 104 => (Ok (VTuple [VInt 1]), st)       (* 'before_call' subscriber: a 1-tuple *)
  | VFunction 105 => (Ok (VInt 5), st)                (* subscriber: a bare value *)
  | VFunction 106 =>      (* 'get' subscriber: suppresses the read *)
      (Ok (VDict [("do_not_really_get", VBool true); ("return_value", VInt 0)]), st)
  | VFunction 107 => (Ok (VInt 10), st)               (* a getter *)
  | VFunction 108 => (Ok (VDict [("really_set", VBool true)]), st)
  | VFunction 109 => (Raise ValueError, st)           (* a getter that fails *)
  | VFunction 110 => (Raise KeyboardInterrupt, st)    (* an accessor that is interrupted *)
  | _ => Demo.demo_call 5 f pos kw st
  end.

Definition demo2_host : HostModel := Demo.demo_host_with demo2_call.

(** A property whose setter fails with [AttributeError]. *)
Definition failing_property : value := VProperty 12 (VFunction 107) (VFunction 103).

(** A property whose getter fails. *)
Definition unreadable_property : value := VProperty 13 (VFunction 109) VNone.

(** A property whose accessors are interrupted from the keyboard. *)
Definition interrupted_property : value := VProperty 14 (VFunction 110) (VFunction 110).



(** A module with one function and one variable. *)
Definition tools : container :=
  {| c_kind := IsModule;
     c_name := "tools";
     c_dict := [("helper", VFunction 6); ("limit", VInt 3)];
     c_mro_tail := [];
     c_members := [("helper", VFunction 6); ("limit", VInt 3); ("sqrt", VBuiltin 41)];
     c_frozen := false |}.

End Demo2.

(** * Properties *)

(** ** The observer hub *)

Section ObserverFacts.
Context `{HM : HostModel}.

Lemma subscribe_lookup (o : Observer) (ev : string) (cb : value) (lvl key : string) :
  default [] (observers (subscribe o ev cb lvl) !! key) =
  default [] (observers o !! key) ++
    (if String.eqb (lvl +:+ "_" +:+ ev) key then [cb] else []).
Proof.
  unfold subscribe; simpl.
  destruct (String.eqb_spec (lvl +:+ "_" +:+ ev) key) as [->|Hne].
  - rewrite lookup_alter_eq.
    destruct (observers o !! key) as [l|] eqn:Hl.
    + by rewrite Hl.
    + by rewrite lookup_insert_eq.
  - rewrite lookup_alter_ne by done.
    rewrite app_nil_r.
    destruct (observers o !! (lvl +:+ "_" +:+ ev)); [done|].
    by rewrite lookup_insert_ne.
Qed.

Lemma subscribe_all_lookup (subs : list (string * value * string)) (o : Observer)
    (key : string) :
  default [] (observers (subscribe_all o subs) !! key) =
  default [] (observers o !! key) ++ subscribed_under key subs.
Proof.
  revert o. induction subs as [|[[ev cb] lvl] subs IH]; intros o; simpl.
  - by rewrite app_nil_r.
  - unfold subscribe_all in *. simpl. rewrite IH, subscribe_lookup.
    by rewrite <- app_assoc.
Qed.

(** What the loop over the callbacks can do: every callback answers
    [None], or the first one that does not ends the loop, or one raises. *)
Lemma dispatch_cases (key : string) (cbs args : list value) (st : state) :
  let null cb := EvCallback key cb args (Ok VNone) in
  match dispatch key cbs args st with
  | (r, _, evs) =>
      (r = Ok None /\ evs = map null cbs) \/
      (exists pre cb post v,
          cbs = pre ++ cb :: post /\ v <> VNone /\ r = Ok (Some v) /\
          evs = map null pre ++ [EvCallback key cb args (Ok v)]) \/
      (exists pre cb post e,
          cbs = pre ++ cb :: post /\ r = Raise e /\
          evs = map null pre ++ [EvCallback key cb args (Raise e)])
  end.
Proof.
  intros null. revert st.
  induction cbs as [|cb cbs IH]; intros st; simpl.
  - left. done.
  - destruct (call_value cb args [] st) as [[v|e] st1].
    + destruct (is_none v) eqn:Hv.
      * destruct v; try discriminate.
        specialize (IH st1).
        destruct (dispatch key cbs args st1) as [[r st2] evs].
        destruct IH as [[-> ->]|[(pre & c & post & w & -> & Hw & -> & ->)
                                |(pre & c & post & e & -> & -> & ->)]].
        -- left. done.
        -- right; left. exists (cb :: pre), c, post, w. done.
        -- right; right. exists (cb :: pre), c, post, e. done.
      * right; left. exists [], cb, cbs, v. repeat split; try done.
        intros ->. discriminate.
    + right; right. exists [], cb, cbs, e. done.
Qed.

(** [notify] past its guards is the loop over the registered callbacks. *)
Lemma notify_dispatching (self : Observer) (func : value) (event_type : string)
    (a0 : value) (rest : list value) (kwargs : list (string * value)) (st : state) :
  suspend_trace st = false ->
  denylisted (a0 :: rest) = false ->
  notify self func event_type (a0 :: rest) kwargs st =
  match dispatch (event_key_of kwargs event_type)
          (default [] (observers self !! event_key_of kwargs event_type))
          (normalized (a0 :: rest)) st with
  | (Ok (Some result), st', evs) => (Ok result, st', evs)
  | (Ok None, st', evs) => (Ok (dict_get kwargs "default_value" VNone), st', evs)
  | (Raise e, st', evs) => (Raise e, st', evs)
  end.
Proof.
  intros Hs Hd. unfold notify, bind, get_suspend_trace. rewrite Hs, Hd.
  fold (event_key_of kwargs event_type).
  destruct (observers self !! event_key_of kwargs event_type) as [cbs|]; simpl.
  - destruct (dispatch _ cbs _ st) as [[[[r|]|e] st1] evs]; simpl;
      by rewrite ?app_nil_r.
  - done.
Qed.

Lemma notify_suspended (self : Observer) (func : value) (event_type : string)
    (args : list value) (kwargs : list (string * value)) (st : state) :
  suspend_trace st = true ->
  notify self func event_type args kwargs st = (Ok VNone, st, []).
Proof. intros Hs. unfold notify, bind, get_suspend_trace. by rewrite Hs. Qed.

(** C1: past its guards, [notify] invokes the callbacks subscribed under
    the key in the order of their subscription, each with the normalized
    payload; every callback invoked before the last answered [None]; the
    first answer that is not [None] is the result of [notify] and no later
    callback is invoked. *)
Theorem notify_dispatch_order (subs : list (string * value * string)) (func : value)
    (event_type : string) (a0 : value) (rest : list value)
    (kwargs : list (string * value)) (st st' : state) (r : res value)
    (evs : list event) :
  suspend_trace st = false ->
  denylisted (a0 :: rest) = false ->
  notify (subscribe_all Observer_init subs) func event_type (a0 :: rest) kwargs st
    = (r, st', evs) ->
  let key := event_key_of kwargs event_type in
  let callbacks := subscribed_under key subs in
  let payload := normalized (a0 :: rest) in
  let null cb := EvCallback key cb payload (Ok VNone) in
  (evs = map null callbacks /\ r = Ok (dict_get kwargs "default_value" VNone)) \/
  (exists pre cb post v,
      callbacks = pre ++ cb :: post /\ v <> VNone /\
      evs = map null pre ++ [EvCallback key cb payload (Ok v)] /\ r = Ok v) \/
  (exists pre cb post e,
      callbacks = pre ++ cb :: post /\
      evs = map null pre ++ [EvCallback key cb payload (Raise e)] /\ r = Raise e).
Proof.
  intros Hs Hd Hrun key callbacks payload null.
  rewrite notify_dispatching in Hrun by done.
  pose proof (subscribe_all_lookup subs Observer_init key) as Hsub.
  simpl in Hsub. rewrite lookup_empty in Hsub. simpl in Hsub.
  fold key in Hrun. rewrite Hsub in Hrun. fold callbacks payload in Hrun.
  pose proof (dispatch_cases key callbacks payload st) as Hc. simpl in Hc.
  destruct (dispatch key callbacks payload st) as [[r0 st0] evs0].
  destruct Hc as [[-> ->]|[(pre & c & post & w & Hcb & Hw & -> & ->)
                          |(pre & c & post & e & Hcb & -> & ->)]];
    inversion Hrun; subst.
  - left. done.
  - right; left. exists pre, c, post, w. done.
  - right; right. exists pre, c, post, e. done.
Qed.

(** C8, as amended: when the reentrancy flag is unset, the payload is not
    empty, the member name is not on the denylist and every callback that
    was invoked answered [None] (in particular when nothing is registered
    under the key), [notify] returns the caller's default value. *)
Theorem notify_returns_default (self : Observer) (func : value) (event_type : string)
    (a0 : value) (rest : list value) (kwargs : list (string * value))
    (st st' : state) (r : res value) (evs : list event) :
  suspend_trace st = false ->
  denylisted (a0 :: rest) = false ->
  notify self func event_type (a0 :: rest) kwargs st = (r, st', evs) ->
  (forall key cb args result,
      In (EvCallback key cb args result) evs -> result = Ok VNone) ->
  r = Ok (dict_get kwargs "default_value" VNone).
Proof.
  intros Hs Hd Hrun Hnull.
  rewrite notify_dispatching in Hrun by done.
  set (key := event_key_of kwargs event_type) in *.
  set (cbs := default [] (observers self !! key)) in *.
  pose proof (dispatch_cases key cbs (normalized (a0 :: rest)) st) as Hc.
  simpl in Hc.
  destruct (dispatch key cbs _ st) as [[r0 st0] evs0].
  destruct Hc as [[-> ->]|[(pre & c & post & w & Hcb & Hw & -> & ->)
                          |(pre & c & post & e & Hcb & -> & ->)]];
    inversion Hrun; subst.
  - done.
  - exfalso. apply Hw.
    assert (Ok w = Ok VNone) as Heq; [|by inversion Heq].
    eapply Hnull. apply in_or_app. right. left. reflexivity.
  - exfalso.
    assert (@Raise value e = Ok VNone) as Heq; [|discriminate].
    eapply Hnull. apply in_or_app. right. left. reflexivity.
Qed.

(** C10: with the flag unset and an empty payload, [notify] raises
    [IndexError] when it normalizes the payload; no subscriber runs and the
    default value is not returned. *)
Theorem notify_empty_payload_raises (self : Observer) (func : value)
    (event_type : string) (kwargs : list (string * value)) (st : state) :
  suspend_trace st = false ->
  notify self func event_type [] kwargs st = (Raise IndexError, st, []).
Proof.
  intros Hs. unfold notify, bind, get_suspend_trace. rewrite Hs. reflexivity.
Qed.

End ObserverFacts.

(** ** The patched callables *)

Section WrapperFacts.
Context `{HM : HostModel}.

(** Every call [notify] makes is a call of a subscriber under its key, and
    an answer other than [None] is what [notify] returns. *)
Lemma notify_events (self : Observer) (func : value) (event_type : string)
    (args : list value) (kwargs : list (string * value)) (st st' : state)
    (r : res value) (evs : list event) :
  notify self func event_type args kwargs st = (r, st', evs) ->
  (forall ev, In ev evs ->
     exists cb a result, ev = EvCallback (event_key_of kwargs event_type) cb a result) /\
  (forall key cb a v, In (EvCallback key cb a (Ok v)) evs -> v <> VNone -> r = Ok v).
Proof.
  intros Hrun.
  destruct (suspend_trace st) eqn:Hs.
  { rewrite notify_suspended in Hrun by done. inversion Hrun; subst.
    split; intros; contradiction. }
  destruct (denylisted args) eqn:Hd.
  { unfold notify, bind, get_suspend_trace in Hrun. rewrite Hs, Hd in Hrun.
    inversion Hrun; subst. split; intros; contradiction. }
  destruct args as [|a0 rest].
  { unfold notify, bind, get_suspend_trace in Hrun. rewrite Hs, Hd in Hrun.
    inversion Hrun; subst. split; intros; contradiction. }
  rewrite notify_dispatching in Hrun by done.
  set (key := event_key_of kwargs event_type) in *.
  set (cbs := default [] (observers self !! key)) in *.
  pose proof (dispatch_cases key cbs (normalized (a0 :: rest)) st) as Hc.
  simpl in Hc.
  destruct (dispatch key cbs _ st) as [[r0 st0] evs0].
  destruct Hc as [[-> ->]|[(pre & c & post & w & Hcb & Hw & -> & ->)
                          |(pre & c & post & e & Hcb & -> & ->)]];
    inversion Hrun; subst; split.
  - intros ev [cb [<- _]]%in_map_iff. eauto.
  - intros k cb a v [cb' [Heq _]]%in_map_iff Hv. inversion Heq; subst. done.
  - intros ev [[cb [<- _]]%in_map_iff|[<-|[]]]%in_app_or; eauto.
  - intros k cb a v [[cb' [Heq _]]%in_map_iff|[Heq|[]]]%in_app_or Hv;
      inversion Heq; subst; done.
  - intros ev [[cb [<- _]]%in_map_iff|[<-|[]]]%in_app_or; eauto.
  - intros k cb a v [[cb' [Heq _]]%in_map_iff|[Heq|[]]]%in_app_or Hv;
      inversion Heq; subst; done.
Qed.

Lemma before_after_keys_differ (level : string) :
  level +:+ "_before_call" <> level +:+ "_after_call".
Proof.
  induction level as [|c level IH]; simpl; intros H.
  - discriminate H.
  - injection H as H. by apply IH.
Qed.

(** The second half of a patched callable calls no ['before_call']
    subscriber. *)
Lemma call_then_notify_events (observer : Observer) (original target : value)
    (name level : string) (first : list value) (margs mkw : value)
    (st st' : state) (r : res value) (evs : list event) :
  call_then_notify observer original target name level first margs mkw st = (r, st', evs) ->
  forall cb a result, ~ In (EvCallback (level +:+ "_before_call") cb a result) evs.
Proof.
  unfold call_then_notify, bind, call_original. intros Hrun cb a result Hin.
  assert (forall st1 r2 st2 ev2 res0,
             notify observer original "after_call" [target; VStr name; res0]
               [("level", VStr level)] st1 = (r2, st2, ev2) ->
             ~ In (EvCallback (level +:+ "_before_call") cb a result) ev2) as Hafter.
  { intros st1 r2 st2 ev2 res0 Hn Hin2.
    apply notify_events in Hn as [Hkeys _].
    destruct (Hkeys _ Hin2) as (cb' & a' & res' & Heq).
    injection Heq as Hk _ _ _. unfold event_key_of in Hk. simpl in Hk.
    by apply before_after_keys_differ in Hk. }
  destruct (unpack_star margs) as [pos|e1]; [destruct (unpack_dstar mkw) as [kw|e2]|];
    unfold raise in Hrun; try (inversion Hrun; subst; contradiction).
  destruct (call_value original (first ++ pos) kw st) as [[v|e] st1].
  - destruct (notify observer original "after_call" _ _ st1) as [[[v2|e2] st2] ev2] eqn:Hn;
      inversion Hrun; subst; simpl in Hin;
      destruct Hin as [Heq|Hin]; try discriminate;
      rewrite ?app_nil_r in Hin; by eapply Hafter.
  - inversion Hrun; subst. destruct Hin as [Heq|[]]. discriminate.
Qed.

(** A ['before_call'] subscriber that answers with a mapping whose
    [do_not_really_call] entry is true ends the call. *)
Lemma observed_call_suppressed (observer : Observer) (original target : value)
    (name level : string) (first args : list value) (kwargs : list (string * value))
    (st st' : state) (r : res value) (evs : list event)
    (cb : value) (cargs : list value) (d : list (string * value)) :
  observed_call observer original target name level first args kwargs st = (r, st', evs) ->
  In (EvCallback (level +:+ "_before_call") cb cargs (Ok (VDict d))) evs ->
  truthy (dict_get d "do_not_really_call" (VBool false)) = true ->
  r = Ok (dict_get d "return_value" VNone) /\
  forall f pos kw, ~ In (EvOriginal f pos kw) evs.
Proof.
  unfold observed_call, bind. intros Hrun Hin Htrue.
  destruct (notify observer original "before_call" _ _ st) as [[r1 st1] ev1] eqn:Hn.
  pose proof (notify_events _ _ _ _ _ _ _ _ _ Hn) as [Hkeys Hfirst].
  assert (In (EvCallback (level +:+ "_before_call") cb cargs (Ok (VDict d))) ev1
          -> r1 = Ok (VDict d)) as Hres.
  { intros Hin1. by eapply Hfirst. }
  assert (forall rest, (forall c a x, ~ In (EvCallback (level +:+ "_before_call") c a x) rest) ->
             In (EvCallback (level +:+ "_before_call") cb cargs (Ok (VDict d))) (ev1 ++ rest) ->
             r1 = Ok (VDict d)) as Hsplit.
  { intros rest Hrest [H1|H2]%in_app_or; [by apply Hres|]. by apply Hrest in H2. }
  destruct r1 as [v|e].
  - destruct v as [| | | |items| |d'| | | | | | | | | |];
      try (destruct (call_then_notify _ _ _ _ _ _ _ _ st1) as [[r2 st2] ev2] eqn:Hc;
           inversion Hrun; subst;
           pose proof (call_then_notify_events _ _ _ _ _ _ _ _ _ _ _ _ Hc) as Hno;
           specialize (Hsplit _ Hno Hin); discriminate).
    + (* a tuple *)
      destruct items as [|x [|y [|z items]]];
        try (unfold raise in Hrun; inversion Hrun; subst;
             rewrite app_nil_r in Hin; specialize (Hres Hin); discriminate).
      destruct (call_then_notify _ _ _ _ _ _ _ _ st1) as [[r2 st2] ev2] eqn:Hc.
      inversion Hrun; subst.
      pose proof (call_then_notify_events _ _ _ _ _ _ _ _ _ _ _ _ Hc) as Hno.
      specialize (Hsplit _ Hno Hin). discriminate.
    + (* a mapping *)
      destruct (truthy (dict_get d' "do_not_really_call" (VBool false))) eqn:Hd'.
      * unfold ret in Hrun. inversion Hrun; subst. rewrite app_nil_r in Hin.
        specialize (Hres Hin). inversion Hres; subst. split; [done|].
        intros f pos kw Hin'. rewrite app_nil_r in Hin'.
        destruct (Hkeys _ Hin') as (? & ? & ? & ?). discriminate.
      * destruct (call_then_notify _ _ _ _ _ _ _ _ st1) as [[r2 st2] ev2] eqn:Hc.
        inversion Hrun; subst.
        pose proof (call_then_notify_events _ _ _ _ _ _ _ _ _ _ _ _ Hc) as Hno.
        specialize (Hsplit _ Hno Hin). inversion Hsplit; subst. congruence.
  - inversion Hrun; subst. specialize (Hres Hin). discriminate.
Qed.

(** A run of subscribers that all answer [None] is followed by the run of
    the rest. *)
Lemma dispatch_app (key : string) (pre rest args : list value) (st st1 : state)
    (evs1 : list event) :
  dispatch key pre args st = (Ok None, st1, evs1) ->
  dispatch key (pre ++ rest) args st =
  match dispatch key rest args st1 with
  | (r, st2, evs2) => (r, st2, evs1 ++ evs2)
  end.
Proof.
  revert st evs1. induction pre as [|cb pre IH]; intros st evs1; simpl.
  - unfold ret. intros [= <- <-]. destruct (dispatch key rest args st) as [[? ?] ?].
    reflexivity.
  - destruct (call_value cb args [] st) as [[result|e] st0]; [|discriminate].
    destruct (is_none result); [|discriminate].
    destruct (dispatch key pre args st0) as [[r0 st2] evs0] eqn:Hd.
    intros [= -> -> <-]. rewrite (IH _ _ Hd).
    destruct (dispatch key rest args st1) as [[? ?] ?]. reflexivity.
Qed.

(** A run of subscribers calls no original. *)
Lemma dispatch_original_calls (key : string) (cbs args : list value) (st st' : state)
    (r : res (option value)) (evs : list event) :
  dispatch key cbs args st = (r, st', evs) ->
  original_calls evs = [].
Proof.
  revert st evs. induction cbs as [|cb cbs IH]; intros st evs; simpl.
  - by intros [= _ _ <-].
  - destruct (call_value cb args [] st) as [[result|e] st0]; [|by intros [= _ _ <-]].
    destruct (is_none result); [|by intros [= _ _ <-]].
    destruct (dispatch key cbs args st0) as [[r0 st2] evs0] eqn:Hd.
    intros [= <- <- <-]. unfold original_calls in *. simpl. by eapply IH.
Qed.

(** The first subscriber that answers something other than [None] decides
    the result of [notify]. *)
Lemma notify_first_answer (self : Observer) (func : value) (event_type : string)
    (a0 : value) (rest : list value) (kwargs : list (string * value))
    (st st1 st2 : state) (pre post : list value) (cb answer : value)
    (evs1 : list event) :
  suspend_trace st = false ->
  denylisted (a0 :: rest) = false ->
  observers self !! event_key_of kwargs event_type = Some (pre ++ cb :: post) ->
  dispatch (event_key_of kwargs event_type) pre (normalized (a0 :: rest)) st
    = (Ok None, st1, evs1) ->
  call_value cb (normalized (a0 :: rest)) [] st1 = (Ok answer, st2) ->
  is_none answer = false ->
  notify self func event_type (a0 :: rest) kwargs st =
  (Ok answer, st2,
   evs1 ++ [EvCallback (event_key_of kwargs event_type) cb (normalized (a0 :: rest))
              (Ok answer)]).
Proof.
  intros Hs Hd Hl Hpre Hcb Hans. rewrite notify_dispatching by done.
  rewrite Hl. cbn [default from_option id].
  rewrite (dispatch_app _ _ _ _ _ _ _ Hpre). cbn [dispatch].
  by rewrite Hcb, Hans.
Qed.

(** A call of a replacement callable whose arguments bind is the common
    body run for the original, the target and the level of the callable,
    with the receiver set apart. *)
Lemma call_patched_bound (observer : Observer) (w : installed) (original : value)
    (pos : list value) (kwargs : list (string * value)) (st : state) :
  wrapped_original w = Some original ->
  (forall p, receiver_parameter w = Some p -> pos <> [] /\ dict_find kwargs p = None) ->
  call_patched observer w pos kwargs st =
  observed_call observer original (wrapped_target w) (wrapped_name w) (patched_level w)
    (firstn (if takes_receiver w then 1 else 0) pos)
    (skipn (if takes_receiver w then 1 else 0) pos) kwargs st.
Proof.
  intros Ho Hb.
  destruct w; cbn [wrapped_original] in Ho; try discriminate; injection Ho as ->;
    cbn [call_patched wrapped_target wrapped_name patched_level takes_receiver
         receiver_parameter] in *.
  - destruct (Hb _ eq_refl) as [Hpos Hk]. destruct pos as [|x pos]; [done|].
    unfold bind_first. by rewrite Hk.
  - destruct (Hb _ eq_refl) as [Hpos Hk]. destruct pos as [|x pos]; [done|].
    unfold bind_first. by rewrite Hk.
  - done.
  - done.
Qed.

(** C3: for each of the four patched callables (instance method, class
    method, static method, module function) whose name is not on the
    denylist, called with the flag unset: when a callback subscribed under
    the ['before_call'] key of the callable's level answers with a mapping
    whose [do_not_really_call] entry is true, the subscribers before it
    having answered [None], the call returns the mapping's [return_value]
    entry; the calls made are those of the subscribers up to that callback,
    which is handed the target, the name and the arguments, and the
    original callable is not invoked. *)
Theorem suppress_call_skips_original (observer : Observer) (w : installed)
    (original : value) (pos : list value) (kwargs : list (string * value))
    (st st1 st2 : state) (pre post : list value) (cb : value)
    (d : list (string * value)) (evs1 : list event) :
  let key := patched_level w +:+ "_before_call" in
  let payload :=
    normalized [wrapped_target w; VStr (wrapped_name w);
                VTuple (skipn (if takes_receiver w then 1 else 0) pos); VDict kwargs] in
  wrapped_original w = Some original ->
  (forall p, receiver_parameter w = Some p -> pos <> [] /\ dict_find kwargs p = None) ->
  suspend_trace st = false ->
  existsb (fun substring => str_contains substring (wrapped_name w)) denylist = false ->
  observers observer !! key = Some (pre ++ cb :: post) ->
  dispatch key pre payload st = (Ok None, st1, evs1) ->
  call_value cb payload [] st1 = (Ok (VDict d), st2) ->
  truthy (dict_get d "do_not_really_call" (VBool false)) = true ->
  call_patched observer w pos kwargs st =
    (Ok (dict_get d "return_value" VNone), st2,
     evs1 ++ [EvCallback key cb payload (Ok (VDict d))]) /\
  original_calls (evs1 ++ [EvCallback key cb payload (Ok (VDict d))]) = [].
Proof.
  intros key payload Ho Hb Hs Hdeny Hl Hpre Hcb Htrue. split.
  - rewrite (call_patched_bound _ _ _ _ _ _ Ho Hb).
    unfold observed_call, bind.
    rewrite (notify_first_answer observer original "before_call" _ _ _ st st1 st2
               pre post cb (VDict d) evs1 Hs); try done.
    rewrite Htrue. unfold ret. by rewrite app_nil_r.
  - unfold original_calls. rewrite List.filter_app.
    apply dispatch_original_calls in Hpre. unfold original_calls in Hpre.
    by rewrite Hpre.
Qed.

(** ** Instance properties and the reentrancy flag *)

(** Entered while the flag is set, the getter hands out the shadow
    attribute and notifies nobody. *)
Lemma instance_getter_suspended (original_property : value) (property_name : string)
    (target : value) (observer : Observer) (level : string) (self : value) (st : state) :
  suspend_trace st = true ->
  instance_getter original_property property_name target observer level self st =
  lift_host (py_getattr self ("__original_" +:+ property_name) VNone) st.
Proof.
  intros Hs. unfold instance_getter, bind, get_suspend_trace. rewrite Hs.
  by destruct (lift_host _ st) as [[? ?] ?].
Qed.

(** Entered with the flag unset, the getter of a property reads through the
    original getter with the flag set, and then notifies with the flag
    unset. *)
Lemma instance_getter_notifies (original_property : value) (property_name : string)
    (target : value) (observer : Observer) (level : string) (self : value)
    (st st1 : state) (v : value) :
  suspend_trace st = false ->
  is_property original_property = true ->
  call_value (property_fget original_property) [self] [] (set_suspend true st) = (Ok v, st1) ->
  instance_getter original_property property_name target observer level self st =
  match notify observer original_property "get" [target; VStr property_name; v]
          [("level", VStr level)] (set_suspend false st1) with
  | (Ok (VDict d), st2, evs) =>
      (Ok (if truthy (dict_get d "do_not_really_get" (VBool false))
           then dict_get d "return_value" VNone else v),
       st2, EvOriginal (property_fget original_property) [self] [] :: evs)
  | (Ok _, st2, evs) =>
      (Ok v, st2, EvOriginal (property_fget original_property) [self] [] :: evs)
  | (Raise e, st2, evs) =>
      (Raise e, if is_exception e then set_suspend false st2 else st2,
       EvOriginal (property_fget original_property) [self] [] :: evs)
  end.
Proof.
  intros Hs Hp Hget.
  unfold instance_getter, bind, get_suspend_trace, except_reraise, set_suspend_trace.
  rewrite Hs, Hp. unfold call_original. simpl. rewrite Hget. simpl.
  destruct (notify observer original_property "get" _ _ (set_suspend false st1))
    as [[[r|e] st2] evs]; simpl.
  - destruct r; simpl; rewrite ?app_nil_r; try done.
    by destruct (truthy _); simpl; rewrite ?app_nil_r.
  - destruct (is_exception e); by rewrite ?app_nil_r.
Qed.

(** With nothing subscribed under its key, the getter of a property returns
    what the original getter returned. *)
Lemma instance_getter_without_subscribers (original_property : value)
    (property_name : string) (target : value) (observer : Observer) (level : string)
    (self : value) (st st1 : state) (v : value) :
  suspend_trace st = false ->
  is_property original_property = true ->
  call_value (property_fget original_property) [self] [] (set_suspend true st) = (Ok v, st1) ->
  observers observer !! (level +:+ "_get") = None ->
  instance_getter original_property property_name target observer level self st =
  (Ok v, set_suspend false st1, [EvOriginal (property_fget original_property) [self] []]).
Proof.
  intros Hs Hp Hget Hnone.
  rewrite (instance_getter_notifies _ _ _ _ _ _ _ _ _ Hs Hp Hget).
  unfold notify, bind, get_suspend_trace. simpl.
  destruct (denylisted _); simpl; [done|].
  change (level +:+ "_" +:+ "get") with (level +:+ "_get").
  by rewrite Hnone.
Qed.

(** The setter never reaches a subscriber: it calls [notify] with the flag
    set. *)
Lemma instance_setter_never_dispatches (original_property : value)
    (property_name : string) (target : value) (observer : Observer) (level : string)
    (self new_value : value) (st : state) :
  forall key cb a result,
    ~ In (EvCallback key cb a result)
         (events_of (instance_setter original_property property_name target observer
                       level self new_value st)).
Proof.
  intros key cb a result.
  unfold instance_setter, bind, get_suspend_trace, except_reraise, set_suspend_trace.
  destruct (suspend_trace st) eqn:Hs.
  - unfold lift_host. destruct (py_dict_set _ _ _ st) as [[] ?]; simpl; tauto.
  - rewrite notify_suspended by done. simpl.
    unfold except_attribute_error, call_original, lift_host, bind, ret. simpl.
    destruct (is_property original_property); simpl.
    + destruct (is_none (property_fset original_property)); simpl.
      * destruct (py_dict_set _ _ _ _) as [[|e] ?]; simpl; [tauto|].
        destruct (is_exception e); simpl; tauto.
      * destruct (call_value _ _ _ _) as [[?|e] ?]; simpl;
          [intros [Heq|[]]; discriminate|].
        destruct e;
          try (simpl; intros [Heq|[]]; discriminate).
        destruct (py_dict_set _ _ _ _) as [[|e] ?]; simpl.
        -- intros [Heq|[]]; discriminate.
        -- destruct (is_exception e); simpl; intros [Heq|[]]; discriminate.
    + destruct (py_dict_set _ _ _ _) as [[|e] ?]; simpl; [tauto|].
      destruct (is_exception e); simpl; tauto.
Qed.

(** C4, as amended: while the flag is set [notify] dispatches nothing,
    invokes no subscriber and returns [None], and the getter of a patched
    instance property returns the shadow attribute without notifying; the
    getter holds the flag only while it reads the original value, so the
    subscribers it then notifies run with the flag unset. *)
Theorem suspend_trace_guards_notify (observer : Observer) (func : value)
    (event_type : string) (args : list value) (kwargs : list (string * value))
    (original_property : value) (property_name : string) (target : value)
    (level : string) (self : value) (st st0 st1 : state) (v : value) :
  suspend_trace st = true ->
  suspend_trace st0 = false ->
  is_property original_property = true ->
  call_value (property_fget original_property) [self] [] (set_suspend true st0) = (Ok v, st1) ->
  notify observer func event_type args kwargs st = (Ok VNone, st, []) /\
  instance_getter original_property property_name target observer level self st =
    lift_host (py_getattr self ("__original_" +:+ property_name) VNone) st /\
  events_of (lift_host (py_getattr self ("__original_" +:+ property_name) VNone) st) = [] /\
  suspend_trace (set_suspend false st1) = false /\
  events_of (instance_getter original_property property_name target observer level self st0) =
    EvOriginal (property_fget original_property) [self] []
      :: events_of (notify observer original_property "get"
                      [target; VStr property_name; v] [("level", VStr level)]
                      (set_suspend false st1)).
Proof.
  intros Hs Hs0 Hp Hget. repeat split.
  - by apply notify_suspended.
  - by apply instance_getter_suspended.
  - unfold lift_host. by destruct (py_getattr _ _ _ st).
  - erewrite instance_getter_notifies by done.
    destruct (notify observer original_property "get" _ _ (set_suspend false st1))
      as [[[r|e] st2] evs]; [by destruct r|done].
Qed.

End WrapperFacts.

(** ** Signatures and classification *)

Section ClassifierFacts.
Context `{HM : HostModel}.




Lemma existsb_eqb_In (x : string) (l : list string) :
  existsb (String.eqb x) l = true <-> In x l.
Proof.
  induction l as [|y l IH]; simpl; [done|].
  destruct (String.eqb_spec x y) as [->|Hne]; simpl.
  - tauto.
  - rewrite IH. split; [tauto|]. intros [Heq|H]; [congruence|done].
Qed.

(** C7, as amended: for a callable member of a class whose descriptor is
    neither a property, a static method nor a class method, the member is
    judged to declare [self] exactly when signature introspection succeeds
    and some declared parameter, in any position, is named [self]; and it
    is classified instance-level exactly when it is so judged.  The
    judgement reads the signature only: [uses_self] is a function of the
    introspection result and runs nothing. *)
Theorem declares_self_any_parameter (obj : container) (name : string) (member : value)
    (implemented_from : option string) (self_usage : bool) :
  c_kind obj = IsClass ->
  callable member = true ->
  plain_descriptor (get_member_descriptor obj name) = true ->
  uses_self member = Ok self_usage ->
  (self_usage = true <->
     exists params, inspect_signature member = SigOk params /\ In "self" params) /\
  (classify_member_level obj name member implemented_from self_usage = MemberLevel.INSTANCE
     <-> self_usage = true).
Proof.
  intros Hk Hc Hd Hu. split.
  - unfold uses_self in Hu. rewrite Hc in Hu. cbn [negb] in Hu.
    destruct (inspect_signature member) as [params| | |]; [| | |discriminate].
    + assert (self_usage = existsb (String.eqb "self") params) as -> by congruence.
      rewrite existsb_eqb_In. split.
      * eauto.
      * intros (ps & Heq & Hin). by inversion Heq; subst.
    + assert (self_usage = false) as -> by congruence.
      split; [done|]. intros (? & ? & _). discriminate.
    + assert (self_usage = false) as -> by congruence.
      split; [done|]. intros (? & ? & _). discriminate.
  - unfold classify_member_level. rewrite Hk, Hc. simpl.
    destruct (get_member_descriptor obj name); try discriminate;
      destruct self_usage; try done;
      by destruct (bool_decide (implemented_from = Some "object")).
Qed.

(** ** Scanning a container *)

Lemma get_members_loop_grows (obj : container) (no_filter : bool)
    (members : list (string * value)) (printed printed' : gset (string * string))
    (ml ml' : list member_info) (r : res unit) :
  get_members_loop obj no_filter members printed ml = (r, printed', ml') ->
  exists suffix, ml' = ml ++ suffix.
Proof.
  revert printed ml.
  induction members as [|[name member] members IH]; intros printed ml Hrun;
    simpl in Hrun.
  - inversion Hrun; subst. exists []. by rewrite app_nil_r.
  - destruct (is_private name); [by eapply IH|].
    destruct (if callable member then uses_self member else Ok false) as [su|e].
    + match type of Hrun with
      | (if ?c then _ else _) = _ => destruct c; [by eapply IH|]
      end.
      destruct (bool_decide ((c_name obj, name) ∈ printed)); [by eapply IH|].
      apply IH in Hrun as [suffix ->]. rewrite <- app_assoc. eauto.
    + inversion Hrun; subst. exists []. by rewrite app_nil_r.
Qed.

(** Names shut out by the underscore test are never recorded, whatever the
    flag. *)
Lemma get_members_loop_private (obj : container) (no_filter : bool)
    (members : list (string * value)) (printed printed' : gset (string * string))
    (ml ml' : list member_info) (r : res unit) (name : string) :
  get_members_loop obj no_filter members printed ml = (r, printed', ml') ->
  is_private name = true ->
  In name (map mi_name ml') -> In name (map mi_name ml).
Proof.
  revert printed ml.
  induction members as [|[name0 member] members IH]; intros printed ml Hrun Hp Hin;
    simpl in Hrun.
  - by inversion Hrun; subst.
  - destruct (is_private name0) eqn:Hp0; [by eapply IH|].
    destruct (if callable member then uses_self member else Ok false) as [su|e].
    + match type of Hrun with
      | (if ?c then _ else _) = _ => destruct c; [by eapply IH|]
      end.
      destruct (bool_decide ((c_name obj, name0) ∈ printed)); [by eapply IH|].
      specialize (IH _ _ Hrun Hp Hin).
      rewrite map_app in IH. apply in_app_or in IH as [H|[H|[]]]; [done|].
      simpl in H. subst name0. congruence.
    + by inversion Hrun; subst.
Qed.

(** With the flag set, every member that passes the underscore test is
    recorded by the scan unless its (container, name) pair was recorded
    before. *)
Lemma get_members_loop_no_filter (obj : container)
    (members : list (string * value)) (printed printed' : gset (string * string))
    (ml ml' : list member_info) (name : string) (member : value) :
  get_members_loop obj true members printed ml = (Ok tt, printed', ml') ->
  In (name, member) members ->
  is_private name = false ->
  (c_name obj, name) ∈ printed \/ In name (map mi_name ml').
Proof.
  revert printed ml.
  induction members as [|[name0 member0] members IH]; intros printed ml Hrun Hin Hp;
    simpl in Hrun; [contradiction|].
  destruct Hin as [Heq|Hin].
  - inversion Heq; subst. rewrite Hp in Hrun.
    destruct (if callable member then uses_self member else Ok false) as [su|e];
      [|discriminate].
    simpl in Hrun.
    destruct (bool_decide_reflect ((c_name obj, name) ∈ printed)) as [Hmem|Hmem];
      [by left|right].
    apply get_members_loop_grows in Hrun as [suffix ->].
    rewrite !map_app. simpl. apply in_or_app. left. apply in_or_app. right. by left.
  - destruct (is_private name0); [by eapply IH|].
    destruct (if callable member0 then uses_self member0 else Ok false) as [su|e];
      [|discriminate].
    simpl in Hrun.
    destruct (bool_decide ((c_name obj, name0) ∈ printed)); [by eapply IH|].
    pose proof (get_members_loop_grows _ _ _ _ _ _ _ _ Hrun) as [suffix Hsuf].
    destruct (IH _ _ Hrun Hin Hp) as [Hmem|Hml]; [|by right].
    apply elem_of_union in Hmem as [Hhead|Hmem]; [|by left].
    apply elem_of_singleton in Hhead. inversion Hhead; subst. right.
    rewrite !map_app. simpl. apply in_or_app. left. apply in_or_app. right. by left.
Qed.

Lemma captured_names_get_members (self self' : Inspector) (obj : container)
    (no_filter : bool) :
  get_members self obj no_filter = (Ok tt, self') ->
  exists printed' ml',
    get_members_loop obj no_filter (c_members obj) (printed_members self) []
      = (Ok tt, printed', ml') /\
    captured_names self' (c_name obj) =
      captured_names self (c_name obj) ++ map mi_name ml'.
Proof.
  unfold get_members. intros Hrun.
  destruct (get_members_loop obj no_filter (c_members obj) (printed_members self) [])
    as [[[[]|e] printed'] ml'] eqn:Hloop; [|discriminate].
  inversion Hrun; subst. exists printed', ml'. split; [done|].
  unfold captured_names. simpl. rewrite lookup_alter_eq.
  destruct (captured_members self !! c_name obj) as [old|] eqn:Hold.
  - rewrite Hold. simpl. by rewrite map_app.
  - by rewrite lookup_insert_eq.
Qed.

(** C6, as amended: a scan with the flag set skips the provenance filter
    and the filter on class-level special variables: every member whose
    name passes the underscore test is recorded, whatever its provenance and
    classification, unless its (container, name) pair was recorded by an
    earlier scan.  The underscore test itself does not look at the flag: a
    name with a leading underscore that is not a dunder name is not
    recorded. *)
Theorem get_members_no_filter (self self' : Inspector) (obj : container) :
  get_members self obj true = (Ok tt, self') ->
  (forall name member,
      In (name, member) (c_members obj) ->
      is_private name = false ->
      (c_name obj, name) ∉ printed_members self ->
      In name (captured_names self' (c_name obj))) /\
  (forall name,
      is_private name = true ->
      In name (captured_names self' (c_name obj)) ->
      In name (captured_names self (c_name obj))).
Proof.
  intros Hrun.
  apply captured_names_get_members in Hrun as (printed' & ml' & Hloop & ->).
  split.
  - intros name member Hin Hp Hfresh. apply in_or_app. right.
    destruct (get_members_loop_no_filter _ _ _ _ _ _ _ _ Hloop Hin Hp); done.
  - intros name Hp [H|H]%in_app_or; [done|].
    by apply (get_members_loop_private _ _ _ _ _ _ _ _ _ Hloop Hp) in H.
Qed.

End ClassifierFacts.

(** ** Patching a member at most once *)

(** Induction over values, with the hypothesis for the values inside. *)
Lemma value_nested_ind (P : value -> Prop) :
  (forall v,
      match v with
      | VTuple l | VList l => Forall P l
      | VDict d => Forall (fun e => P (snd e)) d
      | VProperty _ g s => P g /\ P s
      | VStaticMethod _ f | VClassMethod _ f => P f
      | VBoundMethod s f => P s /\ P f
      | _ => True
      end -> P v) ->
  forall v, P v.
Proof.
  intros H. fix IH 1. intros v. apply H. destruct v; try exact I.
  - induction items; constructor; [apply IH|assumption].
  - induction items; constructor; [apply IH|assumption].
  - induction entries; constructor; [apply IH|assumption].
  - split; apply IH.
  - apply IH.
  - apply IH.
  - split; apply IH.
Qed.

Lemma value_eqb_eq (a b : value) : value_eqb a b = true -> a = b.
Proof.
  revert b. induction a as [a IHa] using value_nested_ind.
  assert (forall l1 l2 : list value,
             Forall (fun x => forall y, value_eqb x y = true -> x = y) l1 ->
             (fix items_eqb (l1 l2 : list value) {struct l1} : bool :=
                match l1, l2 with
                | [], [] => true
                | x :: l1', y :: l2' => value_eqb x y && items_eqb l1' l2'
                | _, _ => false
                end) l1 l2 = true -> l1 = l2) as Hitems.
  { clear. induction l1 as [|x l1 IHl]; intros [|y l2] Hx H; try done.
    apply andb_prop in H as [H1 H2]. inversion Hx; subst. f_equal; auto. }
  assert (forall d1 d2 : list (string * value),
             Forall (fun e => forall y, value_eqb (snd e) y = true -> snd e = y) d1 ->
             (fix entries_eqb (d1 d2 : list (string * value)) {struct d1} : bool :=
                match d1, d2 with
                | [], [] => true
                | e1 :: d1', e2 :: d2' =>
                    String.eqb (fst e1) (fst e2) && value_eqb (snd e1) (snd e2)
                    && entries_eqb d1' d2'
                | _, _ => false
                end) d1 d2 = true -> d1 = d2) as Hentries.
  { clear. induction d1 as [|[k x] d1 IHd]; intros [|[k' y] d2] Hx H; try done.
    apply andb_prop in H as [H12 H3]. apply andb_prop in H12 as [H1 H2].
    simpl in *. apply String.eqb_eq in H1. subst k'. inversion Hx; subst.
    simpl in *. f_equal; [f_equal|]; auto. }
  intros b. destruct a, b; simpl; try discriminate; intros H.
  - done.
  - f_equal. by apply Bool.eqb_prop.
  - f_equal. by apply Z.eqb_eq.
  - f_equal. by apply String.eqb_eq.
  - f_equal. by apply Hitems.
  - f_equal. by apply Hitems.
  - f_equal. by apply Hentries.
  - f_equal. by apply String.eqb_eq.
  - f_equal. by apply String.eqb_eq.
  - apply andb_prop in H as [H12 H3]. apply andb_prop in H12 as [H1 H2].
    apply Nat.eqb_eq in H1. destruct IHa as [IHg IHs].
    apply IHg in H2. apply IHs in H3. by subst.
  - apply andb_prop in H as [H1 H2].
    apply Nat.eqb_eq in H1. apply IHa in H2. by subst.
  - apply andb_prop in H as [H1 H2].
    apply Nat.eqb_eq in H1. apply IHa in H2. by subst.
  - f_equal. by apply Nat.eqb_eq.
  - apply andb_prop in H as [H1 H2]. destruct IHa as [IHs IHf].
    apply IHs in H1. apply IHf in H2. by subst.
  - f_equal. by apply Nat.eqb_eq.
  - f_equal. by apply Nat.eqb_eq.
  - f_equal. by apply Nat.eqb_eq.
Qed.

Lemma value_eqb_refl (a : value) : value_eqb a a = true.
Proof.
  induction a as [a IHa] using value_nested_ind.
  destruct a; simpl; try done.
  - by destruct b.
  - apply Z.eqb_refl.
  - apply String.eqb_refl.
  - induction IHa as [|x l Hx _ IHl]; [done|]. by rewrite Hx, IHl.
  - induction IHa as [|x l Hx _ IHl]; [done|]. by rewrite Hx, IHl.
  - induction IHa as [|x l Hx _ IHl]; [done|].
    by rewrite String.eqb_refl, Hx, IHl.
  - apply String.eqb_refl.
  - apply String.eqb_refl.
  - destruct IHa as [-> ->]. by rewrite Nat.eqb_refl.
  - by rewrite IHa, Nat.eqb_refl.
  - by rewrite IHa, Nat.eqb_refl.
  - apply Nat.eqb_refl.
  - by destruct IHa as [-> ->].
  - apply Nat.eqb_refl.
  - apply Nat.eqb_refl.
  - apply Nat.eqb_refl.
Qed.

Lemma same_key_eq (a b : value) :
  same_key a b = true ->
  exists k, member_key a = Some k /\ member_key b = Some k.
Proof.
  unfold same_key.
  destruct (member_key a) as [x|], (member_key b) as [y|]; try discriminate.
  intros ->%value_eqb_eq. eauto.
Qed.

Lemma patched_has_app (k : value) (l1 l2 : list (value * member_info)) :
  patched_has k (l1 ++ l2) = (patched_has k l1 || patched_has k l2)%bool.
Proof. unfold patched_has. apply existsb_app. Qed.





(** After an application the key of the member is on record. *)
Lemma patch_member_info_marks (self self1 : Inspector) (cls : container)
    (mi : member_info) (ns ns1 : namespace) (r : res unit) (k : value) :
  patch_member_info self cls mi ns = (r, self1, ns1) ->
  member_key (mi_member mi) = Some k ->
  patched_has k (patched_members self1) = true.
Proof.
  unfold patch_member_info. intros Hrun Hk. rewrite Hk in Hrun.
  destruct (patched_has k (patched_members self)) eqn:Hp; inversion Hrun; subst.
  - done.
  - simpl. rewrite patched_has_app. simpl. rewrite Hk, value_eqb_refl.
    by rewrite Bool.orb_true_r.
Qed.

(** The record of patched members only grows. *)
Lemma patch_member_info_keeps (self self1 : Inspector) (cls : container)
    (mi : member_info) (ns ns1 : namespace) (r : res unit) (k : value) :
  patch_member_info self cls mi ns = (r, self1, ns1) ->
  patched_has k (patched_members self) = true ->
  patched_has k (patched_members self1) = true.
Proof.
  unfold patch_member_info. intros Hrun Hp.
  destruct (member_key (mi_member mi)) as [k'|]; [|by inversion Hrun; subst].
  destruct (patched_has k' (patched_members self)); inversion Hrun; subst; [done|].
  simpl. rewrite patched_has_app, Hp. done.
Qed.





(** ** The properties at work on the small host *)

(** Two subscribers under one key, the first answering 1: the second is
    never invoked. *)
Lemma notify_dispatch_order_witness :
  let subs := [("get", VFunction 7, "instance"); ("get", VFunction 8, "instance")] in
  let payload := [VClass "MyClass"; VStr "value"; VInt 3] in
  let out := @notify (Demo.demo_host 5) (subscribe_all Observer_init subs) VNone "get"
               payload [("level", VStr "instance")] Demo.initial in
  exists pre cb post v,
    subscribed_under "instance_get" subs = pre ++ cb :: post /\
    v <> VNone /\
    events_of out =
      map (fun cb => EvCallback "instance_get" cb payload (Ok VNone)) pre
        ++ [EvCallback "instance_get" cb payload (Ok v)] /\
    result_of out = Ok v.
Proof.
  intros subs payload out.
  destruct (@notify_dispatch_order (Demo.demo_host 5) subs VNone "get"
              (VClass "MyClass") [VStr "value"; VInt 3] [("level", VStr "instance")]
              Demo.initial (state_of out) (result_of out) (events_of out)
              eq_refl eq_refl eq_refl)
    as [[H _]|[H|(pre & cb & post & e & _ & _ & H)]].
  - vm_compute in H. discriminate H.
  - exact H.
  - vm_compute in H. discriminate H.
Defined.

(** A silent subscriber and a default of 5. *)
Lemma notify_returns_default_witness :
  result_of (@notify (Demo.demo_host 5)
               (subscribe Observer_init "get" (VFunction 9) "instance") VNone "get"
               [VClass "MyClass"; VStr "value"; VInt 3]
               [("level", VStr "instance"); ("default_value", VInt 5)] Demo.initial)
  = Ok (VInt 5).
Proof.
  set (out := @notify _ _ _ _ _ _ _).
  apply (@notify_returns_default (Demo.demo_host 5)
           (subscribe Observer_init "get" (VFunction 9) "instance") VNone "get"
           (VClass "MyClass") [VStr "value"; VInt 3]
           [("level", VStr "instance"); ("default_value", VInt 5)]
           Demo.initial (state_of out) (result_of out) (events_of out)
           eq_refl eq_refl eq_refl).
  intros key cb args result Hin. vm_compute in Hin.
  destruct Hin as [Heq|[]]. by injection Heq as _ _ _ <-.
Defined.

(** C8 fails as stated: with the flag set no subscriber answers anything,
    yet the result is [None] and not the default value 5. *)
Lemma notify_default_counterexample :
  let kwargs := [("level", VStr "instance"); ("default_value", VInt 5)] in
  let out := @notify (Demo.demo_host 5) Observer_init VNone "get"
               [VClass "MyClass"; VStr "value"; VInt 3] kwargs
               (HState true [("instance_var", VInt 10)]) in
  events_of out = [] /\
  dict_get kwargs "default_value" VNone = VInt 5 /\
  result_of out = Ok VNone /\
  result_of out <> Ok (VInt 5).
Proof. vm_compute. repeat split; discriminate. Defined.

Lemma notify_empty_payload_witness :
  @notify (Demo.demo_host 5) Demo.reader_observer VNone "get" []
    [("level", VStr "instance")] Demo.initial
  = (Raise IndexError, Demo.initial, []).
Proof.
  exact (@notify_empty_payload_raises (Demo.demo_host 5) Demo.reader_observer VNone
           "get" [("level", VStr "instance")] Demo.initial eq_refl).
Defined.

(** A suppressing subscriber behind a silent one, at each of the three
    levels: for each of the four replacement callables the body never runs
    and the caller receives 42. *)
Lemma suppress_call_witness :
  let observer :=
    subscribe_all Observer_init
      [("before_call", VFunction 9, "instance"); ("before_call", VFunction 5, "instance");
       ("before_call", VFunction 9, "class"); ("before_call", VFunction 5, "class");
       ("before_call", VFunction 9, "module"); ("before_call", VFunction 5, "module")] in
  let run w pos := @call_patched (Demo.demo_host 5) observer w pos [] Demo.initial in
  let method := run (InstPatchedMethod (VFunction 6) (VClass "MyClass") "area")
                  [VInstance 1; VInt 2] in
  let class_method := run (InstPatchedClassMethod (VFunction 6) (VClass "MyClass") "make")
                        [VClass "MyClass"] in
  let static_method := run (InstPatchedStaticMethod (VFunction 6) (VClass "MyClass") "helper")
                         [VInt 3] in
  let function := run (InstPatchedFunction (VFunction 6) (VModule "tools") "run") [] in
  (result_of method = Ok (VInt 42) /\ original_calls (events_of method) = []) /\
  (result_of class_method = Ok (VInt 42) /\ original_calls (events_of class_method) = []) /\
  (result_of static_method = Ok (VInt 42) /\ original_calls (events_of static_method) = []) /\
  (result_of function = Ok (VInt 42) /\ original_calls (events_of function) = []).
Proof.
  intros observer run method class_method static_method function.
  pose (d := [("do_not_really_call", VBool true); ("return_value", VInt 42)]).
  pose (st1 := Demo.bump "silent_runs" Demo.initial).
  assert (forall w pos evs1,
             @call_patched (Demo.demo_host 5) observer w pos [] Demo.initial
               = (Ok (dict_get d "return_value" VNone), st1, evs1) /\
             original_calls evs1 = [] ->
             result_of (run w pos) = Ok (VInt 42) /\
             original_calls (events_of (run w pos)) = []) as Hread.
  { intros w pos evs1 [Hrun Hcalls]. unfold run. by rewrite Hrun. }
  split; [|split; [|split]].
  - eapply Hread.
    apply (@suppress_call_skips_original (Demo.demo_host 5) observer
             (InstPatchedMethod (VFunction 6) (VClass "MyClass") "area") (VFunction 6)
             [VInstance 1; VInt 2] [] Demo.initial st1 st1 [VFunction 9] [] (VFunction 5) d
             [EvCallback "instance_before_call" (VFunction 9)
                [VClass "MyClass"; VStr "area"; VTuple [VInt 2]; VDict []] (Ok VNone)]).
    + reflexivity.
    + intros p Hp; split; [discriminate|reflexivity].
    + reflexivity.
    + vm_compute; reflexivity.
    + vm_compute; reflexivity.
    + vm_compute; reflexivity.
    + vm_compute; reflexivity.
    + reflexivity.
  - eapply Hread.
    apply (@suppress_call_skips_original (Demo.demo_host 5) observer
             (InstPatchedClassMethod (VFunction 6) (VClass "MyClass") "make") (VFunction 6)
             [VClass "MyClass"] [] Demo.initial st1 st1 [VFunction 9] [] (VFunction 5) d
             [EvCallback "class_before_call" (VFunction 9)
                [VClass "MyClass"; VStr "make"; VTuple []; VDict []] (Ok VNone)]).
    + reflexivity.
    + intros p Hp; split; [discriminate|reflexivity].
    + reflexivity.
    + vm_compute; reflexivity.
    + vm_compute; reflexivity.
    + vm_compute; reflexivity.
    + vm_compute; reflexivity.
    + reflexivity.
  - eapply Hread.
    apply (@suppress_call_skips_original (Demo.demo_host 5) observer
             (InstPatchedStaticMethod (VFunction 6) (VClass "MyClass") "helper") (VFunction 6)
             [VInt 3] [] Demo.initial st1 st1 [VFunction 9] [] (VFunction 5) d
             [EvCallback "class_before_call" (VFunction 9)
                [VClass "MyClass"; VStr "helper"; VTuple [VInt 3]; VDict []] (Ok VNone)]).
    + reflexivity.
    + intros p Hp; discriminate Hp.
    + reflexivity.
    + vm_compute; reflexivity.
    + vm_compute; reflexivity.
    + vm_compute; reflexivity.
    + vm_compute; reflexivity.
    + reflexivity.
  - eapply Hread.
    apply (@suppress_call_skips_original (Demo.demo_host 5) observer
             (InstPatchedFunction (VFunction 6) (VModule "tools") "run") (VFunction 6)
             [] [] Demo.initial st1 st1 [VFunction 9] [] (VFunction 5) d
             [EvCallback "module_before_call" (VFunction 9)
                [VNone; VStr "run"; VTuple []; VDict []] (Ok VNone)]).
    + reflexivity.
    + intros p Hp; discriminate Hp.
    + reflexivity.
    + vm_compute; reflexivity.
    + vm_compute; reflexivity.
    + vm_compute; reflexivity.
    + vm_compute; reflexivity.
    + reflexivity.
Defined.

(** C4 fails as stated: a ['get'] subscriber that reads the property during
    its first run is notified a second time, for the nested read; the outer
    read returns 10 after two runs of the subscriber. *)
Lemma nested_read_is_notified_again :
  let out := @instance_getter (Demo.demo_host 10) Demo.my_instance_property
               "my_instance_property" (VClass "MyClass") Demo.reader_observer
               "instance" (VInstance 1) Demo.initial in
  result_of out = Ok (VInt 10) /\
  Demo.counter "reader_runs" (state_of out) = 2%Z.
Proof. vm_compute. split; reflexivity. Defined.

Lemma suspend_trace_guards_notify_witness :
  let suspended := HState true [("instance_var", VInt 10)] in
  @notify (Demo.demo_host 10) Demo.reader_observer Demo.my_instance_property "get"
    [VClass "MyClass"; VStr "my_instance_property"; VInt 10]
    [("level", VStr "instance")] suspended
  = (Ok VNone, suspended, []).
Proof.
  intros suspended.
  exact (proj1 (@suspend_trace_guards_notify (Demo.demo_host 10)
                  Demo.reader_observer Demo.my_instance_property "get"
                  [VClass "MyClass"; VStr "my_instance_property"; VInt 10]
                  [("level", VStr "instance")]
                  Demo.my_instance_property "my_instance_property" (VClass "MyClass")
                  "instance" (VInstance 1) suspended Demo.initial suspended (VInt 10)
                  eq_refl eq_refl eq_refl eq_refl)).
Defined.

(** C5, the defect at work: a ['set'] subscriber that vetoes every write is
    subscribed, and it does veto when it is notified directly; yet setting
    the patched property to 200 never reaches it (it has run zero times),
    the original setter runs and the stored value becomes 200. *)
Theorem instance_setter_ignores_veto :
  let direct := @notify (Demo.demo_host 10) Demo.veto_observer
                  Demo.my_instance_property "set"
                  [VClass "MyClass"; VStr "my_instance_property"; VInt 200]
                  [("level", VStr "instance")] Demo.initial in
  let out := @instance_setter (Demo.demo_host 10) Demo.my_instance_property
               "my_instance_property" (VClass "MyClass") Demo.veto_observer
               "instance" (VInstance 1) (VInt 200) Demo.initial in
  result_of direct = Ok (VDict [("do_not_really_set", VBool true)]) /\
  Demo.heap_get "instance_var" Demo.initial = Some (VInt 10) /\
  result_of out = Ok tt /\
  Demo.counter "veto_runs" (state_of out) = 0%Z /\
  events_of out = [EvOriginal (VFunction 2) [VInstance 1; VInt 200] []] /\
  Demo.heap_get "instance_var" (state_of out) = Some (VInt 200).
Proof. vm_compute. repeat split; reflexivity. Qed.

(** The same defect's second face: an instance variable holding 10 is
    patched with its value as the "original property"; reading it through
    the getter yields [None], for nothing ever stores the shadow attribute
    the getter reads. *)
Lemma instance_variable_reads_none :
  let out := @instance_getter (Demo.demo_host 10) (VInt 10) "instance_var"
               (VClass "MyClass") Observer_init "instance" (VInstance 1)
               Demo.initial in
  Demo.heap_get "instance_var" Demo.initial = Some (VInt 10) /\
  result_of out = Ok VNone.
Proof. vm_compute. split; reflexivity. Qed.

(** C6 fails as stated: scanned with the flag set, [MyClass] has a member
    [_hidden], and the scan records every member but that one. *)
Lemma get_members_underscore_counterexample :
  let out := @get_members (Demo.demo_host 0) Inspector_init Demo.MyClass true in
  In ("_hidden", VInt 5) (c_members Demo.MyClass) /\
  fst out = Ok tt /\
  captured_names (snd out) "MyClass" =
    ["__doc__"; "__hash__"; "base_method"; "class_method_with_self";
     "class_var"; "f"; "my_instance_property"].
Proof. vm_compute. repeat split. tauto. Defined.

(** The inherited [base_method] is recorded when the flag is set. *)
Lemma get_members_no_filter_witness :
  In "base_method"
     (captured_names (snd (@get_members (Demo.demo_host 0) Inspector_init Demo.MyClass true))
        "MyClass").
Proof.
  refine (proj1 (@get_members_no_filter (Demo.demo_host 0) Inspector_init
                   (snd (@get_members (Demo.demo_host 0) Inspector_init Demo.MyClass true))
                   Demo.MyClass _) "base_method" (VFunction 22) _ _ _).
  - vm_compute. reflexivity.
  - vm_compute. tauto.
  - reflexivity.
  - simpl. apply not_elem_of_empty.
Defined.

(** C7 fails as stated: [f(x, self)] does not have [self] as its first
    parameter, yet it is judged to declare [self] and is classified
    instance-level; and the class method whose first parameter after [cls]
    is [self] is judged to declare [self] but is classified class-level. *)
Lemma declares_self_counterexample :
  let h := Demo.demo_host 0 in
  let cm := VBoundMethod (VClass "MyClass") (VFunction 21) in
  @inspect_signature h (VFunction 20) = SigOk ["x"; "self"] /\
  @uses_self h (VFunction 20) = Ok true /\
  classify_member_level Demo.MyClass "f" (VFunction 20) (Some "MyClass") true
    = MemberLevel.INSTANCE /\
  @inspect_signature h cm = SigOk ["self"] /\
  @uses_self h cm = Ok true /\
  classify_member_level Demo.MyClass "class_method_with_self" cm (Some "MyClass") true
    = MemberLevel.CLASS.
Proof. vm_compute. repeat split. Defined.

Lemma declares_self_witness :
  (true = true <->
     exists params,
       @inspect_signature (Demo.demo_host 0) (VFunction 20) = SigOk params /\
       In "self" params) /\
  (classify_member_level Demo.MyClass "f" (VFunction 20) (Some "MyClass") true
     = MemberLevel.INSTANCE <-> true = true).
Proof.
  exact (@declares_self_any_parameter (Demo.demo_host 0) Demo.MyClass "f" (VFunction 20)
           (Some "MyClass") true eq_refl eq_refl eq_refl eq_refl).
Defined.




(** * Further properties *)

(** ** Subscriptions *)

Section SubscriptionFacts.
Context `{HM : HostModel}.

(** [subscribe] puts the callback at the end of the list of its key, which
    it creates when there is none, and touches no other key. *)
Lemma subscribe_appends (self : Observer) (event_type : string) (callback : value)
    (level key : string) :
  observers (subscribe self event_type callback level) !! key =
  if String.eqb (level +:+ "_" +:+ event_type) key
  then Some (default [] (observers self !! key) ++ [callback])
  else observers self !! key.
Proof.
  unfold subscribe; simpl.
  destruct (String.eqb_spec (level +:+ "_" +:+ event_type) key) as [->|Hne].
  - rewrite lookup_alter_eq.
    destruct (observers self !! key) as [l|] eqn:Hl.
    + by rewrite Hl.
    + by rewrite lookup_insert_eq.
  - rewrite lookup_alter_ne by done.
    destruct (observers self !! (level +:+ "_" +:+ event_type)); [done|].
    by rewrite lookup_insert_ne.
Qed.

(** With nothing registered under the key, [notify] calls nobody and
    returns the default value, or [None] at one of its early returns. *)
Lemma notify_unregistered (self : Observer) (func : value) (event_type : string)
    (a0 : value) (rest : list value) (kwargs : list (string * value)) (st : state) :
  observers self !! event_key_of kwargs event_type = None ->
  dict_get kwargs "default_value" VNone = VNone ->
  notify self func event_type (a0 :: rest) kwargs st = (Ok VNone, st, []).
Proof.
  intros Hnone Hdef. unfold notify, bind, get_suspend_trace.
  destruct (suspend_trace st); [done|].
  destruct (denylisted (a0 :: rest)); [done|].
  fold (event_key_of kwargs event_type). rewrite Hnone, Hdef. done.
Qed.

Lemma notify_denylisted (self : Observer) (func : value) (event_type : string)
    (args : list value) (kwargs : list (string * value)) (st : state) :
  denylisted args = true ->
  notify self func event_type args kwargs st = (Ok VNone, st, []).
Proof.
  intros Hd. unfold notify, bind, get_suspend_trace.
  destruct (suspend_trace st); [done|]. by rewrite Hd.
Qed.

(** X1: a first subscription at work: after a callback is subscribed under
    a key that had no subscriber, a [notify] under that key (flag unset,
    member name not on the denylist) calls that callback first, with the
    normalized payload; when the callback answers something other than
    [None], or raises, that is the outcome of [notify] and no other call is
    made. *)
Theorem subscribe_then_notify (self : Observer) (event_type level : string)
    (callback func a0 : value) (rest : list value) (kwargs : list (string * value))
    (st st' : state) (answer : res value) :
  observers self !! (level +:+ "_" +:+ event_type) = None ->
  dict_get kwargs "level" (VStr "instance") = VStr level ->
  suspend_trace st = false ->
  denylisted (a0 :: rest) = false ->
  call_value callback (normalized (a0 :: rest)) [] st = (answer, st') ->
  answer <> Ok VNone ->
  notify (subscribe self event_type callback level) func event_type (a0 :: rest) kwargs st =
  (answer, st',
   [EvCallback (level +:+ "_" +:+ event_type) callback (normalized (a0 :: rest)) answer]).
Proof.
  intros Hnone Hlevel Hs Hd Hcall Hanswer.
  rewrite notify_dispatching by done.
  unfold event_key_of. rewrite Hlevel. simpl py_str.
  rewrite subscribe_appends, String.eqb_refl, Hnone. simpl. simpl in Hcall.
  rewrite Hcall. destruct answer as [v|e]; [|done].
  destruct v; done.
Qed.

End SubscriptionFacts.

(** ** More on the patched callables *)

Section PatchedCallFacts.
Context `{HM : HostModel}.

(** When both notifications of a patched callable are inert, the call is
    the call of the original. *)
Lemma observed_call_inert (observer : Observer) (original target : value)
    (name level : string) (first args : list value) (kwargs : list (string * value))
    (st : state) :
  (forall event_type payload st1,
      event_type = "before_call" \/ event_type = "after_call" ->
      notify observer original event_type (target :: VStr name :: payload)
        [("level", VStr level)] st1 = (Ok VNone, st1, [])) ->
  observed_call observer original target name level first args kwargs st =
  match call_value original (first ++ args) kwargs st with
  | (r, st') => (r, st', [EvOriginal original (first ++ args) kwargs])
  end.
Proof.
  intros Hinert. unfold observed_call, call_then_notify, call_original, bind.
  rewrite Hinert by auto. simpl.
  destruct (call_value original (first ++ args) kwargs st) as [[v|e] st1]; [|done].
  rewrite Hinert by auto. simpl. done.
Qed.

(** A call of a replacement callable either fails to bind its arguments
    or is the common body. *)
Lemma call_patched_cases (observer : Observer) (w : installed) (original : value)
    (pos : list value) (kwargs : list (string * value)) (st : state) :
  wrapped_original w = Some original ->
  (takes_receiver w = true -> pos <> []) ->
  call_patched observer w pos kwargs st = (Raise TypeError, st, []) \/
  exists target first args,
    call_patched observer w pos kwargs st =
    observed_call observer original target (wrapped_name w) (patched_level w)
      first args kwargs st.
Proof.
  intros Ho Hpos.
  destruct w; cbn [wrapped_original takes_receiver] in *; try discriminate;
    injection Ho as ->; cbn [call_patched wrapped_name patched_level].
  - destruct pos as [|x pos]; [by destruct Hpos|]. unfold bind_first.
    destruct (dict_find kwargs "instance_self"); [by left|right].
    by exists target_class, [x], pos.
  - destruct pos as [|x pos]; [by destruct Hpos|]. unfold bind_first.
    destruct (dict_find kwargs "cls"); [by left|right].
    by exists target_class, [x], pos.
  - right. by exists target_class, [], pos.
  - right. by exists module, [], pos.
Qed.

(** X2: a patched callable nobody subscribed to behaves as the original:
    called with a receiver where it takes one, and with no keyword named
    like its own first parameter, it calls the original once, with the
    arguments it was given, and returns what the original returns or raises
    what it raises. *)
Theorem patched_call_without_subscribers (observer : Observer) (w : installed)
    (original : value) (pos : list value) (kwargs : list (string * value)) (st : state) :
  wrapped_original w = Some original ->
  (forall p, receiver_parameter w = Some p -> pos <> [] /\ dict_find kwargs p = None) ->
  observers observer !! (patched_level w +:+ "_before_call") = None ->
  observers observer !! (patched_level w +:+ "_after_call") = None ->
  call_patched observer w pos kwargs st =
  match call_value original pos kwargs st with
  | (r, st') => (r, st', [EvOriginal original pos kwargs])
  end.
Proof.
  intros Ho Hb Hbefore Hafter.
  rewrite (call_patched_bound _ _ _ _ _ _ Ho Hb).
  rewrite observed_call_inert.
  - by rewrite firstn_skipn.
  - intros event_type payload st1 Hev.
    apply notify_unregistered; [|done].
    unfold event_key_of. simpl. by destruct Hev as [->| ->].
Qed.

(** X3: a patched callable whose name contains one of the substrings
    [tokenizer], [metta_err_str], [_free] is never observed: called with a
    receiver where it takes one, and with no keyword named like its own
    first parameter, whatever is subscribed and whatever the state, it
    calls the original once with the arguments it was given and hands back
    its outcome. *)
Theorem denylisted_name_is_not_observed (observer : Observer) (w : installed)
    (original : value) (pos : list value) (kwargs : list (string * value)) (st : state) :
  wrapped_original w = Some original ->
  (forall p, receiver_parameter w = Some p -> pos <> [] /\ dict_find kwargs p = None) ->
  existsb (fun substring => str_contains substring (wrapped_name w)) denylist = true ->
  call_patched observer w pos kwargs st =
  match call_value original pos kwargs st with
  | (r, st') => (r, st', [EvOriginal original pos kwargs])
  end.
Proof.
  intros Ho Hb Hdeny.
  rewrite (call_patched_bound _ _ _ _ _ _ Ho Hb).
  rewrite observed_call_inert.
  - by rewrite firstn_skipn.
  - intros event_type payload st1 _.
    apply notify_denylisted. unfold denylisted. by destruct payload.
Qed.

(** A keyword named like the first parameter of a replacement method that
    was also given its receiver: the call raises [TypeError] at once. *)
Lemma receiver_keyword_clash (observer : Observer) (w : installed) (p : string)
    (x v : value) (pos : list value) (kwargs : list (string * value)) (st : state) :
  receiver_parameter w = Some p ->
  dict_find kwargs p = Some v ->
  call_patched observer w (x :: pos) kwargs st = (Raise TypeError, st, []).
Proof.
  intros Hp Hk.
  destruct w; cbn [receiver_parameter] in Hp; try discriminate; injection Hp as <-;
    cbn [call_patched bind_first]; by rewrite Hk.
Qed.

(** What [notify] hands to the subscribers it calls. *)
Lemma notify_event_args (self : Observer) (func : value) (event_type : string)
    (args : list value) (kwargs : list (string * value)) (st st' : state)
    (r : res value) (evs : list event) :
  notify self func event_type args kwargs st = (r, st', evs) ->
  Forall (fun ev => exists cb result,
              ev = EvCallback (event_key_of kwargs event_type) cb (normalized args) result)
         evs.
Proof.
  intros Hrun.
  destruct (suspend_trace st) eqn:Hs.
  { rewrite notify_suspended in Hrun by done. inversion Hrun; subst. constructor. }
  destruct (denylisted args) eqn:Hd.
  { rewrite notify_denylisted in Hrun by done. inversion Hrun; subst. constructor. }
  destruct args as [|a0 rest].
  { unfold notify, bind, get_suspend_trace in Hrun. rewrite Hs in Hrun. simpl in Hrun. inversion Hrun; subst. constructor. }
  rewrite notify_dispatching in Hrun by done.
  set (key := event_key_of kwargs event_type) in *.
  set (cbs := default [] (observers self !! key)) in *.
  pose proof (dispatch_cases key cbs (normalized (a0 :: rest)) st) as Hc.
  simpl in Hc.
  destruct (dispatch key cbs _ st) as [[r0 st0] evs0].
  destruct Hc as [[-> ->]|[(pre & c & post & w & Hcb & Hw & -> & ->)
                          |(pre & c & post & e & Hcb & -> & ->)]];
    inversion Hrun; subst; apply List.Forall_forall; intros ev Hin.
  - apply in_map_iff in Hin as [cb [<- _]]. eauto.
  - apply in_app_or in Hin as [[cb [<- _]]%in_map_iff|[<-|[]]]; eauto.
  - apply in_app_or in Hin as [[cb [<- _]]%in_map_iff|[<-|[]]]; eauto.
Qed.

Lemma notify_original_calls (self : Observer) (func : value) (event_type : string)
    (args : list value) (kwargs : list (string * value)) (st st' : state)
    (r : res value) (evs : list event) :
  notify self func event_type args kwargs st = (r, st', evs) ->
  original_calls evs = [].
Proof.
  intros Hrun%notify_event_args. unfold original_calls.
  induction Hrun as [|ev evs (cb & result & ->) _ IH]; [done|]. by simpl.
Qed.

(** The two halves of a patched call, case by case. *)
Lemma call_then_notify_cases (observer : Observer) (original target : value)
    (name level : string) (first : list value) (margs mkw : value)
    (st st' : state) (r : res value) (evs : list event) :
  call_then_notify observer original target name level first margs mkw st = (r, st', evs) ->
  match unpack_star margs, unpack_dstar mkw with
  | Ok pos, Ok kw =>
      exists ro st1 ev2,
        call_value original (first ++ pos) kw st = (ro, st1) /\
        evs = EvOriginal original (first ++ pos) kw :: ev2 /\
        match ro with
        | Raise e => r = Raise e /\ ev2 = [] /\ st' = st1
        | Ok v =>
            exists r2,
              notify observer original "after_call" [target; VStr name; v]
                [("level", VStr level)] st1 = (r2, st', ev2) /\
              r = match r2 with
                  | Ok x => Ok (if is_none x then v else x)
                  | Raise e => Raise e
                  end
        end
  | _, _ => r = Raise TypeError /\ evs = [] /\ st' = st
  end.
Proof.
  unfold call_then_notify, call_original, bind, raise. intros Hrun.
  destruct (unpack_star margs) as [pos|]; [destruct (unpack_dstar mkw) as [kw|]|];
    try (by inversion Hrun).
  destruct (call_value original (first ++ pos) kw st) as [[v|e] st1].
  - destruct (notify observer original "after_call" _ _ st1) as [[r2 st2] ev2] eqn:Hn.
    exists (Ok v), st1, ev2. split; [done|].
    destruct r2 as [x|e]; injection Hrun as <- <- <-; simpl; rewrite ?app_nil_r;
      (split; [done|]); eexists; split; done.
  - injection Hrun as <- <- <-. by exists (Raise e), st1, [].
Qed.

Lemma observed_call_cases (observer : Observer) (original target : value)
    (name level : string) (first args : list value) (kwargs : list (string * value))
    (st st' : state) (r : res value) (evs : list event) :
  observed_call observer original target name level first args kwargs st = (r, st', evs) ->
  exists r1 st1 ev1,
    notify observer original "before_call"
      [target; VStr name; VTuple args; VDict kwargs] [("level", VStr level)] st
      = (r1, st1, ev1) /\
    let proceeds margs mkw :=
      exists rest,
        call_then_notify observer original target name level first margs mkw st1
          = (r, st', rest) /\ evs = ev1 ++ rest in
    match r1 with
    | Raise e => r = Raise e /\ evs = ev1
    | Ok (VDict d) =>
        if truthy (dict_get d "do_not_really_call" (VBool false))
        then r = Ok (dict_get d "return_value" VNone) /\ evs = ev1
        else proceeds (VTuple args) (VDict kwargs)
    | Ok (VTuple [margs; mkw]) => proceeds margs mkw
    | Ok (VTuple _) => r = Raise ValueError /\ evs = ev1
    | Ok _ => proceeds (VTuple args) (VDict kwargs)
    end.
Proof.
  unfold observed_call, bind, raise, ret. intros Hrun.
  destruct (notify observer original "before_call" _ _ st) as [[r1 st1] ev1].
  exists r1, st1, ev1. split; [done|]. simpl.
  destruct r1 as [v|e]; [|by injection Hrun as <- <- <-].
  destruct v as [| | | |items| |d| | | | | | | | | |];
    try (destruct (call_then_notify _ _ _ _ _ _ _ _ st1) as [[r2 st2] ev2];
         injection Hrun as <- <- <-; by exists ev2).
  - destruct items as [|x [|y [|z items]]];
      try (injection Hrun as <- <- <-; by rewrite app_nil_r).
    destruct (call_then_notify _ _ _ _ _ _ _ _ st1) as [[r2 st2] ev2].
    injection Hrun as <- <- <-. by exists ev2.
  - destruct (truthy _).
    + injection Hrun as <- <- <-. by rewrite app_nil_r.
    + destruct (call_then_notify _ _ _ _ _ _ _ _ st1) as [[r2 st2] ev2].
      injection Hrun as <- <- <-. by exists ev2.
Qed.

(** An event of a key is in the events of a [notify] under another key
    only if it is not there at all. *)
Lemma notify_other_key (self : Observer) (func : value) (event_type : string)
    (args : list value) (kwargs : list (string * value)) (st st' : state)
    (r : res value) (evs : list event) (key : string) (cb : value) (a : list value)
    (result : res value) :
  notify self func event_type args kwargs st = (r, st', evs) ->
  In (EvCallback key cb a result) evs ->
  key = event_key_of kwargs event_type.
Proof.
  intros Hrun%notify_event_args Hin.
  rewrite List.Forall_forall in Hrun.
  destruct (Hrun _ Hin) as (cb' & result' & Heq). by injection Heq.
Qed.

(** X4: for each of the four patched callables whose name is not on the
    denylist, called with the flag unset: when a callback subscribed under
    the ['before_call'] key of the callable's level answers with a pair of
    a tuple and a mapping, the subscribers before it having answered
    [None], the original is called, right after that callback and exactly
    once, with the receiver (if any) followed by the items of the tuple,
    and with the mapping as keyword arguments. *)
Theorem before_call_answer_replaces_arguments (observer : Observer) (w : installed)
    (original : value) (pos : list value) (kwargs : list (string * value))
    (st st1 st2 : state) (pre post : list value) (cb : value)
    (new_args : list value) (new_kwargs : list (string * value)) (evs1 : list event) :
  let key := patched_level w +:+ "_before_call" in
  let payload :=
    normalized [wrapped_target w; VStr (wrapped_name w);
                VTuple (skipn (if takes_receiver w then 1 else 0) pos); VDict kwargs] in
  let answer := VTuple [VTuple new_args; VDict new_kwargs] in
  let call :=
    EvOriginal original
      (firstn (if takes_receiver w then 1 else 0) pos ++ new_args) new_kwargs in
  wrapped_original w = Some original ->
  (forall p, receiver_parameter w = Some p -> pos <> [] /\ dict_find kwargs p = None) ->
  suspend_trace st = false ->
  existsb (fun substring => str_contains substring (wrapped_name w)) denylist = false ->
  observers observer !! key = Some (pre ++ cb :: post) ->
  dispatch key pre payload st = (Ok None, st1, evs1) ->
  call_value cb payload [] st1 = (Ok answer, st2) ->
  (exists rest,
      events_of (call_patched observer w pos kwargs st)
        = evs1 ++ EvCallback key cb payload (Ok answer) :: call :: rest) /\
  original_calls (events_of (call_patched observer w pos kwargs st)) = [call].
Proof.
  intros key payload answer call Ho Hb Hs Hdeny Hl Hpre Hcb.
  rewrite (call_patched_bound _ _ _ _ _ _ Ho Hb).
  unfold observed_call, bind.
  rewrite (notify_first_answer observer original "before_call" _ _ _ st st1 st2
             pre post cb answer evs1 Hs); try done.
  cbn [answer].
  destruct (call_then_notify observer original (wrapped_target w) (wrapped_name w)
              (patched_level w) (firstn (if takes_receiver w then 1 else 0) pos)
              (VTuple new_args) (VDict new_kwargs) st2) as [[r3 st3] ev3] eqn:Hc.
  apply call_then_notify_cases in Hc. cbn [unpack_star unpack_dstar] in Hc.
  destruct Hc as (ro & st4 & ev2 & _ & -> & Hro).
  assert (original_calls ev2 = []) as Hnone.
  { destruct ro as [v|e].
    - destruct Hro as (r2 & Hn2 & _). by apply notify_original_calls in Hn2.
    - by destruct Hro as (_ & -> & _). }
  cbn [events_of snd]. split.
  - exists ev2. by rewrite <- app_assoc.
  - unfold original_calls in *. rewrite !List.filter_app.
    apply dispatch_original_calls in Hpre. unfold original_calls in Hpre.
    rewrite Hpre. cbn. by rewrite Hnone.
Qed.

(** X5: for each of the four patched callables whose name is not on the
    denylist, with nothing subscribed before the call: when the original
    returns with the flag unset and a callback subscribed under the
    ['after_call'] key of the callable's level answers with something other
    than [None], the subscribers before it having answered [None], that
    answer is what the patched callable returns, after one call of the
    original with the caller's arguments. *)
Theorem after_call_answer_replaces_result (observer : Observer) (w : installed)
    (original : value) (pos : list value) (kwargs : list (string * value))
    (st st1 st2 st3 : state) (v : value) (pre post : list value) (cb answer : value)
    (evs1 : list event) :
  let key := patched_level w +:+ "_after_call" in
  let payload := normalized [wrapped_target w; VStr (wrapped_name w); v] in
  wrapped_original w = Some original ->
  (forall p, receiver_parameter w = Some p -> pos <> [] /\ dict_find kwargs p = None) ->
  existsb (fun substring => str_contains substring (wrapped_name w)) denylist = false ->
  observers observer !! (patched_level w +:+ "_before_call") = None ->
  call_value original pos kwargs st = (Ok v, st1) ->
  suspend_trace st1 = false ->
  observers observer !! key = Some (pre ++ cb :: post) ->
  dispatch key pre payload st1 = (Ok None, st2, evs1) ->
  call_value cb payload [] st2 = (Ok answer, st3) ->
  is_none answer = false ->
  call_patched observer w pos kwargs st =
    (Ok answer, st3,
     EvOriginal original pos kwargs :: evs1 ++ [EvCallback key cb payload (Ok answer)]).
Proof.
  intros key payload Ho Hb Hdeny Hbefore Hcall Hs1 Hl Hpre Hcb Hans.
  rewrite (call_patched_bound _ _ _ _ _ _ Ho Hb).
  unfold observed_call, bind.
  rewrite notify_unregistered; [|by unfold event_key_of|done].
  cbn [is_none]. unfold call_then_notify, call_original, bind.
  cbn [unpack_star unpack_dstar]. rewrite firstn_skipn, Hcall.
  rewrite (notify_first_answer observer original "after_call" _ _ _ st1 st2 st3
             pre post cb answer evs1 Hs1); try done.
  unfold ret. rewrite Hans. cbn. by rewrite !app_nil_r.
Qed.

(** X6: a ['before_call'] subscriber that answers with a tuple that is not a
    pair makes the call raise [ValueError]; the original is not called. *)
Theorem malformed_answer_raises_value_error (observer : Observer) (w : installed)
    (original : value) (pos : list value) (kwargs : list (string * value))
    (st st' : state) (r : res value) (evs : list event)
    (cb : value) (cargs items : list value) :
  wrapped_original w = Some original ->
  (takes_receiver w = true -> pos <> []) ->
  call_patched observer w pos kwargs st = (r, st', evs) ->
  In (EvCallback (patched_level w +:+ "_before_call") cb cargs (Ok (VTuple items))) evs ->
  List.length items <> 2 ->
  r = Raise ValueError /\ original_calls evs = [].
Proof.
  intros Ho Hpos Hrun Hin Hlen.
  destruct (call_patched_cases observer w original pos kwargs st Ho Hpos)
    as [Hcall|(target & first & args & Hcall)];
    rewrite Hcall in Hrun; clear Hcall;
    [injection Hrun as _ _ <-; by destruct Hin|].
  apply observed_call_cases in Hrun as (r1 & st1 & ev1 & Hn & Hcases).
  pose proof (notify_events _ _ _ _ _ _ _ _ _ Hn) as [_ Hfirst].
  pose proof (notify_original_calls _ _ _ _ _ _ _ _ _ Hn) as Hnone.
  assert (r1 = Ok (VTuple items)) as ->.
  { assert (In (EvCallback (patched_level w +:+ "_before_call") cb cargs
                  (Ok (VTuple items))) ev1) as Hin1.
    { destruct r1 as [v|e]; [|by destruct Hcases as [_ <-]].
      assert (forall margs mkw,
                 (exists rest,
                     call_then_notify observer original target (wrapped_name w)
                       (patched_level w) first margs mkw st1 = (r, st', rest) /\
                     evs = ev1 ++ rest) ->
                 In (EvCallback (patched_level w +:+ "_before_call") cb cargs
                       (Ok (VTuple items))) ev1) as Hp.
      { intros margs mkw (rest & Hc & ->).
        apply in_app_or in Hin as [H|H]; [done|].
        by apply (call_then_notify_events _ _ _ _ _ _ _ _ _ _ _ _ Hc) in H. }
      destruct v as [| | | |items'| |d| | | | | | | | | |]; simpl in Hcases; eauto.
      - destruct items' as [|x [|y [|z items']]]; eauto;
          by destruct Hcases as [_ <-].
      - destruct (truthy _); eauto. by destruct Hcases as [_ <-]. }
    by eapply Hfirst. }
  simpl in Hcases.
  destruct items as [|x [|y [|z items]]]; try (by destruct Hcases as [-> ->]).
  by destruct Hlen.
Qed.

(** X7: the subscribers of a patched module function are never handed the
    module: the first item of their payload is [None], the second the name
    of the function. *)
Theorem module_function_payload_hides_module (observer : Observer)
    (original_function : value) (module_name function_name : string)
    (args : list value) (kwargs : list (string * value))
    (st st' : state) (r : res value) (evs : list event)
    (key : string) (cb : value) (cargs : list value) (result : res value) :
  patched_function observer original_function (VModule module_name) function_name
    args kwargs st = (r, st', evs) ->
  In (EvCallback key cb cargs result) evs ->
  exists rest, cargs = VNone :: VStr function_name :: rest.
Proof.
  unfold patched_function. intros Hrun Hin.
  apply observed_call_cases in Hrun as (r1 & st1 & ev1 & Hn & Hcases).
  assert (forall evs0, In (EvCallback key cb cargs result) evs0 ->
            forall ev payload st0 r0 st2,
              notify observer original_function ev
                (VModule module_name :: VStr function_name :: payload)
                [("level", VStr "module")] st0 = (r0, st2, evs0) ->
              exists rest, cargs = VNone :: VStr function_name :: rest) as Hpay.
  { intros evs0 Hin0 ev payload st0 r0 st2 Hn0.
    apply notify_event_args in Hn0. rewrite List.Forall_forall in Hn0.
    destruct (Hn0 _ Hin0) as (cb' & result' & Heq). injection Heq as _ _ -> _.
    simpl. eauto. }
  assert (forall margs mkw,
             (exists rest,
                 call_then_notify observer original_function (VModule module_name)
                   function_name "module" [] margs mkw st1 = (r, st', rest) /\
                 evs = ev1 ++ rest) ->
             exists rest, cargs = VNone :: VStr function_name :: rest) as Hp.
  { intros margs mkw (rest & Hc & ->).
    apply in_app_or in Hin as [H|H]; [by eapply Hpay|].
    apply call_then_notify_cases in Hc.
    destruct (unpack_star margs) as [p|]; [destruct (unpack_dstar mkw) as [k|]|];
      try (by destruct Hc as (_ & -> & _)).
    destruct Hc as (ro & st2 & ev2 & _ & -> & Hro).
    destruct H as [H|H]; [discriminate|].
    destruct ro as [v|e]; [|by destruct Hro as (_ & -> & _)].
    destruct Hro as (r2 & Hn2 & _). by eapply Hpay. }
  destruct r1 as [v|e]; [|destruct Hcases as [_ ->]; by eapply Hpay].
  destruct v as [| | | |items| |d| | | | | | | | | |]; simpl in Hcases; eauto.
  - destruct items as [|x [|y [|z items]]]; eauto;
      destruct Hcases as [_ ->]; by eapply Hpay.
  - destruct (truthy _); eauto. destruct Hcases as [_ ->]. by eapply Hpay.
Qed.

End PatchedCallFacts.

(** ** More on instance properties *)

Section InstancePropertyFacts.
Context `{HM : HostModel}.

(** The getter of a property, entered with the flag unset, when the
    original getter raises. *)
Lemma instance_getter_original_raises (original_property : value)
    (property_name : string) (target : value) (observer : Observer) (level : string)
    (self : value) (st st1 : state) (e : exn) :
  suspend_trace st = false ->
  is_property original_property = true ->
  call_value (property_fget original_property) [self] [] (set_suspend true st)
    = (Raise e, st1) ->
  instance_getter original_property property_name target observer level self st =
  (Raise e, if is_exception e then set_suspend false st1 else st1,
   [EvOriginal (property_fget original_property) [self] []]).
Proof.
  intros Hs Hp Hget.
  unfold instance_getter, bind, get_suspend_trace, except_reraise, set_suspend_trace.
  rewrite Hs, Hp. unfold call_original. simpl. rewrite Hget. simpl.
  by destruct (is_exception e).
Qed.

(** X8: a ['get'] subscriber that suppresses the read changes what the
    getter returns, not what it does: the original getter has run, once,
    before the subscriber was asked. *)
Theorem suppressed_read_still_reads (original_property : value)
    (property_name : string) (target : value) (observer : Observer) (level : string)
    (self : value) (st st' : state) (r : res value) (evs : list event)
    (cb : value) (cargs : list value) (d : list (string * value)) :
  suspend_trace st = false ->
  is_property original_property = true ->
  instance_getter original_property property_name target observer level self st
    = (r, st', evs) ->
  In (EvCallback (level +:+ "_get") cb cargs (Ok (VDict d))) evs ->
  truthy (dict_get d "do_not_really_get" (VBool false)) = true ->
  r = Ok (dict_get d "return_value" VNone) /\
  original_calls evs = [EvOriginal (property_fget original_property) [self] []].
Proof.
  intros Hs Hp Hrun Hin Htrue.
  destruct (call_value (property_fget original_property) [self] [] (set_suspend true st))
    as [[v|e] st1] eqn:Hget.
  - rewrite (instance_getter_notifies _ _ _ _ _ _ _ _ _ Hs Hp Hget) in Hrun.
    destruct (notify observer original_property "get" _ _ (set_suspend false st1))
      as [[r2 st2] ev2] eqn:Hn.
    pose proof (notify_events _ _ _ _ _ _ _ _ _ Hn) as [_ Hfirst].
    pose proof (notify_original_calls _ _ _ _ _ _ _ _ _ Hn) as Hnone.
    assert (In (EvCallback (level +:+ "_get") cb cargs (Ok (VDict d))) ev2 /\
            evs = EvOriginal (property_fget original_property) [self] [] :: ev2)
      as [Hin2 ->].
    { destruct r2 as [[| | | | | |d'| | | | | | | | | |]|e];
        injection Hrun as <- <- <-; (destruct Hin as [Heq|Hin]; [discriminate|done]). }
    rewrite (Hfirst _ _ _ _ Hin2) in Hrun by done.
    rewrite Htrue in Hrun. injection Hrun as <- _.
    split; [done|]. unfold original_calls in *. simpl. by rewrite Hnone.
  - rewrite (instance_getter_original_raises _ _ _ _ _ _ _ _ _ Hs Hp Hget) in Hrun.
    injection Hrun as <- <- <-. destruct Hin as [Heq|[]]. discriminate.
Qed.

(** X9: a ['get'] subscriber cannot replace the value by answering with the
    new value: unless an answer is a mapping that suppresses the read, the
    getter returns what the original getter returned. *)
Theorem getter_ignores_other_answers (original_property : value)
    (property_name : string) (target : value) (observer : Observer) (level : string)
    (self : value) (st st1 st' : state) (v x : value) (evs : list event) :
  suspend_trace st = false ->
  is_property original_property = true ->
  call_value (property_fget original_property) [self] [] (set_suspend true st)
    = (Ok v, st1) ->
  instance_getter original_property property_name target observer level self st
    = (Ok x, st', evs) ->
  (forall cb cargs d,
      In (EvCallback (level +:+ "_get") cb cargs (Ok (VDict d))) evs ->
      truthy (dict_get d "do_not_really_get" (VBool false)) = false) ->
  x = v.
Proof.
  intros Hs Hp Hget Hrun Hplain.
  rewrite (instance_getter_notifies _ _ _ _ _ _ _ _ _ Hs Hp Hget) in Hrun.
  destruct (notify observer original_property "get" _ _ (set_suspend false st1))
    as [[r2 st2] ev2] eqn:Hn.
  destruct r2 as [[| | | | | |d| | | | | | | | | |]|e];
    try (by injection Hrun as <- _ _); [|discriminate].
  injection Hrun as <- <- <-.
  destruct (truthy (dict_get d "do_not_really_get" (VBool false))) eqn:Hd; [|done].
  (* the mapping is the answer of some subscriber *)
  assert (exists cb cargs, In (EvCallback (level +:+ "_get") cb cargs (Ok (VDict d))) ev2)
    as (cb & cargs & Hin).
  { clear Hplain. unfold notify, bind, get_suspend_trace in Hn. simpl in Hn.
    destruct (denylisted _); [by injection Hn|].
    change (level +:+ "_" +:+ "get") with (level +:+ "_get") in Hn.
    destruct (observers observer !! (level +:+ "_get")) as [cbs|];
      [|unfold ret in Hn; by injection Hn].
    pose proof (dispatch_cases (level +:+ "_get") cbs
                  [if is_module target then VNone else target; VStr property_name; v]
                  (set_suspend false st1)) as Hc.
    simpl in Hc.
    destruct (dispatch _ cbs _ (set_suspend false st1)) as [[r0 st0] evs0].
    destruct Hc as [[-> ->]|[(pre & c & post & w & Hcb & Hw & -> & ->)
                            |(pre & c & post & e & Hcb & -> & ->)]];
      unfold ret in Hn; simpl in Hn; try (by injection Hn).
    injection Hn as -> _ <-. eexists c, _. rewrite app_nil_r.
    apply in_or_app. right. left. reflexivity. }
  rewrite (Hplain cb cargs d) in Hd; [done|by right].
Qed.

Lemma except_reraise_clears_flag {A} (body : M A) (st st' : state) (e : exn)
    (evs : list event) :
  except_reraise body (set_suspend_trace false) st = (Raise e, st', evs) ->
  is_exception e = true ->
  suspend_trace st' = false.
Proof.
  unfold except_reraise, set_suspend_trace.
  destruct (body st) as [[[a|e'] st1] ev1]; [discriminate|].
  destruct (is_exception e') eqn:He'; simpl.
  - by intros [= _ <- _].
  - intros [= -> _ _] He. congruence.
Qed.

(** X10: entered with the flag unset, a getter that raises an exception
    deriving from [Exception] leaves the flag unset, whether the original
    getter or a subscriber failed.  When the original getter raises an
    exception that does not derive from it ([KeyboardInterrupt],
    [SystemExit], [GeneratorExit]), the clause [except Exception] is passed
    by: the getter leaves the state as the original getter left it, with
    the flag it had set. *)
Theorem getter_clears_flag_on_failure (original_property : value)
    (property_name : string) (target : value) (observer : Observer) (level : string)
    (self : value) (st st' : state) (e : exn) (evs : list event) :
  suspend_trace st = false ->
  instance_getter original_property property_name target observer level self st
    = (Raise e, st', evs) ->
  (is_exception e = true -> suspend_trace st' = false) /\
  (forall e1 st1,
      is_property original_property = true ->
      call_value (property_fget original_property) [self] [] (set_suspend true st)
        = (Raise e1, st1) ->
      is_exception e1 = false ->
      e = e1 /\ st' = st1).
Proof.
  intros Hs Hrun. split.
  - revert Hrun. unfold instance_getter, bind, get_suspend_trace. rewrite Hs. simpl.
    destruct (except_reraise _ _ st) as [[r2 st2] ev2] eqn:Hex.
    intros [= -> -> _]. by eapply except_reraise_clears_flag.
  - intros e1 st1 Hp Hget He1.
    rewrite (instance_getter_original_raises _ _ _ _ _ _ _ _ _ Hs Hp Hget) in Hrun.
    rewrite He1 in Hrun. by injection Hrun as -> ->.
Qed.

(** X11: entered with the flag unset, the setter leaves it unset when it
    returns and when it raises an exception deriving from [Exception].
    When the original setter raises an exception that does not derive from
    it, the clause [except Exception] is passed by: the setter leaves the
    state as the original setter left it, with the flag it had set. *)
Theorem setter_leaves_flag_clear (original_property : value)
    (property_name : string) (target : value) (observer : Observer) (level : string)
    (self new_value : value) (st st' : state) (r : res unit) (evs : list event) :
  suspend_trace st = false ->
  instance_setter original_property property_name target observer level self new_value st
    = (r, st', evs) ->
  ((forall e, r = Raise e -> is_exception e = true) -> suspend_trace st' = false) /\
  (forall e1 st1,
      is_property original_property = true ->
      is_none (property_fset original_property) = false ->
      call_value (property_fset original_property) [self; new_value] []
        (set_suspend true st) = (Raise e1, st1) ->
      is_exception e1 = false ->
      r = Raise e1 /\ st' = st1).
Proof.
  intros Hs.
  unfold instance_setter, bind, get_suspend_trace, except_reraise, set_suspend_trace.
  rewrite Hs. rewrite notify_suspended by done. simpl.
  unfold except_attribute_error, call_original, lift_host, bind, ret. simpl.
  destruct (is_property original_property) eqn:Hp; simpl.
  - destruct (is_none (property_fset original_property)) eqn:Hfset; simpl.
    + intros Hrun. split; [|discriminate].
      destruct (py_dict_set _ _ _ _) as [[a|e] st1] eqn:Hset; simpl in Hrun.
      * by injection Hrun as _ <- _.
      * rewrite (py_dict_set_ordinary _ _ _ _ _ _ Hset) in Hrun.
        by injection Hrun as _ <- _.
    + destruct (call_value _ _ _ _) as [[v|e] st1] eqn:Hcall; simpl.
      * intros [= <- <- _]. split; [done|]. intros e1 st2 _ _ [=].
      * destruct e; simpl;
          try (intros [= <- <- _]; split; [done|];
               intros e1 st3 _ _ [= <- <-] He; simpl in He; discriminate He);
          try (intros [= <- <- _]; split;
               [intros Hall; specialize (Hall _ eq_refl); discriminate Hall
               |by intros e1 st3 _ _ [= <- <-] _]).
        destruct (py_dict_set _ _ _ st1) as [[a|e] st2] eqn:Hset; simpl.
        -- intros [= <- <- _]. split; [done|].
           intros e1 st3 _ _ [= <- <-] He. simpl in He. discriminate He.
        -- rewrite (py_dict_set_ordinary _ _ _ _ _ _ Hset). simpl.
           intros [= <- <- _]. split; [done|].
           intros e1 st3 _ _ [= <- <-] He. simpl in He. discriminate He.
  - intros Hrun. split; [|discriminate].
    destruct (py_dict_set _ _ _ _) as [[a|e] st1] eqn:Hset; simpl in Hrun.
    + by injection Hrun as _ <- _.
    + rewrite (py_dict_set_ordinary _ _ _ _ _ _ Hset) in Hrun.
      by injection Hrun as _ <- _.
Qed.

(** X12: the setter calls no subscriber at all, in any state and whatever is
    subscribed. *)
Theorem setter_calls_no_subscriber (original_property : value)
    (property_name : string) (target : value) (observer : Observer) (level : string)
    (self new_value : value) (st : state) :
  List.filter is_callback_event
    (events_of (instance_setter original_property property_name target observer level
                  self new_value st)) = [].
Proof.
  pose proof (instance_setter_never_dispatches original_property property_name target
                observer level self new_value st) as Hno.
  induction (events_of _) as [|ev evs IH]; [done|].
  simpl. destruct ev as [key cb a result|f pos kw]; simpl.
  - exfalso. apply (Hno key cb a result). by left.
  - apply IH. intros key cb a result Hin. apply (Hno key cb a result). by right.
Qed.

(** X13: when the original setter raises [AttributeError], the setter stores
    the value in the instance dictionary under the key [instance_var],
    whatever the name of the property, and the error is not passed on. *)
Theorem setter_attribute_error_fallback (original_property : value)
    (property_name : string) (target : value) (observer : Observer) (level : string)
    (self new_value : value) (st st1 : state) :
  suspend_trace st = false ->
  is_property original_property = true ->
  is_none (property_fset original_property) = false ->
  call_value (property_fset original_property) [self; new_value] [] (set_suspend true st)
    = (Raise AttributeError, st1) ->
  instance_setter original_property property_name target observer level self new_value st =
  match py_dict_set self "instance_var" new_value st1 with
  | (r, st2) =>
      (r, set_suspend false st2,
       [EvOriginal (property_fset original_property) [self; new_value] []])
  end.
Proof.
  intros Hs Hp Hfset Hcall.
  unfold instance_setter, bind, get_suspend_trace, except_reraise, set_suspend_trace.
  rewrite Hs. rewrite notify_suspended by done. simpl.
  unfold except_attribute_error, call_original, lift_host, bind, ret. simpl.
  rewrite Hp, Hfset. simpl. rewrite Hcall. simpl.
  destruct (py_dict_set self "instance_var" new_value st1) as [[[]|e] st2] eqn:Hset;
    simpl; [done|].
  by rewrite (py_dict_set_ordinary _ _ _ _ _ _ Hset).
Qed.

End InstancePropertyFacts.

(** ** Class and module variables *)

Section VariableFacts.
Context `{HM : HostModel}.

(** X14: [notify] invents no answer: when no default value is passed, a
    result that is not [None] is the answer of a subscriber called under
    the key of the event. *)
Theorem notify_answer_of_subscriber (self : Observer) (func : value)
    (event_type : string) (args : list value) (kwargs : list (string * value))
    (st st' : state) (answer : value) (evs : list event) :
  notify self func event_type args kwargs st = (Ok answer, st', evs) ->
  is_none answer = false ->
  dict_get kwargs "default_value" VNone = VNone ->
  exists cb a,
    In (EvCallback (event_key_of kwargs event_type) cb a (Ok answer)) evs.
Proof.
  intros Hrun Hans Hdef.
  destruct (suspend_trace st) eqn:Hs.
  { rewrite notify_suspended in Hrun by done. injection Hrun as <- _ _. done. }
  destruct (denylisted args) eqn:Hd.
  { rewrite notify_denylisted in Hrun by done. injection Hrun as <- _ _. done. }
  destruct args as [|a0 rest].
  { by rewrite notify_empty_payload_raises in Hrun. }
  rewrite notify_dispatching in Hrun by done.
  set (key := event_key_of kwargs event_type) in *.
  set (cbs := default [] (observers self !! key)) in *.
  pose proof (dispatch_cases key cbs (normalized (a0 :: rest)) st) as Hc.
  simpl in Hc.
  destruct (dispatch key cbs _ st) as [[r0 st0] evs0].
  destruct Hc as [[-> ->]|[(pre & c & post & w & Hcb & Hw & -> & ->)
                          |(pre & c & post & e & Hcb & -> & ->)]];
    try discriminate.
  - injection Hrun as <- _ _. rewrite Hdef in Hans. done.
  - injection Hrun as -> _ <-. eexists c, _.
    apply in_or_app. right. left. reflexivity.
Qed.

(** X15: with nothing subscribed for class-level sets and gets, a value set
    through the descriptor is the value read back, and neither operation
    touches the state. *)
Theorem class_variable_set_then_get (observer : Observer)
    (self : ClassVariableDescriptor) (instance owner new_value : value) (st : state) :
  observers observer !! "class_set" = None ->
  observers observer !! "class_get" = None ->
  exists self',
    ClassVariableDescriptor_set observer self instance new_value st = (Ok self', st, []) /\
    cvd_name self' = cvd_name self /\
    ClassVariableDescriptor_get observer self' instance owner st = (Ok new_value, st, []).
Proof.
  intros Hset Hget.
  exists {| cvd_name := cvd_name self; cvd_value := new_value |}.
  unfold ClassVariableDescriptor_set, ClassVariableDescriptor_get, bind.
  rewrite !notify_unregistered by done. done.
Qed.

(** X16: what a ['set'] subscriber's mapping does to a class variable held by
    a descriptor: a true [do_not_really_set] leaves the value as it was;
    otherwise a true [really_set] stores the [new_value] entry of the
    mapping, and [None] when the mapping has no such entry; otherwise the
    value of the assignment is stored. *)
Theorem class_variable_set_protocol (observer : Observer)
    (self self' : ClassVariableDescriptor) (instance new_value : value)
    (st st' : state) (evs : list event)
    (cb : value) (cargs : list value) (d : list (string * value)) :
  ClassVariableDescriptor_set observer self instance new_value st = (Ok self', st', evs) ->
  In (EvCallback "class_set" cb cargs (Ok (VDict d))) evs ->
  cvd_name self' = cvd_name self /\
  cvd_value self' =
    if truthy (dict_get d "do_not_really_set" (VBool false)) then cvd_value self
    else if truthy (dict_get d "really_set" (VBool false))
         then dict_get d "new_value" VNone
         else new_value.
Proof.
  unfold ClassVariableDescriptor_set, bind. intros Hrun Hin.
  destruct (notify observer VNone "set" _ _ st) as [[r1 st1] ev1] eqn:Hn.
  pose proof (notify_events _ _ _ _ _ _ _ _ _ Hn) as [_ Hfirst].
  assert (evs = ev1 /\ r1 = Ok (VDict d)) as [-> ->].
  { destruct r1 as [v|e]; [|discriminate].
    assert (evs = ev1) as ->.
    { destruct v; try (injection Hrun as _ _ <-; by rewrite app_nil_r).
      destruct (truthy _); [|destruct (truthy _)];
        injection Hrun as _ _ <-; by rewrite app_nil_r. }
    split; [done|]. by eapply Hfirst. }
  destruct (truthy (dict_get d "do_not_really_set" (VBool false)));
    [|destruct (truthy (dict_get d "really_set" (VBool false)))];
    by injection Hrun as <- _ _.
Qed.

(** X17: what a ['set'] subscriber's answer does to a module variable: a
    mapping with a true [do_not_really_set] leaves the stored value as it
    was; any other answer that is not [None] is itself stored in place of
    the value of the assignment. *)
Theorem module_setter_stores_answer (observer : Observer)
    (original module : value) (property_name : string) (shadow shadow' : option value)
    (new_value : value) (st st' : state) (evs : list event)
    (cb : value) (cargs : list value) (answer : value) :
  module_setter observer false original module property_name shadow new_value st
    = (Ok shadow', st', evs) ->
  In (EvCallback "module_set" cb cargs (Ok answer)) evs ->
  is_none answer = false ->
  shadow' =
    match answer with
    | VDict d =>
        if truthy (dict_get d "do_not_really_set" (VBool false)) then shadow
        else Some answer
    | _ => Some answer
    end.
Proof.
  unfold module_setter, bind. intros Hrun Hin Hans.
  destruct (notify observer original "set" _ _ st) as [[r1 st1] ev1] eqn:Hn.
  pose proof (notify_events _ _ _ _ _ _ _ _ _ Hn) as [_ Hfirst].
  assert (evs = ev1 /\ r1 = Ok answer) as [-> ->].
  { destruct r1 as [v|e]; [|discriminate].
    assert (evs = ev1) as ->.
    { destruct v; try (injection Hrun as _ _ <-; by rewrite app_nil_r).
      destruct (truthy _); injection Hrun as _ _ <-; by rewrite app_nil_r. }
    split; [done|]. eapply Hfirst; [done|]. by destruct answer. }
  destruct answer; try discriminate; try (by injection Hrun as <- _ _).
  destruct (truthy _); by injection Hrun as <- _ _.
Qed.

(** X18: what a ['set'] subscriber's mapping does to a class variable kept
    under the shadow attribute: a true [do_not_really_set] leaves the
    stored value as it was; otherwise a true [really_set] stores the
    [new_value] entry of the mapping, and the value of the assignment when
    the mapping has no such entry; otherwise the value of the assignment
    is stored. *)
Theorem class_setter_protocol (observer : Observer)
    (original cls : value) (property_name : string) (shadow shadow' : option value)
    (new_value : value) (st st' : state) (evs : list event)
    (cb : value) (cargs : list value) (d : list (string * value)) :
  class_setter observer false original cls property_name shadow new_value st
    = (Ok shadow', st', evs) ->
  In (EvCallback "class_set" cb cargs (Ok (VDict d))) evs ->
  shadow' =
    if truthy (dict_get d "do_not_really_set" (VBool false)) then shadow
    else if truthy (dict_get d "really_set" (VBool false))
         then Some (dict_get d "new_value" new_value)
         else Some new_value.
Proof.
  unfold class_setter, bind. intros Hrun Hin.
  destruct (notify observer original "set" _ _ st) as [[r1 st1] ev1] eqn:Hn.
  pose proof (notify_events _ _ _ _ _ _ _ _ _ Hn) as [_ Hfirst].
  assert (evs = ev1 /\ r1 = Ok (VDict d)) as [-> ->].
  { destruct r1 as [v|e]; [|discriminate].
    assert (evs = ev1) as ->.
    { destruct v; try (injection Hrun as _ _ <-; by rewrite app_nil_r).
      destruct (truthy _); [|destruct (truthy _)];
        injection Hrun as _ _ <-; by rewrite app_nil_r. }
    split; [done|]. by eapply Hfirst. }
  destruct (truthy (dict_get d "do_not_really_set" (VBool false)));
    [|destruct (truthy (dict_get d "really_set" (VBool false)))];
    by injection Hrun as <- _ _.
Qed.

End VariableFacts.

(** ** More on the patch engine *)

Lemma installed_at_cons (c m c' n' : string) (o : installed) (ns : namespace) :
  installed_at c m ((c', n', o) :: ns) =
  if (String.eqb c' c && String.eqb n' m)%bool
  then o :: installed_at c m ns else installed_at c m ns.
Proof.
  unfold installed_at. cbn [List.filter fst snd].
  by destruct (String.eqb c' c && String.eqb n' m)%bool.
Qed.

Lemma installed_at_other (c m c' n' : string) (o : installed) (ns : namespace) :
  c <> c' \/ m <> n' ->
  installed_at c m ((c', n', o) :: ns) = installed_at c m ns.
Proof.
  intros Hne. rewrite installed_at_cons.
  destruct (String.eqb_spec c' c) as [->|]; [|done].
  destruct (String.eqb_spec n' m) as [->|]; [|done].
  by destruct Hne.
Qed.

Lemma installed_at_same (c m : string) (o : installed) (ns : namespace) :
  installed_at c m ((c, m, o) :: ns) = o :: installed_at c m ns.
Proof. by rewrite installed_at_cons, !String.eqb_refl. Qed.

Lemma setattr_other (cls : container) (name : string) (obj : installed)
    (ns : namespace) (c m : string) :
  c <> c_name cls \/ m <> name ->
  installed_at c m (snd (setattr cls name obj ns)) = installed_at c m ns.
Proof.
  intros Hne. unfold setattr. destruct (c_frozen cls); [done|].
  by apply installed_at_other.
Qed.

Lemma shadow_name_differs (name : string) : "_" +:+ name <> name.
Proof.
  intros Heq. apply (f_equal String.length) in Heq.
  change ("_" +:+ name) with (String "_" name) in Heq.
  cbn [String.length] in Heq. lia.
Qed.

(** What one patch leaves alone. *)
Lemma apply_patch_frame (cls : container) (mi : member_info) (ns : namespace)
    (c m : string) :
  c <> c_name cls \/ (m <> mi_name mi /\ m <> "_" +:+ mi_name mi) ->
  installed_at c m (snd (apply_patch cls mi ns)) = installed_at c m ns.
Proof.
  intros Hne.
  assert (c <> c_name cls \/ m <> mi_name mi) as H1 by tauto.
  assert (c <> c_name cls \/ m <> "_" +:+ mi_name mi) as H2 by tauto.
  unfold apply_patch, patch_instance_method, patch_class_method, patch_static_method,
    patch_instance_property, patch_static_property.
  destruct (mi_member_type mi), (mi_level mi);
    try destruct (func_of (mi_member mi)); try done;
    try (by apply setattr_other).
  all: unfold setattr; destruct (c_frozen cls); [done|]; cbn [snd];
    by rewrite !installed_at_other.
Qed.

Section PatchFacts.
Context `{HM : HostModel}.

(** X19: patching a class variable stores its value under the attribute
    [_<name>] of the class, over whatever the class kept there, and puts
    the static property in place of the variable. *)
Theorem static_property_takes_shadow_attribute (self self1 : Inspector)
    (cls : container) (mi : member_info) (ns ns1 : namespace) (r : res unit)
    (k : value) :
  mi_member_type mi = MemberType.VARIABLE ->
  mi_level mi = MemberLevel.CLASS ->
  member_key (mi_member mi) = Some k ->
  patched_has k (patched_members self) = false ->
  c_frozen cls = false ->
  patch_member_info self cls mi ns = (r, self1, ns1) ->
  installed_at (c_name cls) ("_" +:+ mi_name mi) ns1
    = InstValue (mi_member mi) :: installed_at (c_name cls) ("_" +:+ mi_name mi) ns /\
  installed_at (c_name cls) (mi_name mi) ns1
    = InstStaticProperty (container_ref cls) (mi_name mi) (mi_member mi)
        :: installed_at (c_name cls) (mi_name mi) ns.
Proof.
  intros Ht Hl Hk Hp Hf. unfold patch_member_info. rewrite Hk, Hp.
  intros [= _ _ <-].
  unfold apply_patch. rewrite Ht, Hl. unfold patch_static_property, setattr.
  rewrite Hf. cbn [snd]. pose proof (shadow_name_differs (mi_name mi)) as Hne.
  split.
  - rewrite installed_at_other by (right; done). by rewrite installed_at_same.
  - rewrite installed_at_same. by rewrite installed_at_other by (right; congruence).
Qed.

(** X20: a patch changes no other class and, on its class, no attribute
    other than the member and the attribute [_<name>]. *)
Theorem patch_leaves_other_attributes (self self1 : Inspector) (cls : container)
    (mi : member_info) (ns ns1 : namespace) (r : res unit) (c m : string) :
  patch_member_info self cls mi ns = (r, self1, ns1) ->
  c <> c_name cls \/ (m <> mi_name mi /\ m <> "_" +:+ mi_name mi) ->
  installed_at c m ns1 = installed_at c m ns.
Proof.
  unfold patch_member_info. intros Hrun Hne.
  destruct (member_key (mi_member mi)) as [k|]; [|by injection Hrun as _ _ <-].
  destruct (patched_has k (patched_members self)); injection Hrun as _ _ <-; [done|].
  by apply apply_patch_frame.
Qed.

(** The calls of a static-method wrapper, with nothing subscribed at class
    level. *)
Lemma static_wrapper_unsubscribed (observer : Observer) (original target : value)
    (name : string) (pos : list value) (kwargs : list (string * value)) (st : state) :
  observers observer !! "class_before_call" = None ->
  observers observer !! "class_after_call" = None ->
  call_patched observer (InstPatchedStaticMethod original target name) pos kwargs st =
  match call_value original pos kwargs st with
  | (r, st') => (r, st', [EvOriginal original pos kwargs])
  end.
Proof.
  intros Hb Ha. cbn [call_patched]. unfold patched_static_method.
  rewrite observed_call_inert; [done|].
  intros event_type payload st1 [-> | ->]; by apply notify_unregistered.
Qed.

(** X21: a function of a module that is patched as a member is wrapped as a
    static method whose notifications go out at level [class]: what is
    subscribed at level [module] is not asked when it is called. *)
Theorem module_function_is_observed_at_class_level (self self1 : Inspector)
    (module : container) (name : string) (id : nat) (ns ns1 : namespace) :
  c_kind module = IsModule ->
  c_frozen module = false ->
  is_dunder name = false ->
  plain_descriptor (get_member_descriptor module name) = true ->
  patched_has (VFunction id) (patched_members self) = false ->
  create_member_info_and_patch_member self module name (VFunction id) ns
    = (Ok tt, self1, ns1) ->
  let w := InstPatchedStaticMethod (VFunction id) (VModule (c_name module)) name in
  ns1 = (c_name module, name, w) :: ns /\
  forall observer pos kwargs st,
    observers observer !! "class_before_call" = None ->
    observers observer !! "class_after_call" = None ->
    call_patched observer w pos kwargs st =
    match call_value (VFunction id) pos kwargs st with
    | (r, st') => (r, st', [EvOriginal (VFunction id) pos kwargs])
    end.
Proof.
  intros Hk Hf Hd Hplain Hp. unfold create_member_info_and_patch_member.
  cbn [callable]. destruct (uses_self (VFunction id)) as [flag|e]; [|done].
  unfold patch_member_info. cbn [mi_member member_key]. rewrite Hp.
  intros [= <- <-]. split.
  - unfold apply_patch. cbn [mi_member_type mi_level mi_name mi_member].
    unfold classify_member_type, classify_member_level. rewrite Hk, Hd.
    destruct (get_member_descriptor module name); try discriminate;
      unfold patch_static_method, setattr, container_ref; by rewrite Hf, Hk.
  - intros. by apply static_wrapper_unsubscribed.
Qed.

(** The record of patched members after a run over instance variables. *)
Lemma patch_one_instance_variable_cases (self self1 : Inspector) (cls : container)
    (var_name : string) (v : value) (ns ns1 : namespace) (r : res unit) :
  patch_one_instance_variable self cls var_name v ns = (r, self1, ns1) ->
  match member_key v with
  | None => r = Raise TypeError /\ self1 = self /\ ns1 = ns
  | Some k =>
      r = Ok tt /\ patched_has k (patched_members self1) = true /\
      (forall k', patched_has k' (patched_members self) = true ->
                  patched_has k' (patched_members self1) = true) /\
      if patched_has k (patched_members self) then self1 = self /\ ns1 = ns
      else ns1 = snd (setattr cls var_name
                        (InstInstanceProperty v var_name (container_ref cls) "instance"
                           (has_setter v)) ns)
  end.
Proof.
  unfold patch_one_instance_variable. intros Hrun.
  pose proof (fun k' => patch_member_info_marks _ _ _ _ _ _ _ k' Hrun) as Hmarks.
  pose proof (fun k' => patch_member_info_keeps _ _ _ _ _ _ _ k' Hrun) as Hkeeps.
  cbn [mi_member] in Hmarks.
  revert Hrun. unfold patch_member_info. cbn [mi_member].
  destruct (member_key v) as [k|]; [|by intros [= <- <- <-]].
  destruct (patched_has k (patched_members self)) eqn:Hp.
  - intros [= <- <- <-]. repeat split; auto.
  - intros [= <- Hs Hn]. split; [done|]. split; [by apply Hmarks|].
    split; [done|]. rewrite <- Hn. done.
Qed.


Lemma patch_instance_variables_frame (cls : container)
    (instance_dict : list (string * value)) (self self1 : Inspector)
    (ns ns1 : namespace) (r : res unit) (m : string) :
  patch_instance_variables self cls instance_dict ns = (r, self1, ns1) ->
  ~ In m (map fst instance_dict) ->
  installed_at (c_name cls) m ns1 = installed_at (c_name cls) m ns.
Proof.
  revert self ns. induction instance_dict as [|[n v] rest IH]; intros self ns.
  - by intros [= _ _ <-].
  - cbn [patch_instance_variables map fst]. intros Hrun Hnot.
    destruct (patch_one_instance_variable self cls n v ns) as [[r0 self0] ns0] eqn:Hone.
    assert (installed_at (c_name cls) m ns0 = installed_at (c_name cls) m ns) as Hstep.
    { apply patch_one_instance_variable_cases in Hone.
      destruct (member_key v) as [k|].
      - destruct Hone as (_ & _ & _ & Hone).
        destruct (patched_has k (patched_members self)).
        + by destruct Hone as [_ ->].
        + rewrite Hone. apply setattr_other. right. intros ->. apply Hnot. by left.
      - by destruct Hone as (_ & _ & ->). }
    destruct r0.
    + rewrite <- Hstep. eapply IH; [done|]. intros Hin. apply Hnot. by right.
    + by injection Hrun as _ _ <-.
Qed.

Lemma patch_instance_variables_keeps (cls : container)
    (instance_dict : list (string * value)) (self self1 : Inspector)
    (ns ns1 : namespace) (r : res unit) (k : value) :
  patch_instance_variables self cls instance_dict ns = (r, self1, ns1) ->
  patched_has k (patched_members self) = true ->
  patched_has k (patched_members self1) = true.
Proof.
  revert self ns. induction instance_dict as [|[n v] rest IH]; intros self ns.
  - by intros [= _ <- _].
  - cbn [patch_instance_variables]. intros Hrun Hp.
    destruct (patch_one_instance_variable self cls n v ns) as [[r0 self0] ns0] eqn:Hone.
    apply patch_one_instance_variable_cases in Hone.
    assert (patched_has k (patched_members self0) = true) as Hp0.
    { destruct (member_key v) as [k0|].
      - destruct Hone as (_ & _ & Hkeep & _). by apply Hkeep.
      - by destruct Hone as (_ & -> & _). }
    destruct r0.
    + by eapply IH.
    + by injection Hrun as _ <- _.
Qed.

(** X23: of the variables of an instance that hold the same dictionary key
    (two variables both [0], or [1] and [True]), only the first in the
    dictionary is given a property: for a later one nothing is installed
    under its name. *)
Theorem equal_valued_variables_share_one_patch (cls : container)
    (pre post : list (string * value)) (n n0 : string) (v v0 : value)
    (self self1 : Inspector) (ns ns1 : namespace) (r : res unit) :
  patch_instance_variables self cls (pre ++ (n, v) :: post) ns = (r, self1, ns1) ->
  In (n0, v0) pre ->
  same_key v0 v = true ->
  NoDup (map fst (pre ++ (n, v) :: post)) ->
  installed_at (c_name cls) n ns1 = installed_at (c_name cls) n ns.
Proof.
  revert self ns. induction pre as [|[n' v'] pre IH]; intros self ns Hrun Hin Hsame Hnd;
    [by destruct Hin|].
  cbn [app patch_instance_variables] in Hrun.
  cbn [app map fst] in Hnd. apply NoDup_cons in Hnd as [Hn' Hnd].
  assert (n <> n') as Hne.
  { intros ->. apply Hn'. rewrite map_app. apply elem_of_app. right.
    cbn [map fst]. by left. }
  destruct (patch_one_instance_variable self cls n' v' ns) as [[r0 self0] ns0] eqn:Hone.
  assert (installed_at (c_name cls) n ns0 = installed_at (c_name cls) n ns) as Hstep.
  { apply patch_one_instance_variable_cases in Hone.
    destruct (member_key v') as [k|].
    - destruct Hone as (_ & _ & _ & Hone).
      destruct (patched_has k (patched_members self)).
      + by destruct Hone as [_ ->].
      + rewrite Hone. apply setattr_other. by right.
    - by destruct Hone as (_ & _ & ->). }
  destruct r0; [|by injection Hrun as _ _ <-].
  rewrite <- Hstep.
  destruct Hin as [[= -> ->]|Hin]; [|by eapply IH].
  (* the earlier variable is this one: its key is now on record *)
  clear IH. apply same_key_eq in Hsame as (k & Hk0 & Hk).
  apply patch_one_instance_variable_cases in Hone. rewrite Hk0 in Hone.
  destruct Hone as (_ & Hmark & _).
  assert (forall (l : list (string * value)) s s1 m m1 r1,
             patch_instance_variables s cls (l ++ (n, v) :: post) m = (r1, s1, m1) ->
             patched_has k (patched_members s) = true ->
             NoDup (map fst (l ++ (n, v) :: post)) ->
             installed_at (c_name cls) n m1 = installed_at (c_name cls) n m) as Hgen.
  { clear - Hk. induction l as [|[a b] l IHl]; intros s s1 m m1 r1 Hr Hp Hd.
    - cbn [app patch_instance_variables] in Hr.
      destruct (patch_one_instance_variable s cls n v m) as [[r2 s2] m2] eqn:Hone.
      apply patch_one_instance_variable_cases in Hone. rewrite Hk, Hp in Hone.
      destruct Hone as (-> & _ & _ & -> & ->).
      eapply patch_instance_variables_frame; [done|].
      cbn [app map fst] in Hd. apply NoDup_cons in Hd as [Hd _].
      intros Hin. apply Hd. by apply list_elem_of_In.
    - cbn [app patch_instance_variables] in Hr.
      cbn [app map fst] in Hd. apply NoDup_cons in Hd as [Ha Hd].
      assert (n <> a) as Hna.
      { intros ->. apply Ha. rewrite map_app. apply elem_of_app. right.
        cbn [map fst]. by left. }
      destruct (patch_one_instance_variable s cls a b m) as [[r2 s2] m2] eqn:Hone.
      apply patch_one_instance_variable_cases in Hone.
      destruct (member_key b) as [kb|].
      + destruct Hone as (-> & _ & Hkeep & Hone).
        assert (installed_at (c_name cls) n m2 = installed_at (c_name cls) n m) as <-.
        { destruct (patched_has kb (patched_members s)).
          - by destruct Hone as [_ ->].
          - rewrite Hone. apply setattr_other. by right. }
        eapply IHl; [done| by apply Hkeep | done].
      + destruct Hone as (-> & _ & ->). by injection Hr as _ _ <-. }
  by eapply Hgen.
Qed.


End PatchFacts.

(** ** More on scans and classification *)

Section ScanFacts.
Context `{HM : HostModel}.

(** One turn of the loop of [get_members]. *)
Lemma get_members_loop_cons (obj : container) (no_filter : bool) (name : string)
    (member : value) (rest : list (string * value)) (printed : gset (string * string))
    (ml : list member_info) :
  get_members_loop obj no_filter ((name, member) :: rest) printed ml =
  if is_private name then get_members_loop obj no_filter rest printed ml else
  match self_usage_of member with
  | Raise e => (Raise e, printed, ml)
  | Ok flag =>
      if (negb no_filter && filtered_out obj name member flag)%bool
      then get_members_loop obj no_filter rest printed ml
      else if bool_decide ((c_name obj, name) ∈ printed)
      then get_members_loop obj no_filter rest printed ml
      else get_members_loop obj no_filter rest ({[ (c_name obj, name) ]} ∪ printed)
             (ml ++ [member_record obj name member flag])
  end.
Proof.
  cbn [get_members_loop]. unfold self_usage_of, filtered_out, member_record.
  destruct (is_private name); [done|].
  destruct (if callable member then uses_self member else Ok false); done.
Qed.

(** What a run of the loop records. *)
Lemma get_members_loop_spec (obj : container) (no_filter : bool)
    (members : list (string * value)) (printed printed' : gset (string * string))
    (ml ml' : list member_info) (r : res unit) :
  get_members_loop obj no_filter members printed ml = (r, printed', ml') ->
  exists added,
    ml' = ml ++ added /\
    printed' = list_to_set (map (fun mi => (c_name obj, mi_name mi)) added) ∪ printed /\
    NoDup (map mi_name added) /\
    Forall (fun mi =>
              exists name member flag,
                mi = member_record obj name member flag /\
                In (name, member) members /\
                is_private name = false /\
                self_usage_of member = Ok flag /\
                (no_filter = false -> filtered_out obj name member flag = false) /\
                (c_name obj, name) ∉ printed) added.
Proof.
  revert printed ml. induction members as [|[name member] rest IH]; intros printed ml.
  - intros [= <- <- <-]. exists []. rewrite app_nil_r. split; [done|].
    split; [set_solver|]. split; [constructor|constructor].
  - rewrite get_members_loop_cons. intros Hrun.
    assert (forall p m,
               get_members_loop obj no_filter rest p m = (r, printed', ml') ->
               p = printed -> m = ml ->
               exists added,
                 ml' = ml ++ added /\
                 printed' = list_to_set (map (fun mi => (c_name obj, mi_name mi)) added)
                              ∪ printed /\
                 NoDup (map mi_name added) /\
                 Forall (fun mi =>
                           exists name0 member0 flag,
                             mi = member_record obj name0 member0 flag /\
                             In (name0, member0) ((name, member) :: rest) /\
                             is_private name0 = false /\
                             self_usage_of member0 = Ok flag /\
                             (no_filter = false ->
                              filtered_out obj name0 member0 flag = false) /\
                             (c_name obj, name0) ∉ printed) added) as Hskip.
    { intros p m Hr -> ->. apply IH in Hr as (added & -> & -> & Hnd & Hall).
      exists added. repeat split; try done.
      eapply Forall_impl; [exact Hall|]. cbn beta.
      intros mi (n0 & m0 & f0 & -> & Hin & ?). exists n0, m0, f0.
      split; [done|]. split; [by right|done]. }
    destruct (is_private name) eqn:Hpriv; [by eapply Hskip|].
    destruct (self_usage_of member) as [flag|e] eqn:Hflag.
    2:{ injection Hrun as <- <- <-. exists []. rewrite app_nil_r. split; [done|].
        split; [set_solver|]. split; constructor. }
    destruct (negb no_filter && filtered_out obj name member flag)%bool eqn:Hfilter;
      [by eapply Hskip|].
    destruct (bool_decide ((c_name obj, name) ∈ printed)) eqn:Hprinted;
      [by eapply Hskip|].
    apply bool_decide_eq_false in Hprinted.
    apply IH in Hrun as (added & -> & -> & Hnd & Hall).
    exists (member_record obj name member flag :: added).
    split; [by rewrite <- app_assoc|].
    split; [cbn [map list_to_set mi_name member_record]; set_solver|].
    split.
    + cbn [map mi_name member_record]. apply NoDup_cons. split; [|done].
      rewrite list_elem_of_In, in_map_iff. intros (mi & Hname & Hin).
      rewrite List.Forall_forall in Hall. apply Hall in Hin
        as (n0 & m0 & f0 & -> & _ & _ & _ & _ & Hnot).
      cbn [mi_name member_record] in Hname. subst n0. set_solver.
    + constructor.
      * exists name, member, flag. split; [done|]. split; [by left|].
        split; [done|]. split; [done|]. split; [|done].
        intros ->. by cbn [negb andb] in Hfilter.
      * eapply Forall_impl; [exact Hall|]. cbn beta.
        intros mi (n0 & m0 & f0 & -> & Hin & Hp & Hf & Hfo & Hnot).
        exists n0, m0, f0. split; [done|]. split; [by right|].
        split; [done|]. split; [done|]. split; [done|]. set_solver.
Qed.

(** What [get_members] adds to the record of a container. *)
Lemma get_members_adds (self self' : Inspector) (obj : container) (no_filter : bool) :
  get_members self obj no_filter = (Ok tt, self') ->
  exists added,
    get_members_loop obj no_filter (c_members obj) (printed_members self) []
      = (Ok tt, printed_members self', added) /\
    captured_members self' !! c_name obj
      = Some (default [] (captured_members self !! c_name obj) ++ added) /\
    (forall other, other <> c_name obj ->
       captured_members self' !! other = captured_members self !! other).
Proof.
  unfold get_members.
  destruct (get_members_loop obj no_filter (c_members obj) (printed_members self) [])
    as [[r printed'] added] eqn:Hloop.
  destruct r as [[]|e]; [|discriminate]. intros [= <-]. cbn.
  exists added. split; [done|]. split.
  - rewrite lookup_alter_eq.
    destruct (captured_members self !! c_name obj) as [l|] eqn:Hl.
    + by rewrite Hl.
    + by rewrite lookup_insert_eq.
  - intros other Hne. rewrite lookup_alter_ne by done.
    destruct (captured_members self !! c_name obj); [done|].
    by rewrite lookup_insert_ne.
Qed.

(** X25: what a default scan records of a container: every record it adds is
    of a listed member whose name is not private, which is implemented
    locally and is not a special variable at class level, and the record
    carries the classification the classifiers give. *)
Theorem default_scan_records_local_members (self self' : Inspector) (obj : container)
    (mi : member_info) :
  get_members self obj false = (Ok tt, self') ->
  In mi (default [] (captured_members self' !! c_name obj)) ->
  In mi (default [] (captured_members self !! c_name obj)) \/
  exists flag,
    mi = member_record obj (mi_name mi) (mi_member mi) flag /\
    In (mi_name mi, mi_member mi) (c_members obj) /\
    is_private (mi_name mi) = false /\
    self_usage_of (mi_member mi) = Ok flag /\
    mi_implemented mi = Some "Local" /\
    (mi_level mi = MemberLevel.CLASS ->
     mi_member_type mi = MemberType.SPECIAL_VARIABLE -> False).
Proof.
  intros Hrun Hin. apply get_members_adds in Hrun as (added & Hloop & Hcap & _).
  rewrite Hcap in Hin. cbn [default] in Hin. apply in_app_or in Hin as [Hin|Hin];
    [by left|right].
  apply get_members_loop_spec in Hloop as (added' & Heq & _ & _ & Hall).
  cbn [app] in Heq. subst added'.
  rewrite List.Forall_forall in Hall.
  apply Hall in Hin as (name & member & flag & -> & Hm & Hp & Hf & Hfo & _).
  specialize (Hfo eq_refl). unfold filtered_out in Hfo.
  apply Bool.orb_false_iff in Hfo as [Hlocal Hspecial].
  apply Bool.negb_false_iff, String.eqb_eq in Hlocal.
  exists flag. cbn [mi_name mi_member member_record mi_implemented mi_level
                    mi_member_type].
  repeat split; try done.
  - by rewrite Hlocal.
  - intros Hl Ht. rewrite Hl, Ht in Hspecial.
    by rewrite !bool_decide_true in Hspecial.
Qed.

(** A member that the loop meets and does not skip is on record
    afterwards. *)
Lemma get_members_loop_complete (obj : container) (no_filter : bool)
    (members : list (string * value)) (printed printed' : gset (string * string))
    (ml ml' : list member_info) (name : string) (member : value) :
  get_members_loop obj no_filter members printed ml = (Ok tt, printed', ml') ->
  In (name, member) members ->
  is_private name = false ->
  (forall flag, self_usage_of member = Ok flag ->
                (negb no_filter && filtered_out obj name member flag)%bool = false) ->
  (c_name obj, name) ∈ printed \/ In name (map mi_name ml').
Proof.
  revert printed ml. induction members as [|[n m] rest IH]; intros printed ml Hrun Hin Hp Hf;
    [by destruct Hin|].
  rewrite get_members_loop_cons in Hrun.
  assert (forall p l, get_members_loop obj no_filter rest p l = (Ok tt, printed', ml') ->
                      In name (map mi_name l) -> In name (map mi_name ml')) as Hkeep.
  { intros p l Hr Hl. apply get_members_loop_grows in Hr as [suffix ->].
    rewrite map_app. apply in_or_app. by left. }
  destruct Hin as [[= -> ->]|Hin].
  - rewrite Hp in Hrun.
    destruct (self_usage_of member) as [flag|e] eqn:Hflag; [|discriminate].
    rewrite (Hf flag eq_refl) in Hrun.
    destruct (bool_decide ((c_name obj, name) ∈ printed)) eqn:Hprinted.
    + left. by apply bool_decide_eq_true in Hprinted.
    + right. eapply Hkeep; [done|]. rewrite map_app. apply in_or_app. right. by left.
  - destruct (is_private n); [by eapply IH|].
    destruct (self_usage_of m) as [flag|e]; [|discriminate].
    destruct (negb no_filter && filtered_out obj n m flag)%bool; [by eapply IH|].
    destruct (bool_decide ((c_name obj, n) ∈ printed)); [by eapply IH|].
    destruct (IH _ _ Hrun Hin Hp Hf) as [Hpr|Hml]; [|by right].
    apply elem_of_union in Hpr as [Hpr|Hpr]; [|by left].
    apply elem_of_singleton in Hpr as [= ->]. right.
    eapply Hkeep; [done|]. rewrite map_app. apply in_or_app. right. by left.
Qed.

Lemma dunder_of_special_variable (obj : container) (name : string) (member : value) :
  classify_member_type obj name member = MemberType.SPECIAL_VARIABLE ->
  is_dunder name = true.
Proof.
  unfold classify_member_type.
  destruct member, (get_member_descriptor obj name), (is_dunder name);
    cbn [callable negb]; congruence.
Qed.

Lemma own_member_is_local (obj : container) (name : string) (d : value) :
  dict_find (c_dict obj) name = Some d ->
  classify_implementation obj (implemented_in name obj)
    = Implemented.value Implemented.LOCAL.
Proof.
  intros Hd. unfold classify_implementation, implemented_in.
  destruct (c_kind obj).
  - rewrite Hd. rewrite (bool_decide_true (is_Some (Some d))) by eauto.
    by rewrite bool_decide_true.
  - rewrite Hd. rewrite (bool_decide_true (is_Some (Some d))) by eauto.
    by rewrite bool_decide_true.
  - rewrite bool_decide_false by done. rewrite bool_decide_false by done.
    rewrite bool_decide_false; [done|]. intros Hne. by apply Hne.
Qed.

(** X26: a default scan that goes through records every listed member that
    the container defines in its own dictionary under a name that is
    neither private nor a dunder name, unless an earlier scan marked the
    name as printed. *)
Theorem default_scan_records_own_members (self self' : Inspector) (obj : container)
    (name : string) (member d : value) :
  get_members self obj false = (Ok tt, self') ->
  In (name, member) (c_members obj) ->
  dict_find (c_dict obj) name = Some d ->
  startswith name "_" = false ->
  (c_name obj, name) ∉ printed_members self ->
  In name (captured_names self' (c_name obj)).
Proof.
  intros Hrun Hin Hd Hstart Hnot.
  assert (is_private name = false) as Hp by (unfold is_private; by rewrite Hstart).
  assert (is_dunder name = false) as Hdu.
  { clear - Hstart. unfold is_dunder, startswith in *.
    destruct name as [|c name]; [done|]. cbn [String.prefix] in *.
    destruct (Ascii.ascii_dec _ c); [|done]. by destruct name. }
  apply captured_names_get_members in Hrun as (printed' & ml' & Hloop & ->).
  apply in_or_app. right.
  eapply get_members_loop_complete in Hloop as [Hpr|Hml]; [done|done|done|done|].
  intros flag _. cbn [negb andb]. unfold filtered_out.
  rewrite (own_member_is_local _ _ _ Hd), String.eqb_refl. cbn [negb orb].
  destruct (bool_decide (classify_member_type obj name member
                         = MemberType.SPECIAL_VARIABLE)) eqn:Hsv;
    [|by rewrite Bool.andb_false_r].
  apply bool_decide_eq_true, dunder_of_special_variable in Hsv. congruence.
Qed.

(** A second run of the loop over the same members, on the names the first
    run marked, records nothing. *)
Lemma get_members_loop_again (obj : container) (no_filter no_filter' : bool)
    (members : list (string * value)) (printed printed' : gset (string * string))
    (ml ml' : list member_info) :
  get_members_loop obj no_filter members printed ml = (Ok tt, printed', ml') ->
  no_filter = true \/ no_filter' = false ->
  forall printed2 ml2,
    printed' ⊆ printed2 ->
    get_members_loop obj no_filter' members printed2 ml2 = (Ok tt, printed2, ml2).
Proof.
  intros Hrun Hflags.
  assert (forall n m, In (n, m) members -> is_private n = false ->
            exists flag, self_usage_of m = Ok flag /\
              ((negb no_filter' && filtered_out obj n m flag)%bool = true \/
               (c_name obj, n) ∈ printed')) as Hall.
  { revert printed ml Hrun.
    induction members as [|[n0 m0] rest IH]; intros printed ml Hrun n m Hin Hp;
      [by destruct Hin|].
    rewrite get_members_loop_cons in Hrun.
    destruct Hin as [[= -> ->]|Hin].
    - rewrite Hp in Hrun.
      destruct (self_usage_of m) as [flag|e]; [|discriminate].
      exists flag. split; [done|].
      destruct (negb no_filter && filtered_out obj n m flag)%bool eqn:Hf.
      { left. destruct Hflags as [-> | ->]; [done|].
        apply andb_prop in Hf as [_ ->]. done. }
      right.
      destruct (bool_decide ((c_name obj, n) ∈ printed)) eqn:Hpr.
      + apply bool_decide_eq_true in Hpr.
        apply get_members_loop_spec in Hrun as (? & _ & -> & _). set_solver.
      + apply get_members_loop_spec in Hrun as (? & _ & -> & _). set_solver.
    - destruct (is_private n0); [by eapply IH|].
      destruct (self_usage_of m0) as [flag|e]; [|discriminate].
      destruct (negb no_filter && filtered_out obj n0 m0 flag)%bool; [by eapply IH|].
      destruct (bool_decide ((c_name obj, n0) ∈ printed)); by eapply IH. }
  clear Hrun. intros printed2 ml2 Hsub.
  induction members as [|[n m] rest IH]; [done|].
  rewrite get_members_loop_cons.
  assert (get_members_loop obj no_filter' rest printed2 ml2 = (Ok tt, printed2, ml2))
    as Hrest.
  { apply IH. intros n1 m1 Hin. apply Hall. by right. }
  destruct (is_private n) eqn:Hp; [done|].
  destruct (Hall n m (or_introl eq_refl) Hp) as (flag & -> & [Hf|Hpr]).
  - by rewrite Hf.
  - destruct (negb no_filter' && filtered_out obj n m flag)%bool; [done|].
    rewrite bool_decide_true by set_solver. done.
Qed.

(** X27: scanning a container again records nothing and changes nothing in
    the inspector, as long as the second scan does not lift a filter the
    first one applied. *)
Theorem rescan_changes_nothing (self self1 : Inspector) (obj : container)
    (no_filter no_filter' : bool) :
  get_members self obj no_filter = (Ok tt, self1) ->
  no_filter = true \/ no_filter' = false ->
  get_members self1 obj no_filter' = (Ok tt, self1).
Proof.
  intros Hrun Hflags.
  apply get_members_adds in Hrun as (added & Hloop & Hcap & _).
  unfold get_members.
  rewrite (get_members_loop_again _ _ _ _ _ _ _ _ Hloop Hflags
             (printed_members self1) [] ltac:(done)).
  rewrite Hcap. f_equal. destruct self1 as [pc pm ch cm pa ob]. cbn in *.
  f_equal. apply map_eq. intros key.
  destruct (decide (key = c_name obj)) as [->|Hne].
  - rewrite lookup_alter_eq, Hcap. cbn. by rewrite app_nil_r.
  - by rewrite lookup_alter_ne.
Qed.

(** The names on record are marked as printed, and no name is on record
    twice. *)
Lemma get_members_keeps_names_apart (self : Inspector) (obj : container)
    (no_filter : bool) :
  (forall class_name,
      NoDup (captured_names self class_name) /\
      forall name, In name (captured_names self class_name) ->
                   (class_name, name) ∈ printed_members self) ->
  forall class_name,
    NoDup (captured_names (snd (get_members self obj no_filter)) class_name) /\
    forall name,
      In name (captured_names (snd (get_members self obj no_filter)) class_name) ->
      (class_name, name) ∈ printed_members (snd (get_members self obj no_filter)).
Proof.
  intros Hinv class_name.
  destruct (get_members self obj no_filter) as [r self'] eqn:Hrun. cbn [snd].
  destruct r as [[]|e].
  - pose proof Hrun as Hadds.
    apply get_members_adds in Hadds as (added & Hloop & Hcap & Hother).
    apply get_members_loop_spec in Hloop as (added' & Heq & Hprinted & Hnd & Hall).
    cbn [app] in Heq. subst added'.
    destruct (decide (class_name = c_name obj)) as [->|Hne].
    + unfold captured_names in *. rewrite Hcap. cbn [from_option id]. rewrite map_app.
      destruct (Hinv (c_name obj)) as [Hnd0 Hin0]. split.
      * apply NoDup_app. split; [done|]. split; [|done].
        intros name Hold Hnew. rewrite list_elem_of_In in Hold, Hnew.
        apply Hin0 in Hold. apply in_map_iff in Hnew as (mi & <- & Hmi).
        rewrite List.Forall_forall in Hall.
        apply Hall in Hmi as (n0 & m0 & f0 & -> & _ & _ & _ & _ & Hnot). done.
      * intros name Hin. apply in_app_or in Hin as [Hin|Hin].
        -- rewrite Hprinted. apply elem_of_union. right. by apply Hin0.
        -- rewrite Hprinted. apply elem_of_union. left.
           apply in_map_iff in Hin as (mi & <- & Hmi).
           apply elem_of_list_to_set, list_elem_of_In, in_map_iff. by exists mi.
    + unfold captured_names in *. rewrite Hother by done.
      destruct (Hinv class_name) as [Hnd0 Hin0]. split; [done|].
      intros name Hin. rewrite Hprinted. apply elem_of_union. right. by apply Hin0.
  - unfold get_members in Hrun.
    destruct (get_members_loop obj no_filter (c_members obj) (printed_members self) [])
      as [[r printed'] added] eqn:Hloop.
    destruct r as [[]|e']; [discriminate|]. injection Hrun as _ <-.
    apply get_members_loop_spec in Hloop as (added' & _ & -> & _).
    unfold captured_names, with_printed_members in *. cbn.
    destruct (Hinv class_name) as [Hnd0 Hin0]. split; [done|].
    intros name Hin. apply elem_of_union. right. by apply Hin0.
Qed.

(** X28: however many scans are run on an inspector, of whatever containers
    and with whatever flags, no name is recorded twice for one class name:
    members are told apart by the name of their class and their own name,
    so that of two classes of one name the second adds only the names the
    first did not have. *)
Theorem scans_record_each_name_once (scans : list (container * bool))
    (class_name : string) :
  NoDup (captured_names (scan_all Inspector_init scans) class_name).
Proof.
  assert (forall self,
             (forall cn, NoDup (captured_names self cn) /\
                         forall name, In name (captured_names self cn) ->
                                      (cn, name) ∈ printed_members self) ->
             forall cn, NoDup (captured_names (scan_all self scans) cn) /\
                        forall name, In name (captured_names (scan_all self scans) cn) ->
                                     (cn, name) ∈ printed_members (scan_all self scans))
    as Hgen.
  { induction scans as [|[obj nf] scans IH]; intros self Hinv; [done|].
    unfold scan_all. cbn [fold_left fst snd]. apply IH.
    by apply get_members_keeps_names_apart. }
  apply Hgen. intros cn. unfold captured_names, Inspector_init. cbn.
  rewrite lookup_empty. cbn. split; [constructor|by intros ? []].
Qed.



End ScanFacts.

(** X30: the two classifiers agree on the members of a class: a member
    typed as a property is at instance level, and a member typed as a
    static method, a class method, a variable or a special variable is at
    class level, whatever its provenance and whether or not it declares
    [self]. *)
Theorem class_member_type_fixes_level (obj : container) (name : string)
    (member : value) (implemented_from : option string) (uses_self_flag : bool) :
  c_kind obj = IsClass ->
  match classify_member_type obj name member with
  | MemberType.PROPERTY =>
      classify_member_level obj name member implemented_from uses_self_flag
        = MemberLevel.INSTANCE
  | MemberType.STATIC_METHOD | MemberType.CLASS_METHOD
  | MemberType.VARIABLE | MemberType.SPECIAL_VARIABLE =>
      classify_member_level obj name member implemented_from uses_self_flag
        = MemberLevel.CLASS
  | _ => True
  end.
Proof.
  intros Hk. unfold classify_member_type, classify_member_level. rewrite Hk.
  destruct member, (get_member_descriptor obj name), (is_dunder name);
    cbn [callable negb]; done.
Qed.

(** ** The further properties at work *)

Lemma subscribe_then_notify_witness :
  let observer := subscribe Observer_init "before_call" (VFunction 7) "class" in
  @notify (Demo.demo_host 5) observer VNone "before_call"
    [VClass "MyClass"; VStr "area"] [("level", VStr "class")] Demo.initial
  = (Ok (VInt 1), Demo.bump "a_runs" Demo.initial,
     [EvCallback "class_before_call" (VFunction 7)
        [VClass "MyClass"; VStr "area"] (Ok (VInt 1))]).
Proof.
  intros observer.
  apply (@subscribe_then_notify (Demo.demo_host 5) Observer_init "before_call" "class"
           (VFunction 7) VNone (VClass "MyClass") [VStr "area"]
           [("level", VStr "class")] Demo.initial (Demo.bump "a_runs" Demo.initial)
           (Ok (VInt 1))).
  - reflexivity.
  - reflexivity.
  - reflexivity.
  - reflexivity.
  - reflexivity.
  - discriminate.
Defined.

Lemma patched_call_without_subscribers_witness :
  let w := InstPatchedMethod (VFunction 6) (VClass "MyClass") "area" in
  let out := @call_patched (Demo.demo_host 5) Observer_init w [VInstance 1]
               [("x", VInt 2)] Demo.initial in
  result_of out = Ok (VInt 7) /\
  events_of out = [EvOriginal (VFunction 6) [VInstance 1] [("x", VInt 2)]].
Proof.
  intros w out.
  assert (out = (let (r, st') := @call_value (Demo.demo_host 5) (VFunction 6)
                                   [VInstance 1] [("x", VInt 2)] Demo.initial in
                 (r, st', [EvOriginal (VFunction 6) [VInstance 1] [("x", VInt 2)]])))
    as Hrun.
  { apply (@patched_call_without_subscribers (Demo.demo_host 5) Observer_init w
             (VFunction 6) [VInstance 1] [("x", VInt 2)] Demo.initial).
    - reflexivity.
    - intros p [= <-]. split; [discriminate|reflexivity].
    - reflexivity.
    - reflexivity. }
  rewrite Hrun. split; reflexivity.
Defined.

Lemma denylisted_name_is_not_observed_witness :
  let observer := subscribe Observer_init "before_call" (VFunction 5) "instance" in
  let w := InstPatchedMethod (VFunction 6) (VClass "MyClass") "atom_free" in
  let out := @call_patched (Demo.demo_host 5) observer w [VInstance 1] [] Demo.initial in
  result_of out = Ok (VInt 7) /\
  events_of out = [EvOriginal (VFunction 6) [VInstance 1] []].
Proof.
  intros observer w out.
  assert (out = (let (r, st') := @call_value (Demo.demo_host 5) (VFunction 6)
                                   [VInstance 1] [] Demo.initial in
                 (r, st', [EvOriginal (VFunction 6) [VInstance 1] []]))) as Hrun.
  { apply (@denylisted_name_is_not_observed (Demo.demo_host 5) observer w
             (VFunction 6) [VInstance 1] [] Demo.initial).
    - reflexivity.
    - intros p [= <-]. split; [discriminate|reflexivity].
    - vm_compute. reflexivity. }
  rewrite Hrun. split; reflexivity.
Defined.

Lemma before_call_answer_replaces_arguments_witness :
  let observer :=
    subscribe_all Observer_init
      [("before_call", VFunction 9, "instance"); ("before_call", VFunction 101, "instance");
       ("before_call", VFunction 101, "class")] in
  let method := @call_patched Demo2.demo2_host observer
                  (InstPatchedMethod (VFunction 102) (VClass "MyClass") "echo")
                  [VInstance 1; VInt 3] [] Demo.initial in
  let static_method := @call_patched Demo2.demo2_host observer
                         (InstPatchedStaticMethod (VFunction 102) (VClass "MyClass") "echo")
                         [VInt 3] [] Demo.initial in
  original_calls (events_of method)
    = [EvOriginal (VFunction 102) [VInstance 1; VInt 9] []] /\
  original_calls (events_of static_method) = [EvOriginal (VFunction 102) [VInt 9] []].
Proof.
  intros observer method static_method. split.
  - apply (@before_call_answer_replaces_arguments Demo2.demo2_host observer
             (InstPatchedMethod (VFunction 102) (VClass "MyClass") "echo") (VFunction 102)
             [VInstance 1; VInt 3] [] Demo.initial
             (Demo.bump "silent_runs" Demo.initial) (Demo.bump "silent_runs" Demo.initial)
             [VFunction 9] [] (VFunction 101) [VInt 9] []
             [EvCallback "instance_before_call" (VFunction 9)
                [VClass "MyClass"; VStr "echo"; VTuple [VInt 3]; VDict []] (Ok VNone)]).
    + reflexivity.
    + intros p [= <-]. split; [discriminate|reflexivity].
    + reflexivity.
    + vm_compute; reflexivity.
    + vm_compute; reflexivity.
    + vm_compute; reflexivity.
    + vm_compute; reflexivity.
  - apply (@before_call_answer_replaces_arguments Demo2.demo2_host observer
             (InstPatchedStaticMethod (VFunction 102) (VClass "MyClass") "echo")
             (VFunction 102) [VInt 3] [] Demo.initial Demo.initial Demo.initial
             [] [] (VFunction 101) [VInt 9] [] []).
    + reflexivity.
    + intros p Hp. discriminate Hp.
    + reflexivity.
    + vm_compute; reflexivity.
    + vm_compute; reflexivity.
    + vm_compute; reflexivity.
    + vm_compute; reflexivity.
Defined.

Lemma after_call_answer_replaces_result_witness :
  let observer :=
    subscribe_all Observer_init
      [("after_call", VFunction 9, "instance"); ("after_call", VFunction 7, "instance");
       ("after_call", VFunction 7, "module")] in
  let method := @call_patched (Demo.demo_host 5) observer
                  (InstPatchedMethod (VFunction 6) (VClass "MyClass") "area")
                  [VInstance 1] [] Demo.initial in
  let function := @call_patched (Demo.demo_host 5) observer
                    (InstPatchedFunction (VFunction 6) (VModule "tools") "run")
                    [] [] Demo.initial in
  result_of method = Ok (VInt 1) /\ result_of function = Ok (VInt 1).
Proof.
  intros observer method function. split.
  - unfold method.
    rewrite (@after_call_answer_replaces_result (Demo.demo_host 5) observer
               (InstPatchedMethod (VFunction 6) (VClass "MyClass") "area") (VFunction 6)
               [VInstance 1] [] Demo.initial
               (Demo.bump "body_runs" Demo.initial)
               (Demo.bump "silent_runs" (Demo.bump "body_runs" Demo.initial))
               (Demo.bump "a_runs"
                  (Demo.bump "silent_runs" (Demo.bump "body_runs" Demo.initial)))
               (VInt 7) [VFunction 9] [] (VFunction 7) (VInt 1)
               [EvCallback "instance_after_call" (VFunction 9)
                  [VClass "MyClass"; VStr "area"; VInt 7] (Ok VNone)]).
    + reflexivity.
    + reflexivity.
    + intros p [= <-]. split; [discriminate|reflexivity].
    + vm_compute; reflexivity.
    + vm_compute; reflexivity.
    + vm_compute; reflexivity.
    + vm_compute; reflexivity.
    + vm_compute; reflexivity.
    + vm_compute; reflexivity.
    + vm_compute; reflexivity.
    + reflexivity.
  - unfold function.
    rewrite (@after_call_answer_replaces_result (Demo.demo_host 5) observer
               (InstPatchedFunction (VFunction 6) (VModule "tools") "run") (VFunction 6)
               [] [] Demo.initial
               (Demo.bump "body_runs" Demo.initial)
               (Demo.bump "body_runs" Demo.initial)
               (Demo.bump "a_runs" (Demo.bump "body_runs" Demo.initial))
               (VInt 7) [] [] (VFunction 7) (VInt 1) []).
    + reflexivity.
    + reflexivity.
    + intros p Hp. discriminate Hp.
    + vm_compute; reflexivity.
    + vm_compute; reflexivity.
    + vm_compute; reflexivity.
    + vm_compute; reflexivity.
    + vm_compute; reflexivity.
    + vm_compute; reflexivity.
    + vm_compute; reflexivity.
    + reflexivity.
Defined.

Lemma malformed_answer_raises_value_error_witness :
  let observer := subscribe Observer_init "before_call" (VFunction 104) "instance" in
  let w := InstPatchedMethod (VFunction 102) (VClass "MyClass") "echo" in
  let out := @call_patched Demo2.demo2_host observer w [VInstance 1; VInt 3] []
               Demo.initial in
  result_of out = Raise ValueError /\ original_calls (events_of out) = [].
Proof.
  intros observer w out.
  apply (@malformed_answer_raises_value_error Demo2.demo2_host observer w
           (VFunction 102) [VInstance 1; VInt 3] [] Demo.initial
           (state_of out) (result_of out) (events_of out)
           (VFunction 104) [VClass "MyClass"; VStr "echo"; VTuple [VInt 3]; VDict []]
           [VInt 1]).
  - reflexivity.
  - discriminate.
  - reflexivity.
  - vm_compute. left. reflexivity.
  - simpl. lia.
Defined.

Lemma module_function_payload_hides_module_witness :
  exists rest,
    [VNone; VStr "helper"; VTuple [VInt 3]; VDict []]
    = VNone :: VStr "helper" :: rest.
Proof.
  pose (observer := subscribe Observer_init "before_call" (VFunction 9) "module").
  pose (out := @patched_function (Demo.demo_host 5) observer (VFunction 6)
                 (VModule "tools") "helper" [VInt 3] [] Demo.initial).
  apply (@module_function_payload_hides_module (Demo.demo_host 5) observer
           (VFunction 6) "tools" "helper" [VInt 3] [] Demo.initial
           (state_of out) (result_of out) (events_of out)
           "module_before_call" (VFunction 9) _ (Ok VNone)).
  - reflexivity.
  - vm_compute. left. reflexivity.
Defined.

Lemma suppressed_read_still_reads_witness :
  let observer := subscribe Observer_init "get" (VFunction 106) "instance" in
  let out := @instance_getter Demo2.demo2_host Demo2.failing_property "p"
               (VClass "MyClass") observer "instance" (VInstance 1) Demo.initial in
  result_of out = Ok (VInt 0) /\
  original_calls (events_of out) = [EvOriginal (VFunction 107) [VInstance 1] []].
Proof.
  intros observer out.
  apply (@suppressed_read_still_reads Demo2.demo2_host Demo2.failing_property "p"
           (VClass "MyClass") observer "instance" (VInstance 1) Demo.initial
           (state_of out) (result_of out) (events_of out)
           (VFunction 106) [VClass "MyClass"; VStr "p"; VInt 10]
           [("do_not_really_get", VBool true); ("return_value", VInt 0)]).
  - reflexivity.
  - reflexivity.
  - reflexivity.
  - vm_compute. right. left. reflexivity.
  - reflexivity.
Defined.

Lemma getter_ignores_other_answers_witness :
  let observer := subscribe Observer_init "get" (VFunction 105) "instance" in
  let out := @instance_getter Demo2.demo2_host Demo2.failing_property "p"
               (VClass "MyClass") observer "instance" (VInstance 1) Demo.initial in
  match result_of out with Ok x => x | Raise _ => VNone end = VInt 10.
Proof.
  intros observer out.
  apply (@getter_ignores_other_answers Demo2.demo2_host Demo2.failing_property "p"
           (VClass "MyClass") observer "instance" (VInstance 1) Demo.initial
           (set_suspend true Demo.initial) (state_of out) (VInt 10)
           (match result_of out with Ok x => x | Raise _ => VNone end) (events_of out)).
  - reflexivity.
  - reflexivity.
  - reflexivity.
  - reflexivity.
  - intros cb cargs d Hin. vm_compute in Hin.
    destruct Hin as [Hin|[Hin|[]]]; discriminate Hin.
Defined.

Lemma getter_clears_flag_on_failure_witness :
  let failed := @instance_getter Demo2.demo2_host Demo2.unreadable_property "p"
                  (VClass "MyClass") Observer_init "instance" (VInstance 1) Demo.initial in
  let interrupted := @instance_getter Demo2.demo2_host Demo2.interrupted_property "p"
                       (VClass "MyClass") Observer_init "instance" (VInstance 1)
                       Demo.initial in
  (result_of failed = Raise ValueError /\ suspend_trace (state_of failed) = false) /\
  (result_of interrupted = Raise KeyboardInterrupt /\
   state_of interrupted = set_suspend true Demo.initial).
Proof.
  intros failed interrupted. split.
  - split; [reflexivity|].
    apply (@getter_clears_flag_on_failure Demo2.demo2_host Demo2.unreadable_property "p"
             (VClass "MyClass") Observer_init "instance" (VInstance 1) Demo.initial
             (state_of failed) ValueError (events_of failed) eq_refl eq_refl).
    reflexivity.
  - split; [reflexivity|].
    exact (proj2
             (proj2 (@getter_clears_flag_on_failure Demo2.demo2_host
                       Demo2.interrupted_property "p" (VClass "MyClass") Observer_init
                       "instance" (VInstance 1) Demo.initial (state_of interrupted)
                       KeyboardInterrupt (events_of interrupted) eq_refl eq_refl)
                KeyboardInterrupt (set_suspend true Demo.initial)
                eq_refl eq_refl eq_refl)).
Defined.

Lemma setter_leaves_flag_clear_witness :
  let vetoed := @instance_setter (Demo.demo_host 5) Demo.my_instance_property
                  "my_instance_property" (VClass "MyClass") Demo.veto_observer "instance"
                  (VInstance 1) (VInt 200) Demo.initial in
  let interrupted := @instance_setter Demo2.demo2_host Demo2.interrupted_property "p"
                       (VClass "MyClass") Observer_init "instance" (VInstance 1) (VInt 7)
                       Demo.initial in
  suspend_trace (state_of vetoed) = false /\
  (result_of interrupted = Raise KeyboardInterrupt /\
   state_of interrupted = set_suspend true Demo.initial).
Proof.
  intros vetoed interrupted. split.
  - apply (proj1 (@setter_leaves_flag_clear (Demo.demo_host 5) Demo.my_instance_property
                    "my_instance_property" (VClass "MyClass") Demo.veto_observer
                    "instance" (VInstance 1) (VInt 200) Demo.initial (state_of vetoed)
                    (result_of vetoed) (events_of vetoed) eq_refl eq_refl)).
    intros e He. vm_compute in He. discriminate He.
  - exact (proj2 (@setter_leaves_flag_clear Demo2.demo2_host Demo2.interrupted_property
                    "p" (VClass "MyClass") Observer_init "instance" (VInstance 1) (VInt 7)
                    Demo.initial (state_of interrupted) (result_of interrupted)
                    (events_of interrupted) eq_refl eq_refl)
             KeyboardInterrupt (set_suspend true Demo.initial)
             eq_refl eq_refl eq_refl eq_refl).
Defined.

Lemma setter_attribute_error_fallback_witness :
  let out := @instance_setter Demo2.demo2_host Demo2.failing_property "p"
               (VClass "MyClass") Observer_init "instance" (VInstance 1) (VInt 7)
               Demo.initial in
  result_of out = Ok tt /\
  Demo.heap_get "instance_var" (state_of out) = Some (VInt 7).
Proof.
  intros out.
  pose proof (@setter_attribute_error_fallback Demo2.demo2_host Demo2.failing_property "p"
                (VClass "MyClass") Observer_init "instance" (VInstance 1) (VInt 7)
                Demo.initial (set_suspend true Demo.initial)
                eq_refl eq_refl eq_refl eq_refl) as Hrun.
  fold out in Hrun. rewrite Hrun. split; reflexivity.
Defined.

Lemma notify_answer_of_subscriber_witness :
  let observer := subscribe Observer_init "get" (VFunction 7) "instance" in
  let out := @notify (Demo.demo_host 5) observer VNone "get"
               [VClass "MyClass"; VStr "x"] [] Demo.initial in
  exists cb a, In (EvCallback "instance_get" cb a (Ok (VInt 1))) (events_of out).
Proof.
  intros observer out.
  apply (@notify_answer_of_subscriber (Demo.demo_host 5) observer VNone "get"
           [VClass "MyClass"; VStr "x"] [] Demo.initial (state_of out) (VInt 1)
           (events_of out)).
  - reflexivity.
  - reflexivity.
  - reflexivity.
Defined.

Lemma class_variable_set_then_get_witness :
  let d := ClassVariableDescriptor_init "class_var" (VInt 100) in
  exists d',
    @ClassVariableDescriptor_set (Demo.demo_host 5) Observer_init d VNone (VInt 5)
      Demo.initial = (Ok d', Demo.initial, []) /\
    cvd_name d' = "class_var" /\
    @ClassVariableDescriptor_get (Demo.demo_host 5) Observer_init d' VNone
      (VClass "MyClass") Demo.initial = (Ok (VInt 5), Demo.initial, []).
Proof.
  intros d.
  apply (@class_variable_set_then_get (Demo.demo_host 5) Observer_init d VNone
           (VClass "MyClass") (VInt 5) Demo.initial).
  - reflexivity.
  - reflexivity.
Defined.

Lemma class_variable_set_protocol_witness :
  let observer := subscribe Observer_init "set" (VFunction 108) "class" in
  let d := ClassVariableDescriptor_init "class_var" (VInt 100) in
  let out := @ClassVariableDescriptor_set Demo2.demo2_host observer d
               (VClass "MyClass") (VInt 5) Demo.initial in
  let d' := match result_of out with Ok d' => d' | Raise _ => d end in
  cvd_name d' = "class_var" /\ cvd_value d' = VNone.
Proof.
  intros observer d out d'.
  apply (@class_variable_set_protocol Demo2.demo2_host observer d d'
           (VClass "MyClass") (VInt 5) Demo.initial (state_of out) (events_of out)
           (VFunction 108) [VClass "MyClass"; VStr "class_var"; VInt 5]
           [("really_set", VBool true)]).
  - reflexivity.
  - vm_compute. left. reflexivity.
Defined.

Lemma module_setter_stores_answer_witness :
  let observer := subscribe Observer_init "set" (VFunction 105) "module" in
  let out := @module_setter Demo2.demo2_host observer false (VInt 3) (VModule "tools")
               "limit" (Some (VInt 3)) (VInt 4) Demo.initial in
  match result_of out with Ok cell => cell | Raise _ => None end = Some (VInt 5).
Proof.
  intros observer out.
  apply (@module_setter_stores_answer Demo2.demo2_host observer (VInt 3) (VModule "tools")
           "limit" (Some (VInt 3))
           (match result_of out with Ok cell => cell | Raise _ => None end)
           (VInt 4) Demo.initial (state_of out) (events_of out)
           (VFunction 105) [VNone; VStr "limit"; VInt 4] (VInt 5)).
  - reflexivity.
  - vm_compute. left. reflexivity.
  - reflexivity.
Defined.

Lemma class_setter_protocol_witness :
  let observer := subscribe Observer_init "set" (VFunction 108) "class" in
  let out := @class_setter Demo2.demo2_host observer false (VInt 100) (VClass "MyClass")
               "class_var" (Some (VInt 100)) (VInt 5) Demo.initial in
  match result_of out with Ok cell => cell | Raise _ => None end = Some (VInt 5).
Proof.
  intros observer out.
  apply (@class_setter_protocol Demo2.demo2_host observer (VInt 100) (VClass "MyClass")
           "class_var" (Some (VInt 100))
           (match result_of out with Ok cell => cell | Raise _ => None end)
           (VInt 5) Demo.initial (state_of out) (events_of out)
           (VFunction 108) [VClass "MyClass"; VStr "class_var"; VInt 5]
           [("really_set", VBool true)]).
  - reflexivity.
  - vm_compute. left. reflexivity.
Defined.

Lemma static_property_takes_shadow_attribute_witness :
  let class_var := {| mi_name := "class_var"; mi_member := VInt 100;
                      mi_member_type := MemberType.VARIABLE;
                      mi_level := MemberLevel.CLASS;
                      mi_implemented := Some "Local";
                      mi_implemented_from := Some (Some "MyClass");
                      mi_class_name := "MyClass"; mi_class_object := Demo.MyClass |} in
  let ns := [("MyClass", "_class_var", InstValue (VStr "kept by the class"))] in
  let out := patch_member_info Inspector_init Demo.MyClass class_var ns in
  installed_at "MyClass" "_class_var" (snd out)
    = [InstValue (VInt 100); InstValue (VStr "kept by the class")] /\
  installed_at "MyClass" "class_var" (snd out)
    = [InstStaticProperty (VClass "MyClass") "class_var" (VInt 100)].
Proof.
  intros class_var ns out.
  apply (static_property_takes_shadow_attribute Inspector_init (snd (fst out)) Demo.MyClass
           class_var ns (snd out) (fst (fst out)) (VInt 100)); reflexivity.
Defined.

Lemma patch_leaves_other_attributes_witness :
  let class_var := {| mi_name := "class_var"; mi_member := VInt 100;
                      mi_member_type := MemberType.VARIABLE;
                      mi_level := MemberLevel.CLASS;
                      mi_implemented := Some "Local";
                      mi_implemented_from := Some (Some "MyClass");
                      mi_class_name := "MyClass"; mi_class_object := Demo.MyClass |} in
  let ns := [("MyClass", "f", InstValue (VInt 0))] in
  let out := patch_member_info Inspector_init Demo.MyClass class_var ns in
  installed_at "MyClass" "f" (snd out) = [InstValue (VInt 0)].
Proof.
  intros class_var ns out.
  apply (patch_leaves_other_attributes Inspector_init (snd (fst out)) Demo.MyClass
           class_var ns (snd out) (fst (fst out)) "MyClass" "f").
  - reflexivity.
  - right. split; discriminate.
Defined.

Lemma module_function_is_observed_at_class_level_witness :
  let out := @create_member_info_and_patch_member (Demo.demo_host 5) Inspector_init
               Demo2.tools "helper" (VFunction 6) [] in
  let w := InstPatchedStaticMethod (VFunction 6) (VModule "tools") "helper" in
  let observer := subscribe Observer_init "before_call" (VFunction 5) "module" in
  snd out = [("tools", "helper", w)] /\
  result_of (@call_patched (Demo.demo_host 5) observer w [] [] Demo.initial)
    = Ok (VInt 7).
Proof.
  intros out w observer.
  destruct (@module_function_is_observed_at_class_level (Demo.demo_host 5) Inspector_init
              (snd (fst out)) Demo2.tools "helper" 6 [] (snd out)
              eq_refl eq_refl eq_refl eq_refl eq_refl eq_refl) as [Hns Hcall].
  split; [exact Hns|].
  specialize (Hcall observer [] [] Demo.initial eq_refl eq_refl).
  apply (f_equal (fun o => result_of o)) in Hcall. exact Hcall.
Defined.

Lemma equal_valued_variables_share_one_patch_witness :
  let out := patch_instance_variables Inspector_init Demo.MyClass
               [("a", VInt 1); ("b", VBool true)] [] in
  installed_at "MyClass" "b" (snd out) = [].
Proof.
  intros out.
  apply (equal_valued_variables_share_one_patch Demo.MyClass [("a", VInt 1)] []
           "b" "a" (VBool true) (VInt 1) Inspector_init (snd (fst out)) [] (snd out)
           (fst (fst out))).
  - reflexivity.
  - left. reflexivity.
  - reflexivity.
  - cbn [app map fst]. apply NoDup_cons_2.
    + intros Hin. apply list_elem_of_In in Hin. destruct Hin as [Hin|[]]. discriminate Hin.
    + apply NoDup_cons_2; [|apply NoDup_nil_2].
      intros Hin. apply list_elem_of_In in Hin. destruct Hin.
Defined.


Lemma default_scan_records_local_members_witness :
  let self' := snd (@get_members (Demo.demo_host 0) Inspector_init Demo.MyClass false) in
  let mi := @member_record Demo.MyClass "f" (VFunction 20) true in
  In mi (default [] (captured_members Inspector_init !! "MyClass")) \/
  exists flag,
    mi = member_record Demo.MyClass (mi_name mi) (mi_member mi) flag /\
    In (mi_name mi, mi_member mi) (c_members Demo.MyClass) /\
    is_private (mi_name mi) = false /\
    @self_usage_of (Demo.demo_host 0) (mi_member mi) = Ok flag /\
    mi_implemented mi = Some "Local" /\
    (mi_level mi = MemberLevel.CLASS ->
     mi_member_type mi = MemberType.SPECIAL_VARIABLE -> False).
Proof.
  intros self' mi.
  apply (@default_scan_records_local_members (Demo.demo_host 0) Inspector_init self'
           Demo.MyClass mi).
  - reflexivity.
  - vm_compute. right. right. left. reflexivity.
Defined.

Lemma default_scan_records_own_members_witness :
  In "class_var"
     (captured_names (snd (@get_members (Demo.demo_host 0) Inspector_init Demo.MyClass false))
        "MyClass").
Proof.
  apply (@default_scan_records_own_members (Demo.demo_host 0) Inspector_init
           (snd (@get_members (Demo.demo_host 0) Inspector_init Demo.MyClass false))
           Demo.MyClass "class_var" (VInt 100) (VInt 100)).
  - reflexivity.
  - vm_compute. tauto.
  - reflexivity.
  - reflexivity.
  - simpl. apply not_elem_of_empty.
Defined.

Lemma rescan_changes_nothing_witness :
  let self1 := snd (@get_members (Demo.demo_host 0) Inspector_init Demo.MyClass true) in
  @get_members (Demo.demo_host 0) self1 Demo.MyClass false = (Ok tt, self1).
Proof.
  intros self1.
  apply (@rescan_changes_nothing (Demo.demo_host 0) Inspector_init self1 Demo.MyClass
           true false).
  - reflexivity.
  - left. reflexivity.
Defined.


Lemma class_member_type_fixes_level_witness :
  classify_member_level Demo.MyClass "my_instance_property" Demo.my_instance_property
    (Some "MyClass") false = MemberLevel.INSTANCE /\
  classify_member_level Demo.MyClass "class_var" (VInt 100) (Some "MyClass") true
    = MemberLevel.CLASS.
Proof.
  split.
  - exact (class_member_type_fixes_level Demo.MyClass "my_instance_property"
             Demo.my_instance_property (Some "MyClass") false eq_refl).
  - exact (class_member_type_fixes_level Demo.MyClass "class_var" (VInt 100)
             (Some "MyClass") true eq_refl).
Defined.
